(** * Reporter: the connection manager and the report pipeline

    A shallow embedding of [src/modules/database/sql_connection.py]
    (class [SQLConnection]), of [src/reporter.py] ([get_date_range],
    [fetch_data], [main]) and of the two helpers the pipeline calls,
    [generate_excel_report] and [send_email_with_attachment].

    Python code that raises is embedded in a state-and-exception monad in
    which the state survives a raised exception, as it does in Python: an
    [except] handler sees every effect of the [try] block it guards.
    Everything the program does to the outside world (driver calls, log
    lines, printed lines, files written, HTTP posts) is appended to a
    chronological trace. *)

From Stdlib Require Import ZArith List String Ascii Bool Lia DecimalString.
Import ListNotations.
Open Scope string_scope.
Open Scope Z_scope.

(** ** Exceptions and outcomes *)

(** The exception classes the embedded code raises or receives.
    [DriverError] stands for [pyodbc.Error], [HTTPError] for whatever
    [requests.post] raises, [OSError] for what opening or writing a file
    raises.  All of them derive from [Exception]. *)
Inductive exn : Type :=
| ValueError (msg : string)
| TypeError (msg : string)
| IndexError
| AttributeError
| OverflowError
| ConnectionError (msg : string)
| KeyError (key : string)
| DriverError (msg : string)
| HTTPError (msg : string)
| OSError (msg : string).

(** [str(e)] as the handlers format it into their log lines. *)
Definition exn_str (e : exn) : string :=
  match e with
  | ValueError m | TypeError m | ConnectionError m
  | DriverError m | HTTPError m | OSError m => m
  | KeyError k => "'" ++ k ++ "'"
  | IndexError => "list index out of range"
  | AttributeError => "'NoneType' object has no attribute"
  | OverflowError => "date value out of range"
  end.

(** [isinstance(e, ConnectionError)], the test of [fetch_data]'s first
    handler. *)
Definition is_ConnectionError (e : exn) : bool :=
  match e with ConnectionError _ => true | _ => false end.

Inductive outcome (A : Type) : Type :=
| Ret (a : A)
| Raise (e : exn).
Arguments Ret {A} a.
Arguments Raise {A} e.

Definition returns {A} (o : outcome A) : bool :=
  match o with Ret _ => true | Raise _ => false end.

(** ** Calendar dates ([datetime.date])

    The arithmetic is that of the reference implementation of the
    [datetime] module: a date is a (year, month, day) triple, and
    subtracting a [timedelta] goes through the proleptic Gregorian
    ordinal and back. *)
Module Date.

Record date : Type := mk { year : Z; month : Z; day : Z }.

Definition MINYEAR : Z := 1.
Definition MAXYEAR : Z := 9999.
Definition MAXORDINAL : Z := 3652059.

Definition is_leap (y : Z) : bool :=
  (y mod 4 =? 0) && (negb (y mod 100 =? 0) || (y mod 400 =? 0)).

Definition DAYS_IN_MONTH : list Z :=
  [-1; 31; 28; 31; 30; 31; 30; 31; 31; 30; 31; 30; 31].

Definition DAYS_BEFORE_MONTH : list Z :=
  [-1; 0; 31; 59; 90; 120; 151; 181; 212; 243; 273; 304; 334].

Definition table (t : list Z) (m : Z) : Z := nth (Z.to_nat m) t 0.

Definition b2z (b : bool) : Z := if b then 1 else 0.

Definition days_before_year (y : Z) : Z :=
  let y1 := y - 1 in y1 * 365 + y1 / 4 - y1 / 100 + y1 / 400.

Definition days_in_month (y m : Z) : Z :=
  if (m =? 2) && is_leap y then 29 else table DAYS_IN_MONTH m.

Definition days_before_month (y m : Z) : Z :=
  table DAYS_BEFORE_MONTH m + b2z ((2 <? m) && is_leap y).

Definition ymd2ord (y m d : Z) : Z :=
  days_before_year y + days_before_month y m + d.

Definition DI400Y : Z := Eval cbv in days_before_year 401.
Definition DI100Y : Z := Eval cbv in days_before_year 101.
Definition DI4Y : Z := Eval cbv in days_before_year 5.

Definition ord2ymd (n0 : Z) : date :=
  let n := n0 - 1 in
  let n400 := n / DI400Y in
  let n := n mod DI400Y in
  let y := n400 * 400 + 1 in
  let n100 := n / DI100Y in
  let n := n mod DI100Y in
  let n4 := n / DI4Y in
  let n := n mod DI4Y in
  let n1 := n / 365 in
  let n := n mod 365 in
  let y := y + n100 * 100 + n4 * 4 + n1 in
  if (n1 =? 4) || (n100 =? 4) then mk (y - 1) 12 31
  else
    let leapyear := (n1 =? 3) && (negb (n4 =? 24) || (n100 =? 3)) in
    let m := Z.shiftr (n + 50) 5 in
    let preceding := table DAYS_BEFORE_MONTH m + b2z ((2 <? m) && leapyear) in
    let '(m, preceding) :=
      if n <? preceding
      then (m - 1,
            preceding - (table DAYS_IN_MONTH (m - 1)
                         + b2z ((m - 1 =? 2) && leapyear)))
      else (m, preceding) in
    mk y m (n - preceding + 1).

(** The fields of a [date] object always satisfy this. *)
Definition valid (d : date) : bool :=
  (MINYEAR <=? year d) && (year d <=? MAXYEAR)
  && (1 <=? month d) && (month d <=? 12)
  && (1 <=? day d) && (day d <=? days_in_month (year d) (month d)).

(** [datetime.date(y, m, d)]: the constructor checks its fields. *)
Definition make (y m d : Z) : outcome date :=
  if valid (mk y m d) then Ret (mk y m d)
  else Raise (ValueError "date fields out of range").

Definition toordinal (d : date) : Z := ymd2ord (year d) (month d) (day d).

(** [d - datetime.timedelta(days=k)]. *)
Definition sub_days (d : date) (k : Z) : outcome date :=
  let o := toordinal d - k in
  if (0 <? o) && (o <=? MAXORDINAL) then Ret (ord2ymd o)
  else Raise OverflowError.

(** Comparison of dates is lexicographic on (year, month, day). *)
Definition compare (a b : date) : comparison :=
  match year a ?= year b with
  | Eq => match month a ?= month b with
          | Eq => day a ?= day b
          | c => c
          end
  | c => c
  end.

Definition gtb (a b : date) : bool :=
  match compare a b with Gt => true | _ => false end.

Definition leb (a b : date) : bool := negb (gtb a b).

End Date.

(** ** Values, rows and dictionaries *)

(** What a cell of a fetched row, or a bound parameter, can hold. *)
Inductive value : Type :=
| VNone
| VInt (z : Z)
| VStr (s : string)
| VDate (d : Date.date).

(** A Python [dict] with string keys: keys are kept in insertion order,
    and storing under a key that is already there replaces the value in
    place. *)
Definition pydict : Type := list (string * value).

Fixpoint dict_set (k : string) (v : value) (d : pydict) : pydict :=
  match d with
  | [] => [(k, v)]
  | (k', v') :: d' =>
      if String.eqb k' k then (k', v) :: d' else (k', v') :: dict_set k v d'
  end.

Definition keys (d : pydict) : list string := map fst d.

Fixpoint dict_get (k : string) (d : pydict) : option value :=
  match d with
  | [] => None
  | (k', v) :: d' => if String.eqb k' k then Some v else dict_get k d'
  end.

(** Truthiness of an optional string ([None] and [""] are falsy) and of an
    optional parameter sequence ([None] and [()] are falsy). *)
Definition truthy_str (s : option string) : bool :=
  match s with
  | Some s => negb (String.eqb s "")
  | None => false
  end.

Definition truthy_params (p : option (list value)) : bool :=
  match p with
  | Some (_ :: _) => true
  | _ => false
  end.

(** ** The outside world *)

Inductive level : Type := INFO | WARNING | ERROR.

(** The statement the cursor has just executed: its column description
    ([None] when it has none; only the names, first item of each
    description entry, are kept), what [fetchall()] does, and
    [rowcount]. *)
Record result_set : Type := {
  description : option (list string);
  fetchall : outcome (list (list value));
  rowcount : Z
}.

(** The database driver and the server behind it, as the program sees
    them: what each driver call answers, the same way each time it is
    made during a run.  A call that raises answers [Raise].  (The two
    [close()] calls of the driver have no answer here: they are recorded
    when they are made and taken to return.) *)
Record odbc : Type := {
  srv_connect : string -> outcome unit;
  srv_cursor : outcome unit;
  srv_execute : string -> option (list value) -> outcome result_set;
  srv_commit : outcome unit;
  srv_rollback : outcome unit
}.

(** One recipient dictionary of the mail configuration. *)
Definition recipient : Type := list (string * string).

(** One entry of the BCC list built by [send_email_with_attachment]. *)
Record bcc_entry : Type := {
  bcc_address : string;
  bcc_name : option string
}.

(** A value of the [mail] section. *)
Inductive mval : Type :=
| MStr (s : string)
| MRecipients (l : list recipient).

Record payload : Type := {
  p_bounce_address : mval;
  p_from_address : mval;
  p_from_name : mval;
  p_subject : mval;
  p_bcc : list bcc_entry;
  p_attachment_name : string;
  p_attachment : list Byte.byte
}.

(** Every call that leaves the process, in the order it is made.  A
    driver call is recorded when it is made, whether or not it then
    raises. *)
Inductive event : Type :=
| EvConnect (connection_string : string)
| EvCursor
| EvExecute (script : string) (params : option (list value))
| EvFetchall
| EvCommit
| EvRollback
| EvCursorClose
| EvConnClose
| EvLog (l : level) (msg : string)
| EvPrint (line : string)
| EvWriteFile (name : string) (content : list Byte.byte)
| EvPost (url : mval) (api_key : mval) (body : payload).

Definition trace : Type := list event.

Definition is_conn_close (e : event) : bool :=
  match e with EvConnClose => true | _ => false end.
Definition is_commit (e : event) : bool :=
  match e with EvCommit => true | _ => false end.
Definition is_write_file (e : event) : bool :=
  match e with EvWriteFile _ _ => true | _ => false end.

(** ** The monad: state that survives exceptions *)

Definition M (S A : Type) : Type := S -> S * outcome A.

Definition ret {S A} (a : A) : M S A := fun s => (s, Ret a).

Definition raise {S A} (e : exn) : M S A := fun s => (s, Raise e).

Definition bind {S A B} (c : M S A) (k : A -> M S B) : M S B :=
  fun s =>
    match c s with
    | (s', Ret a) => k a s'
    | (s', Raise e) => (s', Raise e)
    end.

(** [try: c  except Exception as e: h e] *)
Definition try_except {S A} (c : M S A) (h : exn -> M S A) : M S A :=
  fun s =>
    match c s with
    | (s', Ret a) => (s', Ret a)
    | (s', Raise e) => h e s'
    end.

(** Lifting a pure computation that may raise. *)
Definition lift {S A} (o : outcome A) : M S A := fun s => (s, o).

Declare Scope monad_scope.
Delimit Scope monad_scope with monad.
Notation "x <- c ;; k" := (bind c (fun x => k))
  (at level 61, c at next level, right associativity) : monad_scope.
Notation "c ;; k" := (bind c (fun _ => k))
  (at level 61, right associativity) : monad_scope.
Open Scope monad_scope.

(** ** [class SQLConnection] ([modules/database/sql_connection.py]) *)

Variant Connection : Type := PyodbcConnection.
Variant Cursor : Type := PyodbcCursor.

(** The attributes of an [SQLConnection] instance. *)
Record SQLConnection : Type := {
  server : string;
  database : string;
  username : option string;
  password : option string;
  trusted_connection : bool;
  driver : string;
  conn : option Connection;
  cursor : option Cursor
}.

Definition set_conn (c : option Connection) (o : SQLConnection) :=
  {| server := server o; database := database o; username := username o;
     password := password o; trusted_connection := trusted_connection o;
     driver := driver o; conn := c; cursor := cursor o |}.

Definition set_cursor (c : option Cursor) (o : SQLConnection) :=
  {| server := server o; database := database o; username := username o;
     password := password o; trusted_connection := trusted_connection o;
     driver := driver o; conn := conn o; cursor := c |}.

(** The state a method runs in: the instance ([self]) and the trace. *)
Record world : Type := { self : SQLConnection; events : trace }.

Definition emit (e : event) : M world unit :=
  fun w => ({| self := self w; events := (events w ++ [e])%list |}, Ret tt).

Definition get_self : M world SQLConnection := fun w => (w, Ret (self w)).

Definition update_self (f : SQLConnection -> SQLConnection) : M world unit :=
  fun w => ({| self := f (self w); events := events w |}, Ret tt).

(** [logging.error(msg)] *)
Definition logging_error (msg : string) : M world unit := emit (EvLog ERROR msg).

(** What [exec] returns: the rows, or the affected-row count. *)
Inductive exec_value : Type :=
| Rows (results : list pydict)
| Count (affected_rows : Z).

(** [{columns[i]: value for i, value in enumerate(row)}], started at
    index [i] with the dictionary built so far.  [columns[i]] raises
    [IndexError] past the end of [columns]. *)
Fixpoint row_dict (columns : list string) (i : nat) (row : list value)
    (acc : pydict) : outcome pydict :=
  match row with
  | [] => Ret acc
  | v :: row' =>
      match nth_error columns i with
      | Some c => row_dict columns (S i) row' (dict_set c v acc)
      | None => Raise IndexError
      end
  end.

(** The loop [for row in ...: results.append({...})]. *)
Fixpoint build_results (columns : list string) (rows : list (list value))
    (results : list pydict) : outcome (list pydict) :=
  match rows with
  | [] => Ret results
  | row :: rows' =>
      match row_dict columns 0 row [] with
      | Ret d => build_results columns rows' (results ++ [d])%list
      | Raise e => Raise e
      end
  end.

Section Methods.

Variable srv : odbc.

(** *** Driver calls made through [self.conn] and [self.cursor] *)

(** [self.conn = pyodbc.connect(connection_string)] *)
Definition pyodbc_connect (connection_string : string) : M world unit :=
  emit (EvConnect connection_string) ;;
  lift (srv_connect srv connection_string) ;;
  update_self (set_conn (Some PyodbcConnection)).

(** [self.cursor = self.conn.cursor()] *)
Definition conn_cursor : M world unit :=
  o <- get_self ;;
  match conn o with
  | None => raise AttributeError
  | Some _ =>
      emit EvCursor ;;
      lift (srv_cursor srv) ;;
      update_self (set_cursor (Some PyodbcCursor))
  end.

(** [self.cursor.execute(script)] and [self.cursor.execute(script, params)];
    the result is what the cursor then holds. *)
Definition cursor_execute (script : string) (params : option (list value))
    : M world result_set :=
  o <- get_self ;;
  match cursor o with
  | None => raise AttributeError
  | Some _ =>
      emit (EvExecute script params) ;;
      lift (srv_execute srv script params)
  end.

(** [[column[0] for column in self.cursor.description]]: iterating [None]
    raises [TypeError]. *)
Definition cursor_columns (rs : result_set) : M world (list string) :=
  match description rs with
  | Some columns => ret columns
  | None => raise (TypeError "'NoneType' object is not iterable")
  end.

(** [self.cursor.fetchall()] *)
Definition cursor_fetchall (rs : result_set) : M world (list (list value)) :=
  emit EvFetchall ;;
  lift (fetchall rs).

(** [self.conn.commit()] *)
Definition conn_commit : M world unit :=
  o <- get_self ;;
  match conn o with
  | None => raise AttributeError
  | Some _ => emit EvCommit ;; lift (srv_commit srv)
  end.

(** [self.conn.rollback()] *)
Definition conn_rollback : M world unit :=
  o <- get_self ;;
  match conn o with
  | None => raise AttributeError
  | Some _ => emit EvRollback ;; lift (srv_rollback srv)
  end.

(** *** The methods *)

Definition connection_string_prefix (o : SQLConnection) : string :=
  ("DRIVER={" ++ driver o ++ "};")
  ++ ("SERVER=" ++ server o ++ ";")
  ++ ("DATABASE=" ++ database o ++ ";").

Definition opt_str (s : option string) : string :=
  match s with Some s => s | None => "None" end.

(** The connection string [connect] builds, or the [ValueError] it raises
    when credentials are needed and missing. *)
Definition missing_credentials : string :=
  "Username and password are required when not using trusted connection".

Definition connection_string (o : SQLConnection) : outcome string :=
  if trusted_connection o
  then Ret (connection_string_prefix o ++ "Trusted_Connection=yes;")
  else
    if negb (truthy_str (username o)) || negb (truthy_str (password o))
    then Raise (ValueError missing_credentials)
    else Ret (connection_string_prefix o
              ++ ("UID=" ++ opt_str (username o) ++ ";")
              ++ ("PWD=" ++ opt_str (password o) ++ ";")).

(** The [try] block of [connect]. *)
Definition connect_body : M world bool :=
  o <- get_self ;;
  cs <- lift (connection_string o) ;;
  pyodbc_connect cs ;;
  conn_cursor ;;
  ret true.

Definition connect : M world bool :=
  try_except connect_body
    (fun e =>
       logging_error ("Failed to connect to database: " ++ exn_str e) ;;
       ret false).

Definition is_connected : M world bool :=
  o <- get_self ;;
  match conn o with
  | None => ret false
  | Some _ =>
      try_except
        (cursor_execute "SELECT 1" None ;; ret true)
        (fun _ => ret false)
  end.

Definition reconnect_if_needed : M world bool :=
  alive <- is_connected ;;
  if alive then ret true else connect.

Definition exec (script : string) (params : option (list value))
    : M world exec_value :=
  ok <- reconnect_if_needed ;;
  if negb ok then
    logging_error "Failed to connect to database" ;;
    raise (ConnectionError "Failed to connect to database")
  else
    try_except
      (rs <- (if truthy_params params
              then cursor_execute script params
              else cursor_execute script None) ;;
       try_except
         (columns <- cursor_columns rs ;;
          rows <- cursor_fetchall rs ;;
          results <- lift (build_results columns rows []) ;;
          conn_commit ;;
          ret (Rows results))
         (fun _ =>
            let affected_rows := rowcount rs in
            conn_commit ;;
            ret (Count affected_rows)))
      (fun e =>
         conn_rollback ;;
         logging_error ("Error executing SQL script: " ++ exn_str e) ;;
         raise e).

(** [close()]; its two driver calls are taken to return.  [__del__]
    calls it too, when the interpreter destroys the instance; that is
    not part of any call embedded here.  (For the instance [fetch_data]
    creates it comes after [fetch_data] has returned or propagated:
    until then its frame holds the instance.) *)
Definition close : M world unit :=
  o <- get_self ;;
  match cursor o with Some _ => emit EvCursorClose | None => ret tt end ;;
  o <- get_self ;;
  match conn o with Some _ => emit EvConnClose | None => ret tt end ;;
  update_self (set_cursor None) ;;
  update_self (set_conn None).

(** [SQLConnection(server, database, username, password,
    trusted_connection, driver)]: the attributes are stored and
    [connect()] is called; its result is dropped. *)
Definition fresh (server_ database_ : string) (username_ password_ : option string)
    (trusted : bool) (driver_ : string) : SQLConnection :=
  {| server := server_; database := database_; username := username_;
     password := password_; trusted_connection := trusted;
     driver := driver_; conn := None; cursor := None |}.

Definition default_driver : string := "ODBC Driver 17 for SQL Server".

Definition init : M world unit :=
  connect ;; ret tt.

Definition SQLConnection_new (server_ database_ : string)
    (username_ password_ : option string) (trusted : bool) (driver_ : string)
    (t : trace) : world * outcome unit :=
  init {| self := fresh server_ database_ username_ password_ trusted driver_;
          events := t |}.

End Methods.

(** ** Formatting helpers *)

Definition str_Z (z : Z) : string := NilZero.string_of_int (Z.to_int z).

Definition str_nat (n : nat) : string := str_Z (Z.of_nat n).

Definition pad2 (z : Z) : string :=
  if z <? 10 then "0" ++ str_Z z else str_Z z.

Definition pad4 (z : Z) : string :=
  if z <? 10 then "000" ++ str_Z z
  else if z <? 100 then "00" ++ str_Z z
  else if z <? 1000 then "0" ++ str_Z z
  else str_Z z.

(** [str(d)], that is [d.isoformat()]. *)
Definition isoformat (d : Date.date) : string :=
  pad4 (Date.year d) ++ "-" ++ pad2 (Date.month d) ++ "-" ++ pad2 (Date.day d).

(** [d.strftime('%Y%m%d')] for a four-digit year.  (Below the year 1000
    the platform's C library decides whether the year is padded with
    zeros, as it is here.) *)
Definition strftime_Ymd (d : Date.date) : string :=
  pad4 (Date.year d) ++ pad2 (Date.month d) ++ pad2 (Date.day d).

(** ** [strptime] with format [%Y-%m-%d] on ASCII input

    The format compiles to the pattern
    [(\d\d\d\d)-(1[0-2]|0[1-9]|[1-9])-(3[0-1]|[1-2]\d|0[1-9]|[1-9]| [1-9])];
    the text must match from its start, nothing may remain after the
    match, and the fields must make a date.  The resolver below does not
    depend on these details: it takes the parser as a parameter, and this
    one serves to run it on concrete command lines. *)
Module Strptime.

Definition is_digit (c : ascii) : bool :=
  (48 <=? Z.of_nat (nat_of_ascii c)) && (Z.of_nat (nat_of_ascii c) <=? 57).

Definition digit (c : ascii) : Z := Z.of_nat (nat_of_ascii c) - 48.

Definition between (lo hi : Z) (c : ascii) : bool :=
  is_digit c && (lo <=? digit c) && (digit c <=? hi).

Definition year (s : list ascii) : option (Z * list ascii) :=
  match s with
  | a :: b :: c :: d :: rest =>
      if is_digit a && is_digit b && is_digit c && is_digit d
      then Some (((digit a * 10 + digit b) * 10 + digit c) * 10 + digit d, rest)
      else None
  | _ => None
  end.

(** The alternatives of a field, in the order the pattern lists them; each
    gives the field's value and the rest of the text. *)
Definition month_alternatives (s : list ascii) : list (Z * list ascii) :=
  (match s with
   | a :: b :: rest =>
       if Ascii.eqb a "1" && between 0 2 b then [(10 + digit b, rest)] else []
   | _ => []
   end
   ++
   match s with
   | a :: b :: rest =>
       if Ascii.eqb a "0" && between 1 9 b then [(digit b, rest)] else []
   | _ => []
   end
   ++
   match s with
   | a :: rest => if between 1 9 a then [(digit a, rest)] else []
   | _ => []
   end)%list.

Definition day_alternatives (s : list ascii) : list (Z * list ascii) :=
  (match s with
   | a :: b :: rest =>
       if Ascii.eqb a "3" && between 0 1 b then [(30 + digit b, rest)] else []
   | _ => []
   end
   ++
   match s with
   | a :: b :: rest =>
       if between 1 2 a && is_digit b then [(digit a * 10 + digit b, rest)] else []
   | _ => []
   end
   ++
   match s with
   | a :: b :: rest =>
       if Ascii.eqb a "0" && between 1 9 b then [(digit b, rest)] else []
   | _ => []
   end
   ++
   match s with
   | a :: rest => if between 1 9 a then [(digit a, rest)] else []
   | _ => []
   end
   ++
   match s with
   | a :: b :: rest =>
       if Ascii.eqb a " " && between 1 9 b then [(digit b, rest)] else []
   | _ => []
   end)%list.

Definition dash (s : list ascii) : option (list ascii) :=
  match s with
  | c :: rest => if Ascii.eqb c "-" then Some rest else None
  | [] => None
  end.

(** The first month alternative after which [-] and a day match. *)
Fixpoint month_then_day (alts : list (Z * list ascii))
    : option (Z * Z * list ascii) :=
  match alts with
  | [] => None
  | (m, rest) :: alts' =>
      match dash rest with
      | Some rest1 =>
          match day_alternatives rest1 with
          | (d, rest2) :: _ => Some (m, d, rest2)
          | [] => month_then_day alts'
          end
      | None => month_then_day alts'
      end
  end.

Definition no_match (s : string) : exn :=
  ValueError ("time data '" ++ s ++ "' does not match format '%Y-%m-%d'").

Definition parse (s : string) : outcome Date.date :=
  match year (list_ascii_of_string s) with
  | None => Raise (no_match s)
  | Some (y, rest) =>
      match dash rest with
      | None => Raise (no_match s)
      | Some rest1 =>
          match month_then_day (month_alternatives rest1) with
          | None => Raise (no_match s)
          | Some (m, d, []) => Date.make y m d
          | Some (_, _, rest2) =>
              Raise (ValueError ("unconverted data remains: "
                                 ++ string_of_list_ascii rest2))
          end
      end
  end.

End Strptime.

(** ** The date range resolver ([get_date_range] in [reporter.py]) *)

(** The parsed command line ([argparse.Namespace]). *)
Record args : Type := {
  last_month : bool;
  between : option string;
  and_ : option string;
  config_arg : string
}.

Definition obind {A B} (o : outcome A) (k : A -> outcome B) : outcome B :=
  match o with
  | Ret a => k a
  | Raise e => Raise e
  end.

(** [try: o  except ValueError as e: h (str e)]; any other exception
    passes through. *)
Definition except_ValueError {A} (o : outcome A) (h : string -> outcome A)
    : outcome A :=
  match o with
  | Raise (ValueError msg) => h msg
  | _ => o
  end.

Section Resolver.

(** [datetime.datetime.strptime(s, "%Y-%m-%d").date()] *)
Variable strptime : string -> outcome Date.date.

(** [datetime.date.today()] *)
Variable today : Date.date.

Definition strptime_arg (s : option string) : outcome Date.date :=
  match s with
  | Some s => strptime s
  | None => Raise (TypeError "strptime() argument 1 must be str, not None")
  end.

Definition get_date_range (a : args)
    : outcome (Date.date * Date.date) :=
  if last_month a then
    obind (Date.make (Date.year today) (Date.month today) 1)
      (fun first_day_current =>
    obind (Date.sub_days first_day_current 1)
      (fun last_day_previous =>
    obind (Date.make (Date.year last_day_previous)
                     (Date.month last_day_previous) 1)
      (fun first_day_previous =>
    Ret (first_day_previous, last_day_previous))))
  else
    except_ValueError
      (obind (strptime_arg (between a)) (fun start_date =>
       obind (strptime_arg (and_ a)) (fun end_date =>
       if Date.gtb start_date end_date
       then Raise (ValueError "Start date cannot be after end date")
       else Ret (start_date, end_date))))
      (fun msg => Raise (ValueError ("Invalid date format: " ++ msg))).

End Resolver.

(** ** The query catalog ([modules/database/queries.py]) *)

Definition get_ops_between_dates : string :=
"
SELECT
    o.ID AS [id],
    o.oper_date AS [date],
    u.emp_id AS [emp_id],
    u.first_name AS [name],
    u.last_name AS [lastname],
    t.name AS [terminal],
    o.credit_block AS [block]
FROM
    ven_operations o
INNER JOIN
    ven_users u ON o.user_id = u.ID
INNER JOIN
    ven_terminals t ON o.terminal_id = t.ID
WHERE
    o.oper_date BETWEEN ? AND ?
ORDER BY
    o.oper_date DESC;
".

(** ** Configuration, as [load_configs] hands it to the pipeline *)

(** [config["db"]["connection_data"]]; a JSON [null] is [None]. *)
Record connection_data : Type := {
  cd_host : string;
  cd_database : string;
  cd_user : option string;
  cd_password : option string
}.

(** The [mail] section is a dictionary. *)
Definition mail_section : Type := list (string * mval).

Fixpoint mail_get (k : string) (m : mail_section) : option mval :=
  match m with
  | [] => None
  | (k', v) :: m' => if String.eqb k' k then Some v else mail_get k m'
  end.

(** [k in m] *)
Definition mail_has (m : mail_section) (k : string) : bool :=
  match mail_get k m with Some _ => true | None => false end.

Record config : Type := {
  cfg_db : option connection_data;
  cfg_mail : option mail_section
}.

(** ** [fetch_data] ([reporter.py]) *)

Definition emit_t (e : event) : M trace unit :=
  fun t => ((t ++ [e])%list, Ret tt).

Definition logger_info (msg : string) : M trace unit := emit_t (EvLog INFO msg).
Definition logger_warning (msg : string) : M trace unit := emit_t (EvLog WARNING msg).
Definition logger_error (msg : string) : M trace unit := emit_t (EvLog ERROR msg).
Definition print (line : string) : M trace unit := emit_t (EvPrint line).

Section Fetch.

Variable srv : odbc.

(** The body of [fetch_data], run on the instance it creates.  The two
    handlers log through [logger.error] and re-raise. *)
Definition fetch_data_on (start_date end_date : Date.date) : M world exec_value :=
  try_except
    (init srv ;;
     let params := Some [VDate start_date; VDate end_date] in
     results <- exec srv get_ops_between_dates params ;;
     close ;;
     ret results)
    (fun e =>
       if is_ConnectionError e
       then emit (EvLog ERROR ("Database connection error: " ++ exn_str e)) ;;
            raise e
       else emit (EvLog ERROR ("Error fetching data: " ++ exn_str e)) ;;
            raise e).

(** The instance [fetch_data] constructs: the four settings of the
    configuration, no trusted connection, the default driver. *)
Definition fetch_instance (db_config : connection_data) : SQLConnection :=
  fresh (cd_host db_config) (cd_database db_config)
        (cd_user db_config) (cd_password db_config) false default_driver.

(** [fetch_data] together with the instance as it is when [fetch_data]
    returns or propagates. *)
Definition fetch_data_world (db_config : connection_data)
    (start_date end_date : Date.date) (t : trace) : world * outcome exec_value :=
  fetch_data_on start_date end_date
    {| self := fetch_instance db_config; events := t |}.

Definition fetch_data (db_config : connection_data)
    (start_date end_date : Date.date) : M trace exec_value :=
  fun t =>
    let '(w, r) := fetch_data_world db_config start_date end_date t in
    (events w, r).

End Fetch.

(** ** [generate_excel_report] ([modules/excel.py]) *)

Section Excel.

(** The workbook (header row, then the data rows) styled and saved to
    bytes by [openpyxl]. *)
Variable workbook_bytes : list string -> list (list value) -> list Byte.byte.

(** [row_dict.get(header, "")] *)
Definition cell (row : pydict) (header : string) : value :=
  match dict_get header row with
  | Some v => v
  | None => VStr ""
  end.

Definition generate_excel_report (data : list pydict) : outcome (list Byte.byte) :=
  match data with
  | [] => Raise (ValueError "Data list is empty.")
  | first :: _ =>
      let headers := keys first in
      Ret (workbook_bytes headers
             (map (fun row => map (cell row) headers) data))
  end.

End Excel.

(** ** [send_email_with_attachment] ([modules/mail.py]) *)

Fixpoint recipient_get (k : string) (r : recipient) : option string :=
  match r with
  | [] => None
  | (k', v) :: r' => if String.eqb k' k then Some v else recipient_get k r'
  end.

Section Mail.

(** [requests.post(url, json=payload, headers=...)]: the status code of
    the response, unless the call raises. *)
Variable http_post : mval -> mval -> payload -> outcome Z.

(** [datetime.now()], of which only the date is used. *)
Variable now : Date.date.

Definition required_config : list string :=
  ["api_url"; "api_key"; "from_email"; "from_name"; "subject"].

Fixpoint check_required (ps : list string) (cfg : mail_section) : M trace unit :=
  match ps with
  | [] => ret tt
  | param :: ps' =>
      if mail_has cfg param then check_required ps' cfg
      else raise (ValueError
                    ("Missing required configuration parameter: " ++ param))
  end.

(** The loop over the recipients; one without an [email] key is skipped
    with a warning.  (The log lines of this module are kept up to the
    value they end with: the skipped recipient, the response text.) *)
Fixpoint build_bcc (rs : list recipient) (bcc_list : list bcc_entry)
    : M trace (list bcc_entry) :=
  match rs with
  | [] => ret bcc_list
  | r :: rs' =>
      match recipient_get "email" r with
      | None =>
          emit_t (EvLog WARNING "Skipping recipient without email address") ;;
          build_bcc rs' bcc_list
      | Some address =>
          let name :=
            match recipient_get "name" r with
            | Some n => if String.eqb n "" then None else Some n
            | None => None
            end in
          build_bcc rs'
            (bcc_list ++ [{| bcc_address := address; bcc_name := name |}])%list
      end
  end.

(** Iterating a string yields its characters, none of which contains
    ['email']: each is skipped with a warning. *)
Fixpoint skip_all (n : nat) : M trace unit :=
  match n with
  | O => ret tt
  | S n' =>
      emit_t (EvLog WARNING "Skipping recipient without email address") ;;
      skip_all n'
  end.

Definition bcc_of (recipients : mval) : M trace (list bcc_entry) :=
  match recipients with
  | MRecipients rs => build_bcc rs []
  | MStr s => skip_all (String.length s) ;; ret []
  end.

Definition mail_item (cfg : mail_section) (k : string) : M trace mval :=
  match mail_get k cfg with
  | Some v => ret v
  | None => raise (KeyError k)
  end.

Definition send_email_with_attachment (recipients : mval)
    (excel_attachment : list Byte.byte) (cfg : mail_section) : M trace bool :=
  try_except
    (check_required required_config cfg ;;
     let current_date := strftime_Ymd now in
     bcc_list <- bcc_of recipients ;;
     match bcc_list with
     | [] =>
         emit_t (EvLog ERROR "No valid recipients provided") ;;
         ret false
     | _ :: _ =>
         from_email <- mail_item cfg "from_email" ;;
         from_name <- mail_item cfg "from_name" ;;
         subject <- mail_item cfg "subject" ;;
         api_key <- mail_item cfg "api_key" ;;
         api_url <- mail_item cfg "api_url" ;;
         let body :=
           {| p_bounce_address :=
                match mail_get "bounce_email" cfg with
                | Some b => b
                | None => from_email
                end;
              p_from_address := from_email;
              p_from_name := from_name;
              p_subject := subject;
              p_bcc := bcc_list;
              p_attachment_name := "Report_" ++ current_date ++ ".xlsx";
              p_attachment := excel_attachment |} in
         emit_t (EvPost api_url api_key body) ;;
         status_code <- lift (http_post api_url api_key body) ;;
         if (status_code =? 200) || (status_code =? 202)
         then
           emit_t (EvLog INFO
                     ("Email sent successfully to "
                      ++ str_nat (List.length bcc_list) ++ " recipients")) ;;
           ret true
         else
           emit_t (EvLog ERROR
                     ("Failed to send email. Status code: "
                      ++ str_Z status_code)) ;;
           ret false
     end)
    (fun e =>
       emit_t (EvLog ERROR ("Error sending email: " ++ exn_str e)) ;;
       ret false).

End Mail.

(** ** [main] ([reporter.py]) *)

Section Pipeline.

Variable srv : odbc.
Variable strptime : string -> outcome Date.date.
Variable today : Date.date.
Variable workbook_bytes : list string -> list (list value) -> list Byte.byte.
Variable http_post : mval -> mval -> payload -> outcome Z.

(** The file system: what opening the named file for writing and writing
    the bytes to it does. *)
Variable file_write : string -> list Byte.byte -> outcome unit.

Definition mail_keys : list string :=
  ["api_url"; "api_key"; "from_email"; "from_name"; "subject"; "recipients"].

(** ["mail" in config and all(key in config["mail"] for key in [...])] *)
Definition mail_complete (cfg : config) : bool :=
  match cfg_mail cfg with
  | Some m => forallb (mail_has m) mail_keys
  | None => false
  end.

(** [len(x)] for a value of the mail section. *)
Definition mval_len (v : mval) : nat :=
  match v with
  | MStr s => String.length s
  | MRecipients l => List.length l
  end.

(** [len(data)]: an integer has no length. *)
Definition len_data (data : exec_value) : outcome nat :=
  match data with
  | Rows l => Ret (List.length l)
  | Count _ => Raise (TypeError "object of type 'int' has no len()")
  end.

Definition rows_of (data : exec_value) : list pydict :=
  match data with
  | Rows l => l
  | Count _ => []
  end.

(** [with open(report_filename, "wb") as f: f.write(excel_data)] *)
Definition write_file (name : string) (content : list Byte.byte) : M trace unit :=
  emit_t (EvWriteFile name content) ;;
  lift (file_write name content).

(** The [try] block of [main], from the parsed arguments on:
    [config_path] is the resolved path of the configuration file and
    [loaded] what [load_configs] does with it.  ([parse_args()], the
    first statement of the block, comes before: on a command line it
    rejects it leaves [main] with [SystemExit], which is no
    [Exception].) *)
Definition main_body (a : args) (config_path : string)
    (loaded : outcome config) : M trace Z :=
  logger_info "Starting Reporter application" ;;
  logger_info ("Loading configuration from " ++ config_path) ;;
  cfg <- lift loaded ;;
  range <- lift (get_date_range strptime today a) ;;
  let '(start_date, end_date) := range in
  logger_info ("Generating report for period: " ++ isoformat start_date
               ++ " to " ++ isoformat end_date) ;;
  logger_info "Fetching data from database" ;;
  db <- match cfg_db cfg with
        | Some db => ret db
        | None => raise (KeyError "db")
        end ;;
  data <- fetch_data srv db start_date end_date ;;
  n <- lift (len_data data) ;;
  logger_info ("Retrieved " ++ str_nat n ++ " records from database") ;;
  match rows_of data with
  | [] =>
      logger_warning "No data to report for the specified period" ;;
      print "No data found for the specified period" ;;
      ret 0
  | _ :: _ =>
      logger_info "Generating Excel report" ;;
      excel_data <- lift (generate_excel_report workbook_bytes (rows_of data)) ;;
      logger_info ("Excel report generated, size: "
                   ++ str_nat (List.length excel_data) ++ " bytes") ;;
      (if mail_complete cfg then
         match cfg_mail cfg with
         | None => raise (KeyError "mail")
         | Some m =>
             recipients <- mail_item m "recipients" ;;
             logger_info ("Sending email to " ++ str_nat (mval_len recipients)
                          ++ " recipients") ;;
             email_sent <- send_email_with_attachment http_post today
                             recipients excel_data m ;;
             if email_sent then
               logger_info "Email sent successfully" ;;
               print "Report generated and sent via email successfully"
             else
               logger_error "Failed to send email" ;;
               print "Report generated but email sending failed"
         end
       else
         let report_filename :=
           "Report_" ++ strftime_Ymd start_date ++ "_to_"
           ++ strftime_Ymd end_date ++ ".xlsx" in
         write_file report_filename excel_data ;;
         logger_info ("Email configuration incomplete - Report saved locally as "
                      ++ report_filename) ;;
         print ("Report generated and saved as " ++ report_filename
                ++ " (Email configuration incomplete)")) ;;
      ret 0
  end.

(** [main], from the parsed arguments on: any [Exception] ends the run
    with status 1.  (What the interpreter does when the handler is left
    is not embedded: it then destroys the instance a failed fetch left
    behind, and the [close()] of its [__del__] ends the run's trace.) *)
Definition main (a : args) (config_path : string) (loaded : outcome config)
    : M trace Z :=
  try_except (main_body a config_path loaded)
    (fun e =>
       logger_error ("Unexpected error: " ++ exn_str e) ;;
       print ("Error: " ++ exn_str e) ;;
       ret 1).

End Pipeline.

(** ** [_auto_adjust_width] ([modules/excel.py]) *)

(** [str(v)] *)
Definition py_str (v : value) : string :=
  match v with
  | VNone => "None"
  | VInt z => str_Z z
  | VStr s => s
  | VDate d => isoformat d
  end.

(** Truthiness of a cell value: [None], [0] and [""] are falsy. *)
Definition truthy_value (v : value) : bool :=
  match v with
  | VNone => false
  | VInt z => negb (z =? 0)
  | VStr s => negb (String.eqb s "")
  | VDate _ => true
  end.

(** The inner loop: the longest [str] among the truthy cells of one
    column, starting from 0. *)
Definition max_length (col : list value) : nat :=
  fold_left (fun max_length v =>
               if truthy_value v
               then Nat.max max_length (String.length (py_str v))
               else max_length)
    col 0%nat.

(** The width set on one column. *)
Definition adjusted_width (col : list value) : nat := (max_length col + 2)%nat.

(** The widths set on the columns of the sheet ([ws.columns], each with
    the values of its cells from the header down), in column order. *)
Definition auto_adjust_width (columns : list (list value)) : list nat :=
  map adjusted_width columns.

(** ** [load_configs] ([modules/config.py])

    The file system and the JSON parser are parameters; the text
    handling is the source's.  Characters are code points below 256. *)
Module Config.

(** The exception classes the function meets.  [UnicodeDecodeError] and
    [JSONDecodeError] derive from [ValueError], [FileNotFoundError] from
    [OSError]. *)
Inductive exc : Type :=
| FileNotFoundError (msg : string)
| ValueError (msg : string)
| UnicodeDecodeError (msg : string)
| JSONDecodeError (msg : string)
| OSError (msg : string)
| RecursionError (msg : string)
| Exception (msg : string).

Definition str (e : exc) : string :=
  match e with
  | FileNotFoundError m | ValueError m | UnicodeDecodeError m
  | JSONDecodeError m | OSError m | RecursionError m | Exception m => m
  end.

(** [isinstance(e, (FileNotFoundError, ValueError))] *)
Definition is_FileNotFoundError_or_ValueError (e : exc) : bool :=
  match e with
  | FileNotFoundError _ | ValueError _ | UnicodeDecodeError _
  | JSONDecodeError _ => true
  | _ => false
  end.

Definition newline : ascii := "010"%char.

(** [s.split('\n')] *)
Fixpoint split (s : string) : list string :=
  match s with
  | EmptyString => [EmptyString]
  | String c s' =>
      if Ascii.eqb c newline then EmptyString :: split s'
      else match split s' with
           | line :: lines => String c line :: lines
           | [] => [String c EmptyString]
           end
  end.

(** ['\n'.join(lines)] *)
Fixpoint join (lines : list string) : string :=
  match lines with
  | [] => EmptyString
  | line :: rest =>
      match rest with
      | [] => line
      | _ :: _ => line ++ String newline (join rest)
      end
  end.

(** [c.isspace()] *)
Definition isspace (c : ascii) : bool :=
  let n := nat_of_ascii c in
  ((9 <=? n) && (n <=? 13) || (28 <=? n) && (n <=? 32)
   || (n =? 133) || (n =? 160))%nat.

Fixpoint lstrip (s : string) : string :=
  match s with
  | EmptyString => EmptyString
  | String c s' => if isspace c then lstrip s' else s
  end.

Fixpoint rstrip (s : string) : string :=
  match s with
  | EmptyString => EmptyString
  | String c s' =>
      match rstrip s' with
      | EmptyString => if isspace c then EmptyString else String c EmptyString
      | r => String c r
      end
  end.

(** [s.strip()] *)
Definition strip (s : string) : string := rstrip (lstrip s).

(** [s.startswith(p)] *)
Definition startswith (s p : string) : bool := String.prefix p s.

(** The lines [load_configs] drops. *)
Definition is_comment (line : string) : bool := startswith (strip line) "//".

(** The text handed to the JSON parser. *)
Definition cleaned (content : string) : string :=
  join (filter (fun line => negb (is_comment line)) (split content)).

Section Load.

(** The decoded JSON values, and [isinstance(v, dict)]. *)
Variable json : Type.
Variable is_dict : json -> bool.

(** [os.path.isfile], [open(f, 'r')] with [file.read()], and
    [json.loads]. *)
Variable isfile : string -> bool.
Variable read : string -> exc + string.
Variable loads : string -> exc + json.

(** The body of the [try]: the lines logged through [logging.error], and
    the value returned or the exception raised. *)
Definition load_body (config_file : string) : list string * (exc + json) :=
  if negb (isfile config_file) then
    let error_msg := "Configuration file not found: " ++ config_file in
    ([error_msg], inl (FileNotFoundError error_msg))
  else
    match read config_file with
    | inl e => ([], inl e)
    | inr content =>
        match loads (cleaned content) with
        | inl (JSONDecodeError m) =>
            let error_msg :=
              "Error in JSON structure of file " ++ config_file ++ ": " ++ m in
            ([error_msg], inl (ValueError error_msg))
        | inl e => ([], inl e)
        | inr config_data =>
            if negb (is_dict config_data) then
              let error_msg :=
                "The configuration file must contain a valid JSON object" in
              ([error_msg], inl (ValueError error_msg))
            else ([], inr config_data)
        end
    end.

(** [load_configs]: the first handler re-raises [FileNotFoundError] and
    [ValueError], the second logs and wraps anything else. *)
Definition load_configs (config_file : string) : list string * (exc + json) :=
  match load_body config_file with
  | (log, inl e) =>
      if is_FileNotFoundError_or_ValueError e then (log, inl e)
      else
        let error_msg :=
          "Error loading configuration file " ++ config_file ++ ": " ++ str e in
        ((log ++ [error_msg])%list, inl (Exception error_msg))
  | (log, inr config_data) => (log, inr config_data)
  end.

End Load.

End Config.

(** * Vocabulary of the properties *)

(** The session is live: the instance holds a connection and a cursor,
    and the server answers the health check. *)
Definition live (srv : odbc) (w : world) : Prop :=
  conn (self w) <> None /\ cursor (self w) <> None /\
  returns (srv_execute srv "SELECT 1" None) = true.

Definition credentials_ok (o : SQLConnection) : bool :=
  trusted_connection o || (truthy_str (username o) && truthy_str (password o)).

(** The events of each group of methods. *)
Definition exec_event (e : event) : Prop :=
  match e with
  | EvConnect _ | EvCursor | EvExecute _ _ | EvLog _ _
  | EvFetchall | EvCommit | EvRollback => True
  | _ => False
  end.

Definition fetch_event (e : event) : Prop :=
  match e with
  | EvConnect _ | EvCursor | EvExecute _ _ | EvLog _ _
  | EvFetchall | EvCommit | EvRollback | EvCursorClose | EvConnClose => True
  | _ => False
  end.

Definition mail_event (e : event) : Prop :=
  match e with
  | EvLog _ _ | EvPost _ _ _ => True
  | _ => False
  end.

(** The parameters [exec] hands to the driver: the caller's when they
    are truthy, none otherwise. *)
Definition driver_params (params : option (list value)) : option (list value) :=
  if truthy_params params then params else None.

(** The reading of the row shape under which the keys of every returned
    mapping are the column names, in column order, whenever the executed
    statement has a column description. *)
Definition rows_keyed_by_columns (srv : odbc) (script : string)
    (params : option (list value)) (w : world) : Prop :=
  forall rs columns rows,
    srv_execute srv script (driver_params params) = Ret rs ->
    description rs = Some columns ->
    fetchall rs = Ret rows ->
    exists w' results,
      exec srv script params w = (w', Ret (Rows results)) /\
      List.length results = List.length rows /\
      Forall (fun d => keys d = columns) results.

(** The reading of the failure path under which the error the statement
    raised is the one that reaches the caller of [exec]. *)
Definition reraises_statement_error (srv : odbc) (script : string)
    (params : option (list value)) (w : world) : Prop :=
  forall w1 e,
    reconnect_if_needed srv w = (w1, Ret true) ->
    srv_execute srv script (driver_params params) = Raise e ->
    snd (exec srv script params w) = Raise e.

(** The reading of lazy creation under which constructing an instance
    leaves it without a session. *)
Definition constructs_without_session (srv : odbc)
    (server_ database_ : string) (username_ password_ : option string)
    (trusted : bool) (driver_ : string) (t : trace) : Prop :=
  let w := fst (SQLConnection_new srv server_ database_ username_ password_
                  trusted driver_ t) in
  conn (self w) = None /\ events w = t.

(** The calendar, in the words of the specification: the month before
    a month (December of the year before, for January), and the number
    of days of a month in the Gregorian calendar. *)
Definition previous_month (y m : Z) : Z * Z :=
  if m =? 1 then (y - 1, 12) else (y, m - 1).

Definition leap_year (y : Z) : bool :=
  if y mod 400 =? 0 then true
  else if y mod 100 =? 0 then false
  else y mod 4 =? 0.

Definition month_length (y m : Z) : Z :=
  if m =? 2 then (if leap_year y then 29 else 28)
  else if (m =? 4) || (m =? 6) || (m =? 9) || (m =? 11) then 30
  else 31.

Definition first_day_of (ym : Z * Z) : Date.date :=
  Date.mk (fst ym) (snd ym) 1.

Definition last_day_of (ym : Z * Z) : Date.date :=
  Date.mk (fst ym) (snd ym) (month_length (fst ym) (snd ym)).

(** The command line [-last_month]. *)
Definition last_month_args : args :=
  {| last_month := true; between := None; and_ := None;
     config_arg := "reporter.conf" |}.

(** The command line [-between s -and e]. *)
Definition between_args (s e : string) : args :=
  {| last_month := false; between := Some s; and_ := Some e;
     config_arg := "reporter.conf" |}.

(** One (year, month) pair checked against the resolver: run on the
    first of that month, it answers with the month before. *)
Definition previous_month_checked (strptime : string -> outcome Date.date)
    (y m : Z) : bool :=
  match get_date_range strptime (Date.mk y m 1) last_month_args with
  | Ret (a, b) =>
      let ym := previous_month y m in
      (Date.year a =? fst ym) && (Date.month a =? snd ym) && (Date.day a =? 1)
      && (Date.year b =? fst ym) && (Date.month b =? snd ym)
      && (Date.day b =? month_length (fst ym) (snd ym))
  | Raise _ => false
  end.

Definition all_years : list Z := map Z.of_nat (seq 1 (Z.to_nat 9999)).
Definition all_months : list Z := map Z.of_nat (seq 1 12).

(** What [main] has logged when it calls [fetch_data], and what it logs
    between the fetch and the delivery. *)
Definition prologue (config_path : string) (start_date end_date : Date.date)
    : trace :=
  [EvLog INFO "Starting Reporter application";
   EvLog INFO ("Loading configuration from " ++ config_path);
   EvLog INFO ("Generating report for period: " ++ isoformat start_date
               ++ " to " ++ isoformat end_date);
   EvLog INFO "Fetching data from database"].

Definition rendering_log (records : nat) (excel_data : list Byte.byte)
    (recipients : mval) : trace :=
  [EvLog INFO ("Retrieved " ++ str_nat records ++ " records from database");
   EvLog INFO "Generating Excel report";
   EvLog INFO ("Excel report generated, size: "
               ++ str_nat (List.length excel_data) ++ " bytes");
   EvLog INFO ("Sending email to " ++ str_nat (mval_len recipients)
               ++ " recipients")].

(** How a run that generated the report but could not deliver it ends. *)
Definition not_delivered : trace :=
  [EvLog ERROR "Failed to send email";
   EvPrint "Report generated but email sending failed"].

(** ** Concrete servers and runs *)
Module Scenario.

(** What the cursor holds after the health check. *)
Definition ping_result : result_set :=
  {| description := Some [""]; fetchall := Ret [[VInt 1]]; rowcount := -1 |}.

(** A server that accepts every connection, answers the health check,
    commits, and answers any other statement with [answer]. *)
Definition answering (answer : outcome result_set) : odbc :=
  {| srv_connect := fun _ => Ret tt;
     srv_cursor := Ret tt;
     srv_execute := fun script _ =>
       if String.eqb script "SELECT 1" then Ret ping_result else answer;
     srv_commit := Ret tt;
     srv_rollback := Ret tt |}.

Definition timeout_error : exn := DriverError "HYT00 Query timeout expired".

Definition link_failure : exn := DriverError "08S01 Communication link failure".

(** A server that accepts every connection, answers the health check
    and any other statement with [answer], but has lost the link when a
    rollback is asked for. *)
Definition dropping (answer : outcome result_set) : odbc :=
  {| srv_connect := fun _ => Ret tt;
     srv_cursor := Ret tt;
     srv_execute := fun script _ =>
       if String.eqb script "SELECT 1" then Ret ping_result else answer;
     srv_commit := Ret tt;
     srv_rollback := Raise link_failure |}.

(** A server that refuses every connection. *)
Definition unreachable : odbc :=
  {| srv_connect := fun _ => Raise (DriverError "08001 server not found");
     srv_cursor := Ret tt;
     srv_execute := fun _ _ => Raise (DriverError "08S01 link failure");
     srv_commit := Ret tt;
     srv_rollback := Ret tt |}.

Definition instance (c : option Connection) (k : option Cursor) : SQLConnection :=
  {| server := "db.example"; database := "ops";
     username := Some "reporter"; password := Some "secret";
     trusted_connection := false; driver := default_driver;
     conn := c; cursor := k |}.

(** An instance with a session, and nothing on the trace yet. *)
Definition connected : world :=
  {| self := instance (Some PyodbcConnection) (Some PyodbcCursor);
     events := [] |}.

(** An instance without credentials and without a session. *)
Definition anonymous : world :=
  {| self := {| server := "db.example"; database := "ops";
                username := None; password := Some "secret";
                trusted_connection := false; driver := default_driver;
                conn := None; cursor := None |};
     events := [] |}.

(** [SELECT 1 AS a, 2 AS a]: one row, two columns of the same name. *)
Definition duplicate_columns : result_set :=
  {| description := Some ["a"; "a"];
     fetchall := Ret [[VInt 1; VInt 2]];
     rowcount := -1 |}.

(** Two operations, as the catalog query lists them. *)
Definition ops_columns : list string :=
  ["id"; "date"; "emp_id"; "name"; "lastname"; "terminal"; "block"].

Definition ops_rows : list (list value) :=
  [[VInt 7; VDate (Date.mk 2025 3 9); VInt 41; VStr "Ana"; VStr "Diaz";
    VStr "T1"; VInt 0];
   [VInt 5; VDate (Date.mk 2025 3 2); VInt 17; VStr "Luis"; VStr "Mora";
    VStr "T2"; VInt 1]].

Definition ops_result : result_set :=
  {| description := Some ops_columns; fetchall := Ret ops_rows; rowcount := -1 |}.

(** An [UPDATE] that touched three rows. *)
Definition update_result : result_set :=
  {| description := None;
     fetchall := Raise (DriverError "No results.  Previous SQL was not a query.");
     rowcount := 3 |}.

Definition connection_string_of_instance : string :=
  "DRIVER={ODBC Driver 17 for SQL Server};SERVER=db.example;DATABASE=ops;UID=reporter;PWD=secret;".

Definition mail_recipients : mval :=
  MRecipients [[("email", "ana@example.org"); ("name", "Ana")];
               [("email", "luis@example.org")]].

(** A complete mail configuration with two recipients. *)
Definition mail_settings : mail_section :=
  [("api_url", MStr "https://mail.example/v1/email");
   ("api_key", MStr "k-123");
   ("from_email", MStr "reports@example.org");
   ("from_name", MStr "Reporter");
   ("subject", MStr "Monthly report");
   ("recipients", mail_recipients)].

Definition db_settings : connection_data :=
  {| cd_host := "db.example"; cd_database := "ops";
     cd_user := Some "reporter"; cd_password := Some "secret" |}.

Definition settings : config :=
  {| cfg_db := Some db_settings; cfg_mail := Some mail_settings |}.

(** A mail service that answers every post with the given status. *)
Definition mail_service (status : Z) : mval -> mval -> payload -> outcome Z :=
  fun _ _ _ => Ret status.

(** A file system on which every write succeeds. *)
Definition disk : string -> list Byte.byte -> outcome unit :=
  fun _ _ => Ret tt.

(** A stand-in for the spreadsheet writer: one byte per cell. *)
Definition one_byte_per_cell (headers : list string) (rows : list (list value))
    : list Byte.byte :=
  repeat Byte.x00 (List.length headers * S (List.length rows)).

Definition march_2025 : args :=
  {| last_month := false; between := Some "2025-03-01";
     and_ := Some "2025-03-31"; config_arg := "reporter.conf" |}.

Definition query_error : exn := DriverError "42S02 Invalid object name".

(** The run of [-between 2025-03-01 -and 2025-03-31] on 2025-04-02,
    against a server that answers the catalog query with two rows and a
    mail service that answers 500. *)
Definition march_path : string := "/opt/reporter/reporter.conf".

Definition march_rows : list pydict := map (combine ops_columns) ops_rows.

Definition march_excel : list Byte.byte :=
  one_byte_per_cell ops_columns
    (map (fun row => map (cell row) ops_columns) march_rows).

Definition march_fetch : trace :=
  fst (fetch_data (answering (Ret ops_result)) db_settings
         (Date.mk 2025 3 1) (Date.mk 2025 3 31)
         (prologue march_path (Date.mk 2025 3 1) (Date.mk 2025 3 31))).

Definition march_mail : trace :=
  fst (send_email_with_attachment (mail_service 500) (Date.mk 2025 4 2)
         mail_recipients march_excel mail_settings
         (march_fetch ++ rendering_log 2 march_excel mail_recipients)%list).

End Scenario.

(** The state [w] with further events on its trace. *)
Definition after (w : world) (evs : list event) : world :=
  {| self := self w; events := (events w ++ evs)%list |}.

(** How a failed statement ends when [rollback()] succeeds: rollback,
    then the log line. *)
Definition rollback_events (x : exn) : trace :=
  [EvRollback; EvLog ERROR ("Error executing SQL script: " ++ exn_str x)].

(** The guarded part of [exec], spelled out answer by answer: what the
    call adds to the trace of the state [w] it starts in, and how it
    ends. *)
Definition guarded_exec (srv : odbc) (script : string)
    (p : option (list value)) (w : world) : world * outcome exec_value :=
  let rolled_back (x : exn) (evs : trace) : world * outcome exec_value :=
    match srv_rollback srv with
    | Ret _ => (after w (evs ++ rollback_events x)%list, Raise x)
    | Raise y => (after w (evs ++ [EvRollback])%list, Raise y)
    end in
  let counted (rs : result_set) (evs : trace) :=
    match srv_commit srv with
    | Ret _ => (after w (evs ++ [EvCommit])%list, Ret (Count (rowcount rs)))
    | Raise x => rolled_back x (evs ++ [EvCommit])%list
    end in
  match srv_execute srv script p with
  | Raise x => rolled_back x [EvExecute script p]
  | Ret rs =>
      match description rs with
      | None => counted rs [EvExecute script p]
      | Some columns =>
          match obind (fetchall rs)
                  (fun rows => build_results columns rows []) with
          | Raise _ => counted rs [EvExecute script p; EvFetchall]
          | Ret results =>
              match srv_commit srv with
              | Ret _ =>
                  (after w [EvExecute script p; EvFetchall; EvCommit],
                   Ret (Rows results))
              | Raise _ =>
                  counted rs [EvExecute script p; EvFetchall; EvCommit]
              end
          end
      end
  end.

(** The value stored under the last of the columns called [c]. *)
Definition last_value (c : string) (columns : list string) (row : list value)
    : option value :=
  dict_get c (rev (combine columns row)).

Definition is_statement (e : event) : bool :=
  match e with
  | EvExecute _ _ | EvFetchall | EvCommit | EvRollback => true
  | _ => false
  end.

(** One step of the dictionary comprehension. *)
Definition store (d : pydict) (p : string * value) : pydict :=
  dict_set (fst p) (snd p) d.

(** The statements [fetch_data] may send: the health check, and the
    catalog query bound to the two dates, start first. *)
Definition fetch_statement (start_date end_date : Date.date) (ev : event) : Prop :=
  forall script params,
    ev = EvExecute script params ->
    (script = "SELECT 1" /\ params = None) \/
    (script = get_ops_between_dates /\
     params = Some [VDate start_date; VDate end_date]).

(** What [connect()] logs when the driver raises [x]. *)
Definition connect_failure (x : exn) : event :=
  EvLog ERROR ("Failed to connect to database: " ++ exn_str x).

(** How [fetch_data] ends when no session can be had. *)
Definition no_session : trace :=
  [EvLog ERROR "Failed to connect to database";
   EvLog ERROR "Database connection error: Failed to connect to database"].

(** How [main] reports the exception that ends a run. *)
Definition failure_report (x : exn) : trace :=
  [EvLog ERROR ("Unexpected error: " ++ exn_str x);
   EvPrint ("Error: " ++ exn_str x)].

(** What [main] logs before it resolves the dates. *)
Definition startup (config_path : string) : trace :=
  [EvLog INFO "Starting Reporter application";
   EvLog INFO ("Loading configuration from " ++ config_path)].

(** How a run without data ends. *)
Definition no_data_report : trace :=
  [EvLog INFO "Retrieved 0 records from database";
   EvLog WARNING "No data to report for the specified period";
   EvPrint "No data found for the specified period"].

(** How a run that delivered its report ends. *)
Definition delivered : trace :=
  [EvLog INFO "Email sent successfully";
   EvPrint "Report generated and sent via email successfully"].

(** Year, month and day of a date with a four-digit year, as eight
    digits. *)
Definition yyyymmdd (d : Date.date) : string :=
  str_Z (Date.year d) ++ pad2 (Date.month d) ++ pad2 (Date.day d).

(** The name of the local file. *)
Definition report_filename (start_date end_date : Date.date) : string :=
  "Report_" ++ yyyymmdd start_date ++ "_to_" ++ yyyymmdd end_date ++ ".xlsx".

(** What a run without a complete mail configuration does up to the
    write of the local file. *)
Definition local_write (records : nat) (excel_data : list Byte.byte)
    (name : string) : trace :=
  [EvLog INFO ("Retrieved " ++ str_nat records ++ " records from database");
   EvLog INFO "Generating Excel report";
   EvLog INFO ("Excel report generated, size: "
               ++ str_nat (List.length excel_data) ++ " bytes");
   EvWriteFile name excel_data].

(** How a run without a complete mail configuration ends when the write
    succeeds. *)
Definition saved_locally (records : nat) (excel_data : list Byte.byte)
    (name : string) : trace :=
  [EvLog INFO ("Retrieved " ++ str_nat records ++ " records from database");
   EvLog INFO "Generating Excel report";
   EvLog INFO ("Excel report generated, size: "
               ++ str_nat (List.length excel_data) ++ " bytes");
   EvWriteFile name excel_data;
   EvLog INFO ("Email configuration incomplete - Report saved locally as "
               ++ name);
   EvPrint ("Report generated and saved as " ++ name
            ++ " (Email configuration incomplete)")].

Definition is_post (e : event) : bool :=
  match e with EvPost _ _ _ => true | _ => false end.

(** The addresses of the recipients that have one, in order. *)
Definition emails (rs : list recipient) : list string :=
  flat_map (fun r => match recipient_get "email" r with
                     | Some address => [address]
                     | None => []
                     end) rs.

(** The recipients that have none. *)
Definition without_email (rs : list recipient) : list recipient :=
  filter (fun r => match recipient_get "email" r with
                   | Some _ => false
                   | None => true
                   end) rs.

Definition skip_warning : event :=
  EvLog WARNING "Skipping recipient without email address".

(** The BCC entry of a recipient with an address: the name is carried
    only when there is one and it is not empty. *)
Definition bcc_entries (rs : list recipient) : list bcc_entry :=
  flat_map (fun r =>
              match recipient_get "email" r with
              | Some address =>
                  [{| bcc_address := address;
                      bcc_name :=
                        match recipient_get "name" r with
                        | Some n => if String.eqb n "" then None else Some n
                        | None => None
                        end |}]
              | None => []
              end) rs.

(** What [send_email_with_attachment] logs when a required setting is
    missing. *)
Definition missing_setting (param : string) : event :=
  EvLog ERROR ("Error sending email: Missing required configuration parameter: "
               ++ param).

(** Whether the mail service's answer counts as sent. *)
Definition accepted (status_code : Z) : bool :=
  (status_code =? 200) || (status_code =? 202).

(** The one line the delivery logs after its post to [recipients]
    addresses, by what the post did. *)
Definition post_report (recipients : nat) (answer : outcome Z) : event :=
  match answer with
  | Ret status_code =>
      if accepted status_code
      then EvLog INFO ("Email sent successfully to " ++ str_nat recipients
                       ++ " recipients")
      else EvLog ERROR ("Failed to send email. Status code: "
                        ++ str_Z status_code)
  | Raise x => EvLog ERROR ("Error sending email: " ++ exn_str x)
  end.

(** Whether the delivery answers [True] after its post. *)
Definition post_accepted (answer : outcome Z) : bool :=
  match answer with
  | Ret status_code => accepted status_code
  | Raise _ => false
  end.

(** A text without line break. *)
Fixpoint one_line (s : string) : bool :=
  match s with
  | EmptyString => true
  | String c s' => negb (Ascii.eqb c Config.newline) && one_line s'
  end.

(** A text of white space only. *)
Fixpoint blank (s : string) : bool :=
  match s with
  | EmptyString => true
  | String c s' => Config.isspace c && blank s'
  end.

(** The lines [load_configs] keeps. *)
Definition kept_lines (content : string) : list string :=
  filter (fun line => negb (Config.is_comment line)) (Config.split content).

(** ** Further concrete servers and runs *)
Module Cases.

Import Scenario.

(** A server on which every commit fails. *)
Definition failing_commit (answer : outcome result_set) : odbc :=
  {| srv_connect := fun _ => Ret tt;
     srv_cursor := Ret tt;
     srv_execute := fun script _ =>
       if String.eqb script "SELECT 1" then Ret ping_result else answer;
     srv_commit := Raise (DriverError "40001 deadlock victim");
     srv_rollback := Ret tt |}.

(** The catalog query answered with a description, the fetch failing. *)
Definition broken_fetch : result_set :=
  {| description := Some ops_columns;
     fetchall := Raise (DriverError "08S01 communication link failure");
     rowcount := -1 |}.

(** A file system on which no file can be written. *)
Definition read_only : string -> list Byte.byte -> outcome unit :=
  fun name _ =>
    Raise (OSError ("[Errno 30] Read-only file system: '" ++ name ++ "'")).

(** An instance that was closed. *)
Definition closed : world :=
  {| self := instance None None; events := [] |}.

(** The catalog query answered without rows. *)
Definition no_rows : result_set :=
  {| description := Some ops_columns; fetchall := Ret []; rowcount := 0 |}.

(** A configuration without mail section. *)
Definition settings_without_mail : config :=
  {| cfg_db := Some db_settings; cfg_mail := None |}.

(** The mail settings without the API key. *)
Definition mail_settings_without_key : mail_section :=
  [("api_url", MStr "https://mail.example/v1/email");
   ("from_email", MStr "reports@example.org");
   ("from_name", MStr "Reporter");
   ("subject", MStr "Monthly report");
   ("recipients", mail_recipients)].

(** Recipients of which only the second has an address. *)
Definition mixed_recipients : list recipient :=
  [[("name", "Ana")]; [("email", "luis@example.org"); ("name", "")]].

(** The trace of the March run up to the end of its fetch, on a server
    that answers the catalog query with [answer]. *)
Definition march_fetched (answer : outcome result_set) : trace :=
  fst (fetch_data (answering answer) db_settings
         (Date.mk 2025 3 1) (Date.mk 2025 3 31)
         (prologue march_path (Date.mk 2025 3 1) (Date.mk 2025 3 31))).

(** The trace of the March run up to the end of its delivery, on a mail
    service that answers 202. *)
Definition march_mail_accepted : trace :=
  fst (send_email_with_attachment (mail_service 202) (Date.mk 2025 4 2)
         mail_recipients march_excel mail_settings
         (march_fetch ++ rendering_log 2 march_excel mail_recipients)%list).

(** A two-valued stand-in for decoded JSON. *)
Inductive toy_json : Type := Object | Array.

Definition toy_is_dict (v : toy_json) : bool :=
  match v with Object => true | Array => false end.

(** A file system with one configuration file, which starts with a
    comment line. *)
Definition toy_isfile (f : string) : bool := String.eqb f "reporter.conf".

Definition toy_content : string :=
  "  // settings" ++ String Config.newline "{}".

Definition toy_read (f : string) : Config.exc + string := inr toy_content.

(** A parser that knows two texts. *)
Definition toy_loads (s : string) : Config.exc + toy_json :=
  if String.eqb s "{}" then inr Object
  else if String.eqb s "[]" then inr Array
  else inl (Config.JSONDecodeError "Expecting value: line 1 column 1 (char 0)").

End Cases.

(** [appends tr P c]: whatever the start state, [c] only appends to the
    trace, and every event it appends satisfies [P]. *)
Definition appends {S A} (tr : S -> trace) (P : event -> Prop) (c : M S A) : Prop :=
  forall s, exists added,
    tr (fst (c s)) = (tr s ++ added)%list /\ Forall P added.

(** * Reasoning about traces *)


Section Appends.

Context {S : Type} (tr : S -> trace) (P : event -> Prop).

Lemma appends_ret A (a : A) : appends tr P (ret a).
Proof. intro s. exists []. simpl. rewrite app_nil_r. auto. Qed.

Lemma appends_raise A (e : exn) : appends tr P (@raise S A e).
Proof. intro s. exists []. simpl. rewrite app_nil_r. auto. Qed.

Lemma appends_lift A (o : outcome A) : appends tr P (@lift S A o).
Proof. intro s. exists []. simpl. rewrite app_nil_r. auto. Qed.

Lemma appends_bind A B (c : M S A) (k : A -> M S B) :
  appends tr P c -> (forall a, appends tr P (k a)) -> appends tr P (bind c k).
Proof.
  intros Hc Hk s. unfold bind.
  destruct (Hc s) as [ad1 [E1 F1]].
  destruct (c s) as [s' [a|e]]; simpl in *.
  - destruct (Hk a s') as [ad2 [E2 F2]].
    exists (ad1 ++ ad2)%list. rewrite E2, E1, app_assoc. split; auto.
    apply Forall_app; auto.
  - exists ad1. auto.
Qed.

Lemma appends_try A (c : M S A) (h : exn -> M S A) :
  appends tr P c -> (forall e, appends tr P (h e)) ->
  appends tr P (try_except c h).
Proof.
  intros Hc Hh s. unfold try_except.
  destruct (Hc s) as [ad1 [E1 F1]].
  destruct (c s) as [s' [a|e]]; simpl in *.
  - exists ad1. auto.
  - destruct (Hh e s') as [ad2 [E2 F2]].
    exists (ad1 ++ ad2)%list. rewrite E2, E1, app_assoc. split; auto.
    apply Forall_app; auto.
Qed.

Lemma appends_weaken A (Q : event -> Prop) (c : M S A) :
  (forall e, Q e -> P e) -> appends tr Q c -> appends tr P c.
Proof.
  intros HQ Hc s. destruct (Hc s) as [ad [E F]]. exists ad. split; auto.
  eapply Forall_impl; eauto.
Qed.

End Appends.

Lemma appends_emit P e : P e -> appends events P (emit e).
Proof. intros H w. exists [e]. simpl. auto. Qed.

Lemma appends_get_self P : appends events P get_self.
Proof. intro w. exists []. simpl. rewrite app_nil_r. auto. Qed.

Lemma appends_update_self P f : appends events P (update_self f).
Proof. intro w. exists []. simpl. rewrite app_nil_r. auto. Qed.

Lemma appends_emit_t P e : P e -> appends (fun t : trace => t) P (emit_t e).
Proof. intros H t. exists [e]. simpl. auto. Qed.

Create HintDb appends discriminated.
#[export] Hint Resolve appends_ret appends_raise appends_lift appends_get_self
  appends_update_self : appends.

(** Splits a computation along its binds and handlers, then closes the
    leaves with the hints. *)
Ltac appends_step :=
  lazymatch goal with
  | |- appends _ _ (bind _ _) => apply appends_bind; [ | intro ]
  | |- appends _ _ (try_except _ _) => apply appends_try; [ | intro ]
  | |- appends _ _ (emit _) => apply appends_emit; try reflexivity
  | |- appends _ _ (emit_t _) => apply appends_emit_t; try reflexivity
  | |- appends _ _ (logging_error _) => apply appends_emit; try reflexivity
  | |- appends _ _ (match ?x with _ => _ end) => destruct x
  | |- appends _ _ (if ?x then _ else _) => destruct x
  | |- _ => solve [ auto with appends ]
  end.

Ltac appends_all := repeat appends_step.

Section MethodTraces.

Variable srv : odbc.

(** What [connect()], [is_connected()] and [reconnect_if_needed()] may
    add to the trace: connection attempts, cursor requests, the health
    check and log lines. *)
Section Session.

Variable P : event -> Prop.
Hypothesis P_connect : forall cs, P (EvConnect cs).
Hypothesis P_cursor : P EvCursor.
Hypothesis P_ping : P (EvExecute "SELECT 1" None).
Hypothesis P_log : forall l m, P (EvLog l m).

Lemma connect_appends : appends events P (connect srv).
Proof.
  unfold connect, connect_body, pyodbc_connect, conn_cursor.
  appends_all; auto.
Qed.

Lemma is_connected_appends : appends events P (is_connected srv).
Proof.
  unfold is_connected, cursor_execute. appends_all; auto.
Qed.

Lemma reconnect_if_needed_appends :
  appends events P (reconnect_if_needed srv).
Proof.
  unfold reconnect_if_needed. appends_step.
  - apply is_connected_appends.
  - destruct a; [ auto with appends | apply connect_appends ].
Qed.

End Session.

Lemma exec_appends script params :
  appends events exec_event (exec srv script params).
Proof.
  unfold exec. appends_step.
  - apply reconnect_if_needed_appends; intros; exact I.
  - unfold cursor_execute, cursor_columns, cursor_fetchall, conn_commit,
      conn_rollback.
    appends_all; exact I.
Qed.

Lemma close_appends : appends events fetch_event close.
Proof. unfold close. appends_all; exact I. Qed.

Lemma fetch_data_on_appends s e :
  appends events fetch_event (fetch_data_on srv s e).
Proof.
  unfold fetch_data_on, init. appends_step.
  - appends_step; [ appends_step | ].
    + apply connect_appends; intros; exact I.
    + auto with appends.
    + appends_step.
      * eapply appends_weaken; [ | apply exec_appends ].
        intros [] H; simpl in *; auto.
      * appends_step; [ apply close_appends | auto with appends ].
  - appends_all; exact I.
Qed.

Lemma fetch_data_appends db s e :
  appends (fun t : trace => t) fetch_event (fetch_data srv db s e).
Proof.
  intro t. unfold fetch_data, fetch_data_world.
  destruct (fetch_data_on_appends s e
              {| self := fetch_instance db; events := t |}) as [ad [E F]].
  destruct (fetch_data_on srv s e _) as [w r]. simpl in *. eauto.
Qed.

End MethodTraces.

(** * The connection manager *)

(** Unfolds the monad and the driver calls, so that a method applied to
    a state computes as far as the driver's answers allow. *)
Ltac run :=
  unfold exec, reconnect_if_needed, is_connected, connect, connect_body,
    init, close, pyodbc_connect, conn_cursor, cursor_execute, cursor_columns,
    cursor_fetchall, conn_commit, conn_rollback, logging_error,
    try_except, bind, ret, raise, lift, emit, get_self, update_self;
  simpl.

(** Case analysis on whatever the computation in the goal branches on. *)
Ltac branch :=
  match goal with
  | |- context [match ?x with _ => _ end] =>
      lazymatch x with
      | context [match _ with _ => _ end] => fail
      | _ => destruct x eqn:?
      end
  end.

Section ConnectionManager.

Variable srv : odbc.

Lemma connect_body_true w w' b :
  connect_body srv w = (w', Ret b) -> b = true.
Proof.
  run. repeat (branch; simpl in *); intro H; inversion H; reflexivity.
Qed.

(** After a successful [connect()] the instance holds a connection and a
    cursor. *)
Lemma connect_true_handles w w' :
  connect srv w = (w', Ret true) ->
  conn (self w') <> None /\ cursor (self w') <> None.
Proof.
  run. repeat (branch; simpl in *); intro H; inversion H; subst; simpl;
    split; discriminate.
Qed.

Lemma is_connected_true_handles w w' :
  is_connected srv w = (w', Ret true) ->
  conn (self w') <> None /\ cursor (self w') <> None.
Proof.
  run. repeat (branch; simpl in *); intro H; inversion H; subst; simpl;
    split; congruence.
Qed.

Lemma reconnect_true_handles w w' :
  reconnect_if_needed srv w = (w', Ret true) ->
  conn (self w') <> None /\ cursor (self w') <> None.
Proof.
  unfold reconnect_if_needed, bind.
  destruct (is_connected srv w) as [w1 [[|]|e]] eqn:E; simpl.
  - intro H. inversion H; subst. eapply is_connected_true_handles; eauto.
  - apply connect_true_handles.
  - discriminate.
Qed.

Lemma connection_string_missing o :
  credentials_ok o = false ->
  connection_string o = Raise (ValueError missing_credentials).
Proof.
  unfold credentials_ok, connection_string.
  destruct (trusted_connection o), (truthy_str (username o)),
    (truthy_str (password o)); simpl; congruence.
Qed.

Lemma connection_string_ok o :
  credentials_ok o = true -> exists cs, connection_string o = Ret cs.
Proof.
  unfold credentials_ok, connection_string.
  destruct (trusted_connection o), (truthy_str (username o)),
    (truthy_str (password o)); simpl; try discriminate; eauto.
Qed.

Lemma connect_returns (w : world) :
  exists w' b, connect srv w = (w', Ret b).
Proof.
  unfold connect, try_except.
  destruct (connect_body srv w) as [w1 [b|e]]; run; eauto.
Qed.

(** C8.  [connect()] never raises: in every state and whatever the driver
    does it returns a boolean, and each failure makes it return [False]
    right after logging it.  When trusted mode is off and the user name
    or the password is missing, only the configuration error is logged:
    no driver call was made and the instance is unchanged.  With a
    connection string built, a connection the driver refuses, or a
    cursor it refuses on the new connection, is logged with the driver's
    error; [True] is returned exactly when the driver grants both, and
    then nothing is logged. *)
Theorem connect_never_raises (w : world) :
  exists w' b,
    connect srv w = (w', Ret b) /\
    (b = false ->
     exists t e,
       events w' =
       (t ++ [EvLog ERROR ("Failed to connect to database: " ++ exn_str e)])%list) /\
    (credentials_ok (self w) = false ->
     b = false /\ self w' = self w /\
     events w' =
     (events w ++ [EvLog ERROR ("Failed to connect to database: "
                                ++ missing_credentials)])%list) /\
    (forall cs,
       connection_string (self w) = Ret cs ->
       (forall x,
          srv_connect srv cs = Raise x ->
          b = false /\ self w' = self w /\
          events w' =
          (events w
           ++ [EvConnect cs;
               EvLog ERROR ("Failed to connect to database: "
                            ++ exn_str x)])%list) /\
       (forall x,
          returns (srv_connect srv cs) = true ->
          srv_cursor srv = Raise x ->
          b = false /\
          self w' = set_conn (Some PyodbcConnection) (self w) /\
          events w' =
          (events w
           ++ [EvConnect cs; EvCursor;
               EvLog ERROR ("Failed to connect to database: "
                            ++ exn_str x)])%list) /\
       (returns (srv_connect srv cs) = true ->
        returns (srv_cursor srv) = true ->
        b = true /\
        self w' = set_cursor (Some PyodbcCursor)
                    (set_conn (Some PyodbcConnection) (self w)) /\
        events w' = (events w ++ [EvConnect cs; EvCursor])%list)).
Proof.
  unfold connect, connect_body, try_except, bind, get_self, lift. simpl.
  destruct (credentials_ok (self w)) eqn:C.
  - destruct (connection_string_ok _ C) as [cs0 E0]. rewrite E0. run.
    destruct (srv_connect srv cs0) as [[]|x0] eqn:A; simpl;
      [ destruct (srv_cursor srv) as [[]|y0] eqn:K; simpl | ];
      do 2 eexists; (split; [ reflexivity | ]); simpl;
      (split; [ intro; try discriminate; do 2 eexists; reflexivity | ]);
      (split; [ discriminate | ]);
      intros cs Hcs; inversion Hcs; subst cs0; rewrite A;
      repeat split; intros; try discriminate;
      repeat match goal with
             | H : Raise _ = Raise _ |- _ => inversion H; subst; clear H
             end;
      rewrite <- ?app_assoc; reflexivity.
  - rewrite (connection_string_missing _ C). run.
    do 2 eexists. split; [ reflexivity | ]. simpl.
    split; [ | split; [ auto | ] ].
    + intro. exists (events w), (ValueError missing_credentials). reflexivity.
    + intros cs Hcs. discriminate Hcs.
Qed.

(** On a live session [reconnect_if_needed()] is the health check alone. *)
Lemma reconnect_if_needed_live (w : world) :
  live srv w ->
  reconnect_if_needed srv w =
  ({| self := self w;
      events := (events w ++ [EvExecute "SELECT 1" None])%list |}, Ret true).
Proof.
  intros (Hc & Hk & Hp). run.
  destruct (conn (self w)); [ | congruence ].
  destruct (cursor (self w)); [ | congruence ].
  destruct (srv_execute srv "SELECT 1" None); [ | discriminate ].
  reflexivity.
Qed.

(** C9.  On a live session two calls of [reconnect_if_needed()] in a row
    both return [True]; all they do is the health check, once each, so
    [connect()] is not called (it would record a connection attempt or a
    logged failure), and the instance is left as it was. *)
Theorem reconnect_if_needed_idempotent (w : world) :
  live srv w ->
  exists w1 w2,
    reconnect_if_needed srv w = (w1, Ret true) /\
    reconnect_if_needed srv w1 = (w2, Ret true) /\
    self w2 = self w /\
    events w2 =
    (events w ++ [EvExecute "SELECT 1" None; EvExecute "SELECT 1" None])%list.
Proof.
  intro L.
  pose (w1 := {| self := self w;
                 events := (events w ++ [EvExecute "SELECT 1" None])%list |}).
  assert (L1 : live srv w1) by exact L.
  exists w1, {| self := self w1;
                events := (events w1 ++ [EvExecute "SELECT 1" None])%list |}.
  split; [ exact (reconnect_if_needed_live w L) | ].
  split; [ exact (reconnect_if_needed_live w1 L1) | ].
  split; [ reflexivity | ].
  simpl. now rewrite <- app_assoc.
Qed.

(** *** Row materialisation *)

Lemma dict_set_fresh k v (d : pydict) :
  ~ In k (keys d) -> dict_set k v d = (d ++ [(k, v)])%list.
Proof.
  induction d as [|[k' v'] d IH]; simpl; intro H; [ reflexivity | ].
  destruct (String.eqb_spec k' k) as [->|_].
  - exfalso. apply H. now left.
  - rewrite IH; [ reflexivity | ]. intro. apply H. now right.
Qed.

(** With pairwise distinct column names and one value per remaining
    column, the comprehension pairs each column with its value. *)
Lemma row_dict_combine (post : list string) :
  forall (pre : list string) (row : list value) (acc : pydict),
    NoDup (pre ++ post) ->
    List.length row = List.length post ->
    keys acc = pre ->
    row_dict (pre ++ post) (List.length pre) row acc
    = Ret (acc ++ combine post row)%list.
Proof.
  induction post as [|c post IH]; intros pre row acc ND L K.
  - destruct row; [ | discriminate ]. simpl. now rewrite app_nil_r.
  - destruct row as [|v row]; [ discriminate | ]. simpl.
    rewrite nth_error_app2 by lia. rewrite Nat.sub_diag. simpl.
    assert (F : ~ In c (keys acc)).
    { rewrite K. apply NoDup_remove_2 in ND. intro. apply ND.
      apply in_or_app. now left. }
    rewrite (@dict_set_fresh c v acc F).
    specialize (IH (pre ++ [c])%list row (acc ++ [(c, v)])%list).
    rewrite <- !app_assoc in IH. simpl in IH.
    rewrite length_app in IH. simpl in IH. rewrite Nat.add_1_r in IH.
    apply IH; auto.
    unfold keys in *. rewrite map_app, K. reflexivity.
Qed.

Lemma build_results_combine (columns : list string) :
  forall (rows : list (list value)) (results : list pydict),
    NoDup columns ->
    Forall (fun row => List.length row = List.length columns) rows ->
    build_results columns rows results
    = Ret (results ++ map (combine columns) rows)%list.
Proof.
  induction rows as [|row rows IH]; intros results ND F; simpl.
  - now rewrite app_nil_r.
  - inversion F; subst.
    pose proof (@row_dict_combine columns [] row [] ND) as E.
    simpl in E. rewrite E by auto.
    rewrite IH by auto. now rewrite <- app_assoc.
Qed.

Lemma keys_combine (columns : list string) (row : list value) :
  List.length row = List.length columns -> keys (combine columns row) = columns.
Proof.
  revert row. induction columns as [|c cs IH]; intros [|v row] L;
    try discriminate; simpl; [ reflexivity | ].
  f_equal. apply IH. simpl in L. lia.
Qed.

(** *** [exec] once a session is ensured *)

(** Past the liveness gate, [exec] is its guarded statement run in the
    state [reconnect_if_needed()] left. *)
Lemma exec_after_reconnect script params w w1 :
  reconnect_if_needed srv w = (w1, Ret true) ->
  exists c k,
    conn (self w1) = Some c /\ cursor (self w1) = Some k /\
    exec srv script params w =
    try_except
      (rs <- cursor_execute srv script (driver_params params) ;;
       try_except
         (columns <- cursor_columns rs ;;
          rows <- cursor_fetchall rs ;;
          results <- lift (build_results columns rows []) ;;
          conn_commit srv ;;
          ret (Rows results))
         (fun _ => conn_commit srv ;; ret (Count (rowcount rs))))
      (fun e =>
         conn_rollback srv ;;
         logging_error ("Error executing SQL script: " ++ exn_str e) ;;
         raise e) w1.
Proof.
  intro R. destruct (@reconnect_true_handles w w1 R) as [Hc Hk].
  destruct (conn (self w1)) as [c|] eqn:Ec; [ | congruence ].
  destruct (cursor (self w1)) as [k|] eqn:Ek; [ | congruence ].
  exists c, k. repeat split.
  unfold exec at 1. unfold bind at 1. rewrite R. simpl.
  unfold driver_params. destruct (truthy_params params); reflexivity.
Qed.

(** Past the liveness gate, [exec] answer by answer. *)
Lemma exec_guarded script params w w1 :
  reconnect_if_needed srv w = (w1, Ret true) ->
  exec srv script params w = guarded_exec srv script (driver_params params) w1.
Proof.
  intro R.
  destruct (@exec_after_reconnect script params w w1 R)
    as (c & k & Ec & Ek & E).
  rewrite E. clear E R. unfold guarded_exec, rollback_events, after, obind. run. rewrite Ek. simpl.
  destruct (srv_execute srv script (driver_params params)) as [rs|x]; simpl;
    [ | rewrite Ec; simpl; now rewrite <- !app_assoc ].
  destruct (description rs) as [columns|]; simpl.
  - destruct (fetchall rs) as [rows|y]; simpl.
    + destruct (build_results columns rows []) as [results|z]; simpl;
        rewrite Ec; simpl;
        destruct (srv_commit srv) as [[]|u]; simpl;
        rewrite ?Ec; simpl;
        try (destruct (srv_commit srv) as [[]|u'] eqn:EC; simpl);
        rewrite ?Ec; simpl; rewrite <- ?app_assoc; try reflexivity.
    + rewrite Ec; simpl. destruct (srv_commit srv) as [[]|u]; simpl;
        rewrite ?Ec; simpl; now rewrite <- ?app_assoc.
  - rewrite Ec; simpl. destruct (srv_commit srv) as [[]|u]; simpl;
      rewrite ?Ec; simpl; now rewrite <- ?app_assoc.
Qed.

(** The first thing [exec] does on an ensured session is to send the
    statement, with the caller's parameters when they are truthy and
    with none otherwise. *)
Lemma exec_sends script params w w1 :
  reconnect_if_needed srv w = (w1, Ret true) ->
  exists rest,
    events (fst (exec srv script params w))
    = (events w1 ++ EvExecute script (driver_params params) :: rest)%list.
Proof.
  intro R. rewrite (exec_guarded script params w w1 R).
  unfold guarded_exec, after, rollback_events.
  repeat (branch; simpl); rewrite <- ?app_assoc; simpl; eexists; reflexivity.
Qed.

(** C10.  [exec(script, ())] is [exec(script)]: an empty parameter
    sequence is falsy, so the statement goes to the driver without
    parameters.  No driver call carrying an empty sequence is ever made;
    once the session is ensured, the first thing the call does is to
    send the statement to the driver with no parameters, and for a
    statement without column description whose commit succeeds it
    returns the row count the driver reports. *)
Theorem exec_empty_params_as_none (script : string) :
  (forall w, exec srv script (Some []) w = exec srv script None w) /\
  appends events (fun e => forall s, e <> EvExecute s (Some []))
    (exec srv script (Some [])) /\
  (forall w w1,
     reconnect_if_needed srv w = (w1, Ret true) ->
     (exists rest,
        events (fst (exec srv script (Some []) w))
        = (events w1 ++ EvExecute script None :: rest)%list) /\
     (forall rs,
        srv_execute srv script None = Ret rs ->
        description rs = None ->
        returns (srv_commit srv) = true ->
        exec srv script (Some []) w
        = ({| self := self w1;
              events := (events w1 ++ [EvExecute script None; EvCommit])%list |},
           Ret (Count (rowcount rs))))).
Proof.
  split; [ reflexivity | ]. split.
  - unfold exec. simpl. appends_step.
    + apply reconnect_if_needed_appends; intros; discriminate.
    + unfold cursor_execute, cursor_columns, cursor_fetchall, conn_commit,
        conn_rollback.
      appends_all; intros; discriminate.
  - intros w w1 R. split.
    + exact (exec_sends script (Some []) w w1 R).
    + intros rs X D C. rewrite (exec_guarded script (Some []) w w1 R).
      unfold guarded_exec, driver_params. simpl. rewrite X, D.
      destruct (srv_commit srv) as [[]|]; [ reflexivity | discriminate ].
Qed.

(** C5, with the rollback's own outcome.  When the session has been
    ensured and the driver raises on the statement, [exec] calls
    [rollback()] and does not return.  When [rollback()] succeeds, [exec]
    logs and raises the statement's error to its caller; when
    [rollback()] itself raises, that error reaches the caller instead and
    nothing is logged.  Either way nothing [exec] did in this call, from
    its first step on, is a commit. *)
Theorem exec_failure_rolls_back script params w w1 e :
  reconnect_if_needed srv w = (w1, Ret true) ->
  srv_execute srv script (driver_params params) = Raise e ->
  (returns (srv_rollback srv) = true ->
   exec srv script params w =
   ({| self := self w1;
       events := (events w1
                  ++ [EvExecute script (driver_params params);
                      EvRollback;
                      EvLog ERROR ("Error executing SQL script: " ++ exn_str e)])%list |},
    Raise e))
  /\ (forall x,
        srv_rollback srv = Raise x ->
        exec srv script params w =
        ({| self := self w1;
            events := (events w1
                       ++ [EvExecute script (driver_params params);
                           EvRollback])%list |},
         Raise x))
  /\ returns (snd (exec srv script params w)) = false
  /\ exists added,
       events (fst (exec srv script params w)) = (events w ++ added)%list /\
       Forall (fun ev => is_commit ev = false) added.
Proof.
  intros R X.
  destruct (@exec_after_reconnect script params w w1 R) as (c & k & Ec & Ek & E).
  assert (G : exec srv script params w =
    match srv_rollback srv with
    | Ret _ =>
        ({| self := self w1;
            events := (events w1
                       ++ [EvExecute script (driver_params params);
                           EvRollback;
                           EvLog ERROR ("Error executing SQL script: "
                                        ++ exn_str e)])%list |},
         Raise e)
    | Raise x =>
        ({| self := self w1;
            events := (events w1
                       ++ [EvExecute script (driver_params params);
                           EvRollback])%list |},
         Raise x)
    end).
  { rewrite E. run. rewrite Ek. simpl. rewrite X. simpl. rewrite Ec. simpl.
    destruct (srv_rollback srv) as [[]|x]; simpl; now rewrite <- !app_assoc. }
  destruct (@reconnect_if_needed_appends srv (fun ev => is_commit ev = false))
    with (s := w) as [ad [Ea Fa]]; try reflexivity.
  rewrite R in Ea. simpl in Ea.
  rewrite G. clear G E.
  destruct (srv_rollback srv) as [[]|y]; simpl.
  - split; [ reflexivity | ]. split; [ discriminate | ].
    split; [ reflexivity | ].
    rewrite Ea, <- app_assoc. eexists. split; [ reflexivity | ].
    apply Forall_app. split; [ exact Fa | repeat constructor ].
  - split; [ discriminate | ]. split; [ intros x H; now inversion H | ].
    split; [ reflexivity | ].
    rewrite Ea, <- app_assoc. eexists. split; [ reflexivity | ].
    apply Forall_app. split; [ exact Fa | repeat constructor ].
Qed.

(** C2, for distinct column names.  On an ensured session, for a
    statement the driver executes and with [commit()] succeeding: if the
    statement has a column description whose names are pairwise distinct,
    and its rows are fetched with one value per column, [exec] returns
    one mapping per fetched row, in fetch order, each pairing the column
    names, in column order, with the row's values; if the statement has
    no column description, [exec] returns its affected-row count.  In
    both cases the commit is the last driver call before [exec]
    returns. *)
Theorem exec_returns_rows_or_count script params w w1 rs :
  reconnect_if_needed srv w = (w1, Ret true) ->
  srv_execute srv script (driver_params params) = Ret rs ->
  returns (srv_commit srv) = true ->
  (forall columns rows,
     description rs = Some columns ->
     fetchall rs = Ret rows ->
     NoDup columns ->
     Forall (fun row => List.length row = List.length columns) rows ->
     exists results,
       exec srv script params w =
       ({| self := self w1;
           events := (events w1
                      ++ [EvExecute script (driver_params params);
                          EvFetchall; EvCommit])%list |},
        Ret (Rows results)) /\
       results = map (combine columns) rows /\
       List.length results = List.length rows /\
       Forall (fun d => keys d = columns) results)
  /\ (description rs = None ->
      exec srv script params w =
      ({| self := self w1;
          events := (events w1
                     ++ [EvExecute script (driver_params params);
                         EvCommit])%list |},
       Ret (Count (rowcount rs)))).
Proof.
  intros R X C.
  destruct (@exec_after_reconnect script params w w1 R) as (c & k & Ec & Ek & E).
  destruct (srv_commit srv) as [[]|] eqn:EC; [ | discriminate ].
  split.
  - intros columns rows D F ND L.
    exists (map (combine columns) rows). split; [ | split; [ | split ] ].
    + rewrite E. run. rewrite Ek. simpl. rewrite X. simpl. rewrite D. simpl.
      rewrite F. simpl.
      pose proof (@build_results_combine columns rows [] ND L) as B.
      simpl in B. rewrite B. simpl. rewrite Ec. simpl. rewrite EC. simpl.
      now rewrite <- !app_assoc.
    + reflexivity.
    + apply length_map.
    + apply Forall_forall. intros d Hd. apply in_map_iff in Hd.
      destruct Hd as (row & <- & Hrow). apply keys_combine.
      eapply Forall_forall in L; eauto.
  - intro D. rewrite E. run. rewrite Ek. simpl. rewrite X. simpl.
    rewrite D. simpl. rewrite Ec. simpl. rewrite EC. simpl.
    now rewrite <- !app_assoc.
Qed.

(** C4, eager form.  Constructing an instance is calling [connect()] on
    it and dropping the answer: with usable credentials the driver is
    asked for a connection during construction, and when it grants the
    connection and the cursor the new instance already holds both. *)
Theorem construction_connects_eagerly server_ database_ username_ password_
    trusted driver_ (t : trace) :
  let o := fresh server_ database_ username_ password_ trusted driver_ in
  SQLConnection_new srv server_ database_ username_ password_ trusted driver_ t
  = (fst (connect srv {| self := o; events := t |}), Ret tt)
  /\ forall cs,
       connection_string o = Ret cs ->
       returns (srv_connect srv cs) = true ->
       returns (srv_cursor srv) = true ->
       SQLConnection_new srv server_ database_ username_ password_ trusted
         driver_ t
       = ({| self := set_cursor (Some PyodbcCursor)
                       (set_conn (Some PyodbcConnection) o);
             events := (t ++ [EvConnect cs; EvCursor])%list |}, Ret tt).
Proof.
  intro o. split.
  - unfold SQLConnection_new, init, bind. fold o.
    destruct (connect_returns {| self := o; events := t |}) as (w' & b & ->).
    reflexivity.
  - intros cs E A K. unfold SQLConnection_new. fold o.
    unfold init, connect, connect_body, try_except, bind, get_self, lift.
    simpl. rewrite E. run.
    destruct (srv_connect srv cs) as [[]|]; [ | discriminate ]. simpl.
    destruct (srv_cursor srv) as [[]|]; [ | discriminate ]. simpl.
    now rewrite <- app_assoc.
Qed.

End ConnectionManager.

(** ** The connection manager on concrete servers *)

Import Scenario.

Example exec_catalog_rows :
  snd (exec (answering (Ret ops_result)) get_ops_between_dates
         (Some [VDate (Date.mk 2025 3 1); VDate (Date.mk 2025 3 31)]) connected)
  = Ret (Rows (map (combine ops_columns) ops_rows)).
Proof. reflexivity. Qed.

Example exec_update_count :
  snd (exec (answering (Ret update_result)) "UPDATE ven_users SET emp_id = 0"
         None connected)
  = Ret (Count 3).
Proof. reflexivity. Qed.

Example exec_duplicate_columns_value :
  snd (exec (answering (Ret duplicate_columns)) "SELECT 1 AS a, 2 AS a"
         None connected)
  = Ret (Rows [[("a", VInt 2)]]).
Proof. reflexivity. Qed.

(** A row with more values than there are columns makes the
    comprehension raise; the inner handler then answers with the row
    count. *)
Example exec_long_row_falls_back :
  snd (exec (answering (Ret {| description := Some ["a"];
                               fetchall := Ret [[VInt 1; VInt 2]];
                               rowcount := -1 |}))
         "SELECT 1 AS a" None connected)
  = Ret (Count (-1)).
Proof. reflexivity. Qed.

(** C2, counterexample.  [SELECT 1 AS a, 2 AS a] has the two-column
    description [a, a]; the mapping [exec] returns for its row has the
    single key [a]. *)
Lemma exec_duplicate_column_names :
  ~ rows_keyed_by_columns (answering (Ret duplicate_columns))
      "SELECT 1 AS a, 2 AS a" None connected.
Proof.
  intro H.
  destruct (H duplicate_columns ["a"; "a"] [[VInt 1; VInt 2]]
              eq_refl eq_refl eq_refl) as (w' & results & E & _ & F).
  vm_compute in E. inversion E; subst.
  inversion F as [|d ds K _]; subst. discriminate K.
Qed.

Lemma NoDup_ops_columns : NoDup ops_columns.
Proof.
  unfold ops_columns.
  repeat (constructor; [ simpl; intuition discriminate | ]). constructor.
Defined.

Lemma exec_returns_rows_or_count_witness :
  (exists results,
     exec (answering (Ret ops_result)) get_ops_between_dates None connected
     = ({| self := self connected;
           events := [EvExecute "SELECT 1" None;
                      EvExecute get_ops_between_dates None;
                      EvFetchall; EvCommit] |},
        Ret (Rows results)) /\
     results = map (combine ops_columns) ops_rows /\
     List.length results = List.length ops_rows /\
     Forall (fun d => keys d = ops_columns) results)
  /\ exec (answering (Ret update_result)) "UPDATE ven_users SET emp_id = 0"
       None connected
     = ({| self := self connected;
           events := [EvExecute "SELECT 1" None;
                      EvExecute "UPDATE ven_users SET emp_id = 0" None;
                      EvCommit] |},
        Ret (Count 3)).
Proof.
  split.
  - refine (proj1 (@exec_returns_rows_or_count (answering (Ret ops_result))
                     get_ops_between_dates None connected _ ops_result
                     eq_refl eq_refl eq_refl)
              ops_columns ops_rows eq_refl eq_refl NoDup_ops_columns _).
    repeat constructor.
  - exact (proj2 (@exec_returns_rows_or_count (answering (Ret update_result))
                    "UPDATE ven_users SET emp_id = 0" None connected _
                    update_result eq_refl eq_refl eq_refl) eq_refl).
Defined.

Lemma exec_failure_rolls_back_witness :
  exec (answering (Raise query_error)) get_ops_between_dates None connected
  = ({| self := self connected;
        events := [EvExecute "SELECT 1" None;
                   EvExecute get_ops_between_dates None;
                   EvRollback;
                   EvLog ERROR
                     "Error executing SQL script: 42S02 Invalid object name"] |},
     Raise query_error)
  /\ exec (dropping (Raise timeout_error)) get_ops_between_dates None connected
     = ({| self := self connected;
           events := [EvExecute "SELECT 1" None;
                      EvExecute get_ops_between_dates None;
                      EvRollback] |},
        Raise link_failure).
Proof.
  split.
  - exact (proj1 (@exec_failure_rolls_back (answering (Raise query_error))
                    get_ops_between_dates None connected _ _ eq_refl eq_refl)
             eq_refl).
  - exact (proj1 (proj2 (@exec_failure_rolls_back (dropping (Raise timeout_error))
                           get_ops_between_dates None connected _ _
                           eq_refl eq_refl))
             link_failure eq_refl).
Defined.

(** C5, counterexample.  The catalog query times out and the link is
    gone when [exec] asks for the rollback: the error that reaches the
    caller is the rollback's, not the statement's. *)
Lemma exec_rollback_failure_masks_error :
  ~ reraises_statement_error (dropping (Raise timeout_error))
      get_ops_between_dates None connected.
Proof.
  intro H. specialize (H _ timeout_error eq_refl eq_refl).
  vm_compute in H. discriminate H.
Qed.

Lemma connect_never_raises_witness :
  (credentials_ok (self anonymous) = false /\
   exists w',
     connect unreachable anonymous = (w', Ret false) /\
     self w' = self anonymous /\
     events w' = [EvLog ERROR ("Failed to connect to database: "
                               ++ missing_credentials)])
  /\ exists w',
       connect unreachable {| self := instance None None; events := [] |}
       = (w', Ret false) /\
       self w' = instance None None /\
       events w' =
       [EvConnect connection_string_of_instance;
        EvLog ERROR "Failed to connect to database: 08001 server not found"].
Proof.
  split.
  - split; [ reflexivity | ].
    destruct (connect_never_raises unreachable anonymous)
      as (w' & b & E & _ & H & _).
    destruct (H eq_refl) as (Hb & Hs & He). subst b.
    exists w'. auto.
  - destruct (connect_never_raises unreachable
                {| self := instance None None; events := [] |})
      as (w' & b & E & _ & _ & H).
    destruct (H connection_string_of_instance eq_refl) as (H1 & _).
    destruct (H1 (DriverError "08001 server not found") eq_refl)
      as (Hb & Hs & He).
    subst b. exists w'. auto.
Defined.

Lemma exec_empty_params_as_none_witness :
  (exists rest,
     events (fst (exec (answering (Ret update_result))
                    "UPDATE ven_users SET emp_id = 0" (Some []) connected))
     = ([EvExecute "SELECT 1" None]
        ++ EvExecute "UPDATE ven_users SET emp_id = 0" None :: rest)%list)
  /\ exec (answering (Ret update_result)) "UPDATE ven_users SET emp_id = 0"
       (Some []) connected
     = ({| self := self connected;
           events := [EvExecute "SELECT 1" None;
                      EvExecute "UPDATE ven_users SET emp_id = 0" None;
                      EvCommit] |},
        Ret (Count 3)).
Proof.
  destruct (proj2 (proj2 (exec_empty_params_as_none
                            (answering (Ret update_result))
                            "UPDATE ven_users SET emp_id = 0"))
              connected _ eq_refl) as [S C].
  split; [ exact S | exact (C update_result eq_refl eq_refl eq_refl) ].
Defined.

Lemma reconnect_if_needed_idempotent_witness :
  live (answering (Ret ops_result)) connected /\
  exists w1 w2,
    reconnect_if_needed (answering (Ret ops_result)) connected = (w1, Ret true) /\
    reconnect_if_needed (answering (Ret ops_result)) w1 = (w2, Ret true) /\
    self w2 = self connected /\
    events w2 = [EvExecute "SELECT 1" None; EvExecute "SELECT 1" None].
Proof.
  assert (L : live (answering (Ret ops_result)) connected).
  { repeat split; discriminate. }
  split; [ exact L | ].
  exact (reconnect_if_needed_idempotent (answering (Ret ops_result)) connected L).
Defined.

(** C4, counterexample.  On a server that accepts connections, the
    instance that comes out of the constructor holds a session. *)
Lemma construction_opens_session :
  ~ constructs_without_session (answering (Ret ops_result))
      "db.example" "ops" (Some "reporter") (Some "secret") false
      default_driver [].
Proof.
  intros [H _]. vm_compute in H. discriminate H.
Qed.

Lemma construction_connects_eagerly_witness :
  SQLConnection_new (answering (Ret ops_result))
    "db.example" "ops" (Some "reporter") (Some "secret") false default_driver []
  = ({| self := instance (Some PyodbcConnection) (Some PyodbcCursor);
        events := [EvConnect connection_string_of_instance; EvCursor] |},
     Ret tt).
Proof.
  exact (proj2 (construction_connects_eagerly (answering (Ret ops_result))
                  "db.example" "ops" (Some "reporter") (Some "secret")
                  false default_driver [])
           connection_string_of_instance eq_refl eq_refl eq_refl).
Defined.

(** * The date range resolver *)

Section ResolverProperties.

Variable strptime : string -> outcome Date.date.

(** [strptime] reports a text it cannot turn into a date with
    [ValueError], whatever the reason. *)
Hypothesis strptime_ValueError :
  forall s e, strptime s = Raise e -> exists msg, e = ValueError msg.

Variable today : Date.date.

(** C6.  In explicit-range mode, two texts that parse to [start] and
    [end] with [start <= end] give back exactly [(start, end)]; if one of
    them does not parse, or [start] is after [end], the resolver raises
    [ValueError]. *)
Theorem get_date_range_explicit (a : args) (s e : string) :
  last_month a = false -> between a = Some s -> and_ a = Some e ->
  (forall ds de,
     strptime s = Ret ds -> strptime e = Ret de -> Date.leb ds de = true ->
     get_date_range strptime today a = Ret (ds, de))
  /\ (returns (strptime s) = false \/ returns (strptime e) = false ->
      exists msg, get_date_range strptime today a = Raise (ValueError msg))
  /\ (forall ds de,
       strptime s = Ret ds -> strptime e = Ret de -> Date.gtb ds de = true ->
       exists msg, get_date_range strptime today a = Raise (ValueError msg)).
Proof.
  intros Hl Hb Ha. unfold get_date_range. rewrite Hl, Hb, Ha. simpl.
  split; [ | split ].
  - intros ds de -> ->. unfold Date.leb. simpl.
    destruct (Date.gtb ds de); [ discriminate | reflexivity ].
  - intros [F|F].
    + destruct (strptime s) as [ds|x] eqn:Es; [ discriminate | ].
      destruct (strptime_ValueError _ _ Es) as [msg ->]. simpl. eauto.
    + destruct (strptime s) as [ds|x] eqn:Es; simpl.
      * destruct (strptime e) as [de|y] eqn:Ee; [ discriminate | ].
        destruct (strptime_ValueError _ _ Ee) as [msg ->]. simpl. eauto.
      * destruct (strptime_ValueError _ _ Es) as [msg ->]. simpl. eauto.
  - intros ds de -> -> G. simpl. rewrite G. simpl. eauto.
Qed.

(** *** Previous month *)

(** Every month of every year a [date] can hold, the first one apart,
    checked by running the resolver. *)
Lemma previous_month_table :
  forallb (fun y =>
    forallb (fun m =>
      ((y =? 1) && (m =? 1)) || previous_month_checked strptime y m)
      all_months) all_years = true.
Proof. vm_cast_no_check (eq_refl true). Qed.

Lemma in_range_of_nat (lo len : nat) (z : Z) :
  Z.of_nat lo <= z < Z.of_nat lo + Z.of_nat len ->
  In z (map Z.of_nat (seq lo len)).
Proof.
  intro H. apply in_map_iff. exists (Z.to_nat z). split; [ lia | ].
  apply in_seq. lia.
Qed.

Lemma previous_month_checked_sound (y m : Z) :
  previous_month_checked strptime y m = true ->
  get_date_range strptime (Date.mk y m 1) last_month_args
  = Ret (first_day_of (previous_month y m), last_day_of (previous_month y m)).
Proof.
  unfold previous_month_checked, first_day_of, last_day_of.
  destruct (get_date_range strptime (Date.mk y m 1) last_month_args)
    as [[[ya ma da] [yb mb db]]|]; [ | discriminate ].
  simpl. intro H.
  repeat (apply andb_prop in H; destruct H as [H ?]).
  repeat match goal with E : (_ =? _) = true |- _ => apply Z.eqb_eq in E end.
  congruence.
Qed.

(** C7.  In previous-month mode, on any day of any month but the very
    first month a [date] can hold, the resolver answers with the first
    and the last day of the month before; run in January it answers with
    December 1 and December 31 of the year before. *)
Theorem get_date_range_previous_month (a : args) :
  last_month a = true ->
  Date.valid today = true ->
  (Date.year today, Date.month today) <> (1, 1) ->
  let ym := previous_month (Date.year today) (Date.month today) in
  get_date_range strptime today a = Ret (first_day_of ym, last_day_of ym)
  /\ (Date.month today = 1 ->
      get_date_range strptime today a
      = Ret (Date.mk (Date.year today - 1) 12 1,
             Date.mk (Date.year today - 1) 12 31)).
Proof.
  intros Hl V N ym.
  assert (E : get_date_range strptime today a
              = Ret (first_day_of ym, last_day_of ym)).
  { assert (R : get_date_range strptime today a
                = get_date_range strptime
                    (Date.mk (Date.year today) (Date.month today) 1)
                    last_month_args).
    { unfold get_date_range. rewrite Hl. reflexivity. }
    rewrite R. apply previous_month_checked_sound.
    unfold Date.valid, Date.MINYEAR, Date.MAXYEAR in V.
    repeat (apply andb_prop in V; destruct V as [V ?]).
    repeat match goal with
           | H : (_ <=? _) = true |- _ => apply Z.leb_le in H
           end.
    pose proof previous_month_table as T.
    rewrite forallb_forall in T.
    assert (Iy : In (Date.year today) all_years).
    { apply in_range_of_nat. lia. }
    assert (Im : In (Date.month today) all_months).
    { apply in_range_of_nat. lia. }
    specialize (T (Date.year today) Iy).
    rewrite forallb_forall in T.
    specialize (T (Date.month today) Im).
    apply orb_prop in T. destruct T as [T|T]; [ | exact T ].
    apply andb_prop in T. destruct T as [Ty Tm].
    apply Z.eqb_eq in Ty, Tm. exfalso. apply N. congruence. }
  split; [ exact E | ].
  intro J. rewrite E. subst ym. unfold previous_month. rewrite J. reflexivity.
Qed.

End ResolverProperties.

(** ** The resolver on concrete command lines *)

Lemma parse_ValueError (s : string) (e : exn) :
  Strptime.parse s = Raise e -> exists msg, e = ValueError msg.
Proof.
  unfold Strptime.parse, Strptime.no_match, Date.make.
  repeat (branch; simpl); intro H; inversion H; eauto.
Qed.

Example previous_month_of_march_2024 :
  get_date_range Strptime.parse (Date.mk 2024 3 31) last_month_args
  = Ret (Date.mk 2024 2 1, Date.mk 2024 2 29).
Proof. reflexivity. Qed.

Example previous_month_of_march_2100 :
  get_date_range Strptime.parse (Date.mk 2100 3 1) last_month_args
  = Ret (Date.mk 2100 2 1, Date.mk 2100 2 28).
Proof. reflexivity. Qed.

(** In the first month a [date] can hold there is no day before the
    first: the subtraction overflows. *)
Example previous_month_of_year_one :
  get_date_range Strptime.parse (Date.mk 1 1 15) last_month_args
  = Raise OverflowError.
Proof. reflexivity. Qed.

Example explicit_range_without_end :
  get_date_range Strptime.parse (Date.mk 2025 4 2)
    {| last_month := false; between := Some "2025-03-01"; and_ := None;
       config_arg := "reporter.conf" |}
  = Raise (TypeError "strptime() argument 1 must be str, not None").
Proof. reflexivity. Qed.

Lemma get_date_range_explicit_witness :
  get_date_range Strptime.parse (Date.mk 2025 4 2)
    (between_args "2025-03-01" "2025-03-31")
  = Ret (Date.mk 2025 3 1, Date.mk 2025 3 31)
  /\ (exists msg,
        get_date_range Strptime.parse (Date.mk 2025 4 2)
          (between_args "2025-02-30" "2025-03-31")
        = Raise (ValueError msg))
  /\ (exists msg,
        get_date_range Strptime.parse (Date.mk 2025 4 2)
          (between_args "2025-03-31" "2025-03-01")
        = Raise (ValueError msg)).
Proof.
  split; [ | split ].
  - exact (proj1 (get_date_range_explicit Strptime.parse parse_ValueError
                    (Date.mk 2025 4 2) (between_args "2025-03-01" "2025-03-31")
                    "2025-03-01" "2025-03-31" eq_refl eq_refl eq_refl)
             (Date.mk 2025 3 1) (Date.mk 2025 3 31) eq_refl eq_refl eq_refl).
  - exact (proj1 (proj2 (get_date_range_explicit Strptime.parse parse_ValueError
                    (Date.mk 2025 4 2) (between_args "2025-02-30" "2025-03-31")
                    "2025-02-30" "2025-03-31" eq_refl eq_refl eq_refl))
             (or_introl eq_refl)).
  - exact (proj2 (proj2 (get_date_range_explicit Strptime.parse parse_ValueError
                    (Date.mk 2025 4 2) (between_args "2025-03-31" "2025-03-01")
                    "2025-03-31" "2025-03-01" eq_refl eq_refl eq_refl))
             (Date.mk 2025 3 31) (Date.mk 2025 3 1) eq_refl eq_refl eq_refl).
Defined.

Lemma get_date_range_previous_month_witness :
  get_date_range Strptime.parse (Date.mk 2025 1 15) last_month_args
  = Ret (Date.mk 2024 12 1, Date.mk 2024 12 31).
Proof.
  refine (proj2 (get_date_range_previous_month Strptime.parse
                   (Date.mk 2025 1 15) last_month_args eq_refl eq_refl _)
            eq_refl).
  discriminate.
Defined.

(** * The pipeline *)

Section FetchProperties.

Variable srv : odbc.

(** After a call of [exec] that returns, the instance still holds the
    session the call ran on. *)
Lemma exec_returns_with_session script params w w' v :
  exec srv script params w = (w', Ret v) ->
  conn (self w') <> None /\ cursor (self w') <> None.
Proof.
  destruct (reconnect_if_needed srv w) as [w1 [[|]|x]] eqn:R.
  - destruct (exec_after_reconnect srv script params w w1 R)
      as (c & k & Ec & Ek & E).
    rewrite E. clear E R. run. rewrite Ek. simpl.
    repeat (branch; simpl; rewrite ?Ec, ?Ek);
      intro H; inversion H; subst; simpl; rewrite ?Ec, ?Ek;
      split; congruence.
  - unfold exec, bind. rewrite R. run. discriminate.
  - unfold exec, bind. rewrite R. discriminate.
Qed.

(** [close()] on an instance that holds a session. *)
Lemma close_with_session w :
  conn (self w) <> None -> cursor (self w) <> None ->
  close w =
  ({| self := set_conn None (set_cursor None (self w));
      events := (events w ++ [EvCursorClose; EvConnClose])%list |}, Ret tt).
Proof.
  intros Hc Hk. run.
  destruct (cursor (self w)) eqn:Ek; [ | congruence ]. simpl.
  destruct (conn (self w)) eqn:Ec; [ | congruence ]. simpl.
  now rewrite <- app_assoc.
Qed.

(** When [fetch_data] returns, its last two driver calls closed the
    cursor and the connection. *)
Lemma fetch_data_return_closes db s e t w v :
  fetch_data_world srv db s e t = (w, Ret v) ->
  conn (self w) = None /\
  exists t', events w = (t' ++ [EvCursorClose; EvConnClose])%list.
Proof.
  unfold fetch_data_world, fetch_data_on, try_except.
  unfold bind at 1.
  destruct (init srv _) as [w0 [[]|x]] eqn:I; simpl.
  - unfold bind at 1.
    destruct (exec srv _ _ w0) as [w1 [r|x]] eqn:X; simpl.
    + destruct (exec_returns_with_session _ _ _ _ _ X) as [Hc Hk].
      unfold bind. rewrite (close_with_session w1 Hc Hk). simpl.
      intro H. inversion H; subst. simpl. eauto.
    + destruct (is_ConnectionError x); run; discriminate.
  - destruct (is_ConnectionError x); run; discriminate.
Qed.

(** When [fetch_data] propagates an exception, it has not asked the
    driver to close anything. *)
Lemma fetch_data_raise_no_close db s e t w x :
  fetch_data_world srv db s e t = (w, Raise x) ->
  exists added,
    events w = (t ++ added)%list /\
    Forall (fun ev => is_conn_close ev = false) added.
Proof.
  unfold fetch_data_world, fetch_data_on, try_except.
  set (w_init := {| self := fetch_instance db; events := t |}).
  unfold bind at 1. unfold init at 1. unfold bind at 1.
  destruct (connect_returns srv w_init) as (w0 & b & C).
  destruct (@connect_appends srv (fun ev => is_conn_close ev = false))
    with (s := w_init) as [ad0 [E0 F0]]; try reflexivity.
  rewrite C in *. simpl in E0. unfold ret at 1. simpl.
  unfold bind at 1.
  destruct (@appends_weaken world events
              (fun ev => is_conn_close ev = false) exec_value exec_event
              (exec srv get_ops_between_dates (Some [VDate s; VDate e])))
    with (s := w0) as [ad1 [E1 F1]].
  { intros []; simpl; intro H; try contradiction; reflexivity. }
  { apply exec_appends. }
  destruct (exec srv _ _ w0) as [w1 [r|y]] eqn:X; simpl in *.
  - destruct (exec_returns_with_session _ _ _ _ _ X) as [Hc Hk].
    unfold bind. rewrite (close_with_session w1 Hc Hk). simpl. discriminate.
  - destruct (is_ConnectionError y); run; intro H; inversion H; subst; simpl;
      rewrite E1, E0, <- !app_assoc;
      (eexists; split; [ reflexivity | ]);
      repeat (apply Forall_app; split; auto).
Qed.

End FetchProperties.

(** C1, the failing run.  The server grants the session and then rejects
    the catalog query.  [fetch_data] propagates the error after
    [rollback()] and two log lines; neither [close()] call was made, and
    the instance still holds its connection and its cursor. *)
Theorem fetch_data_failure_leaves_session_open :
  fetch_data_world (answering (Raise query_error)) db_settings
    (Date.mk 2025 3 1) (Date.mk 2025 3 31) []
  = ({| self := instance (Some PyodbcConnection) (Some PyodbcCursor);
        events :=
          [EvConnect connection_string_of_instance;
           EvCursor;
           EvExecute "SELECT 1" None;
           EvExecute get_ops_between_dates
             (Some [VDate (Date.mk 2025 3 1); VDate (Date.mk 2025 3 31)]);
           EvRollback;
           EvLog ERROR "Error executing SQL script: 42S02 Invalid object name";
           EvLog ERROR "Error fetching data: 42S02 Invalid object name"] |},
     Raise query_error)
  /\ existsb is_conn_close
       (events (fst (fetch_data_world (answering (Raise query_error))
                       db_settings (Date.mk 2025 3 1) (Date.mk 2025 3 31) [])))
     = false.
Proof. split; reflexivity. Qed.

(** The same fetch on a server that answers the query: the session is
    closed before [fetch_data] returns. *)
Example fetch_data_success_closes :
  fetch_data (answering (Ret ops_result)) db_settings
    (Date.mk 2025 3 1) (Date.mk 2025 3 31) []
  = ([EvConnect connection_string_of_instance;
      EvCursor;
      EvExecute "SELECT 1" None;
      EvExecute get_ops_between_dates
        (Some [VDate (Date.mk 2025 3 1); VDate (Date.mk 2025 3 31)]);
      EvFetchall;
      EvCommit;
      EvCursorClose;
      EvConnClose],
     Ret (Rows (map (combine ops_columns) ops_rows))).
Proof. reflexivity. Qed.

Section PipelineProperties.

Variable srv : odbc.
Variable strptime : string -> outcome Date.date.
Variable today : Date.date.
Variable workbook_bytes : list string -> list (list value) -> list Byte.byte.
Variable http_post : mval -> mval -> payload -> outcome Z.
Variable file_write : string -> list Byte.byte -> outcome unit.

Lemma check_required_appends P ps cfg :
  appends (fun t : trace => t) P (check_required ps cfg).
Proof.
  induction ps as [|param ps IH]; simpl; [ auto with appends | ].
  destruct (mail_has cfg param); auto with appends.
Qed.

Lemma build_bcc_appends rs :
  forall bcc_list,
    appends (fun t : trace => t) mail_event (build_bcc rs bcc_list).
Proof.
  induction rs as [|r rs IH]; intro bcc_list; simpl; [ auto with appends | ].
  destruct (recipient_get "email" r); [ apply IH | ].
  appends_step; [ appends_step; exact I | apply IH ].
Qed.

Lemma skip_all_appends n :
  appends (fun t : trace => t) mail_event (skip_all n).
Proof.
  induction n as [|n IH]; simpl; [ auto with appends | ].
  appends_step; [ appends_step; exact I | exact IH ].
Qed.

(** Delivery only logs and posts. *)
Lemma send_email_appends now recipients excel_data cfg :
  appends (fun t : trace => t) mail_event
    (send_email_with_attachment http_post now recipients excel_data cfg).
Proof.
  unfold send_email_with_attachment, bcc_of, mail_item.
  appends_step.
  - appends_step; [ apply check_required_appends | ].
    appends_step.
    + destruct recipients;
        [ appends_step; [ apply skip_all_appends | auto with appends ]
        | apply build_bcc_appends ].
    + appends_all; exact I.
  - appends_all; exact I.
Qed.

(** A complete mail configuration has its recipients. *)
Lemma mail_complete_recipients cfg :
  mail_complete cfg = true ->
  exists m recipients,
    cfg_mail cfg = Some m /\ mail_get "recipients" m = Some recipients.
Proof.
  unfold mail_complete. destruct (cfg_mail cfg) as [m|]; [ | discriminate ].
  simpl. unfold mail_has at 6. intro H.
  repeat (apply andb_prop in H; destruct H as [? H]).
  destruct (mail_get "recipients" m) as [r|] eqn:E; [ eauto | discriminate ].
Qed.

(** C3.  A run with a configuration whose mail section is complete, in
    which the fetch returns at least one row, the report is rendered and
    the delivery answers [False], ends with status 0, having logged the
    failure and printed that the report was generated but not sent; from
    its start to its end the run wrote no file. *)
Theorem main_delivery_failure (a : args) (config_path : string) (cfg : config)
    (db : connection_data) (m : mail_section) (recipients : mval)
    (start_date end_date : Date.date) (row : pydict) (rows : list pydict)
    (excel_data : list Byte.byte) (t t_fetch t_mail : trace) :
  get_date_range strptime today a = Ret (start_date, end_date) ->
  cfg_db cfg = Some db ->
  fetch_data srv db start_date end_date
    (t ++ prologue config_path start_date end_date)%list
  = (t_fetch, Ret (Rows (row :: rows))) ->
  generate_excel_report workbook_bytes (row :: rows) = Ret excel_data ->
  mail_complete cfg = true ->
  cfg_mail cfg = Some m ->
  mail_get "recipients" m = Some recipients ->
  send_email_with_attachment http_post today recipients excel_data m
    (t_fetch ++ rendering_log (List.length (row :: rows)) excel_data recipients)%list
  = (t_mail, Ret false) ->
  main srv strptime today workbook_bytes http_post file_write a config_path (Ret cfg) t
  = ((t_mail ++ not_delivered)%list, Ret 0)
  /\ exists added,
       (t_mail ++ not_delivered)%list = (t ++ added)%list /\
       Forall (fun ev => is_write_file ev = false) added.
Proof.
  intros Hrange Hdb Hfetch Hexcel Hcomplete Hmail Hrecipients Hsend.
  split.
  - unfold main, main_body, try_except.
    unfold bind, lift, logger_info, logger_error, print, emit_t, ret, mail_item.
    rewrite Hrange, Hdb. simpl.
    rewrite <- !app_assoc. simpl.
    unfold prologue in Hfetch. simpl in Hfetch. rewrite Hfetch. simpl.
    simpl in Hexcel. injection Hexcel as Hexcel. rewrite Hexcel.
    rewrite Hcomplete, Hmail, Hrecipients. simpl.
    rewrite <- !app_assoc. simpl.
    unfold rendering_log in Hsend. simpl in Hsend. rewrite Hsend. simpl.
    rewrite <- !app_assoc. reflexivity.
  - destruct (fetch_data_appends srv db start_date end_date
                (t ++ prologue config_path start_date end_date)%list)
      as [ad1 [E1 F1]].
    rewrite Hfetch in E1. simpl in E1.
    destruct (send_email_appends today recipients excel_data m
                (t_fetch ++ rendering_log (List.length (row :: rows))
                              excel_data recipients)%list)
      as [ad2 [E2 F2]].
    rewrite Hsend in E2. simpl in E2.
    rewrite E2, E1, <- !app_assoc.
    eexists. split; [ reflexivity | ].
    repeat (apply Forall_app; split);
      try (repeat constructor; fail).
    + eapply Forall_impl; [ | exact F1 ].
      intros []; simpl; intro H; try contradiction; reflexivity.
    + eapply Forall_impl; [ | exact F2 ].
      intros []; simpl; intro H; try contradiction; reflexivity.
Qed.

End PipelineProperties.

Example main_no_data :
  snd (main (answering (Ret {| description := Some ops_columns;
                               fetchall := Ret [];
                               rowcount := 0 |}))
         Strptime.parse (Date.mk 2025 4 2) one_byte_per_cell (mail_service 200) disk
         march_2025 march_path (Ret settings) [])
  = Ret 0.
Proof. reflexivity. Qed.

Example main_query_error :
  snd (main (answering (Raise query_error))
         Strptime.parse (Date.mk 2025 4 2) one_byte_per_cell (mail_service 200) disk
         march_2025 march_path (Ret settings) [])
  = Ret 1.
Proof. reflexivity. Qed.

Lemma main_delivery_failure_witness :
  main (answering (Ret ops_result)) Strptime.parse (Date.mk 2025 4 2)
    one_byte_per_cell (mail_service 500) disk march_2025 march_path (Ret settings) []
  = ((march_mail ++ not_delivered)%list, Ret 0)
  /\ exists added,
       (march_mail ++ not_delivered)%list = ([] ++ added)%list /\
       Forall (fun ev => is_write_file ev = false) added.
Proof.
  apply (main_delivery_failure (answering (Ret ops_result)) Strptime.parse
           (Date.mk 2025 4 2) one_byte_per_cell (mail_service 500) disk
           march_2025 march_path settings db_settings mail_settings
           mail_recipients (Date.mk 2025 3 1) (Date.mk 2025 3 31)
           (combine ops_columns (hd [] ops_rows))
           (map (combine ops_columns) (tl ops_rows))
           march_excel [] march_fetch march_mail);
    reflexivity.
Defined.
(** * Further properties of the connection manager *)

Lemma ends_with (l m r : trace) :
  exists t, (l ++ (m ++ r))%list = (t ++ r)%list.
Proof. exists (l ++ m)%list. now rewrite app_assoc. Qed.

(** Closes a goal that asks for the events before a known end of the
    trace. *)
Ltac ends l r :=
  first [ exact (ends_with l [] r)
        | exact (ends_with l [_] r)
        | exact (ends_with l [_; _] r)
        | exact (ends_with l [_; _; _] r)
        | exact (ends_with l [_; _; _; _] r) ].

Section ConnectionLifecycle.

Variable srv : odbc.

(** X1.  After a [close()] that returned, the instance holds neither
    connection nor cursor, and closing it again does nothing at all: no
    driver call, no change. *)
Theorem close_idempotent (w w1 : world) :
  close w = (w1, Ret tt) ->
  conn (self w1) = None /\ cursor (self w1) = None /\
  close w1 = (w1, Ret tt).
Proof.
  run.
  destruct (cursor (self w)) eqn:Ek; simpl;
    destruct (conn (self w)) eqn:Ec; simpl;
    intro H; inversion H; subst; simpl; repeat split.
Qed.

Lemma is_connected_returns (w : world) :
  exists w' b, is_connected srv w = (w', Ret b) /\ self w' = self w.
Proof.
  run. destruct (conn (self w)); simpl; [ | eauto ].
  destruct (cursor (self w)); simpl; [ | eauto ].
  destruct (srv_execute srv "SELECT 1" None); simpl; eauto.
Qed.

(** X2.  [is_connected()] never raises and never touches the instance;
    it answers [True] exactly when the instance holds a connection and a
    cursor and the server answers the health check, and without a
    connection it answers [False] without calling the driver. *)
Theorem is_connected_iff_live (w : world) :
  exists w' b,
    is_connected srv w = (w', Ret b) /\
    self w' = self w /\
    (b = true <-> live srv w) /\
    (conn (self w) = None -> b = false /\ events w' = events w).
Proof.
  unfold live. run.
  destruct (conn (self w)) as [c|]; simpl.
  - destruct (cursor (self w)) as [k|]; simpl.
    + destruct (srv_execute srv "SELECT 1" None) as [rs|x]; simpl;
        do 2 eexists; (split; [ reflexivity | ]); simpl;
        (split; [ reflexivity | ]); (split; [ | discriminate ]);
        split; try discriminate; intros; repeat split; try discriminate.
      destruct H as (_ & _ & H). discriminate.
    + do 2 eexists. split; [ reflexivity | ]. simpl.
      split; [ reflexivity | ]. split; [ | discriminate ].
      split; [ discriminate | ]. intros (_ & H & _). congruence.
  - do 2 eexists. split; [ reflexivity | ]. simpl.
    split; [ reflexivity | ]. split; [ | auto ].
    split; [ discriminate | ]. intros (H & _). congruence.
Qed.

(** X3.  With no session and [connect()] failing, [exec] logs and raises
    [ConnectionError]; the statement is never sent, and nothing is
    fetched, committed or rolled back. *)
Theorem exec_connection_error script params (w w1 : world) :
  conn (self w) = None ->
  connect srv w = (w1, Ret false) ->
  exec srv script params w
  = (after w1 [EvLog ERROR "Failed to connect to database"],
     Raise (ConnectionError "Failed to connect to database"))
  /\ exists added,
       events w1 = (events w ++ added)%list /\
       Forall (fun ev => is_statement ev = false) added.
Proof.
  intros N C. split.
  - unfold exec, reconnect_if_needed, is_connected.
    unfold bind at 1. unfold bind at 1. unfold bind at 1.
    unfold get_self at 1. simpl. rewrite N. unfold ret at 1. simpl.
    rewrite C. reflexivity.
  - destruct (@connect_appends srv (fun ev => is_statement ev = false))
      with (s := w) as [ad [E F]]; try reflexivity.
    rewrite C in E. eauto.
Qed.

(** How [exec] goes on from what [reconnect_if_needed()] answers. *)
Lemma exec_cases script params (w : world) :
  (exists w1,
     reconnect_if_needed srv w = (w1, Ret true) /\
     exec srv script params w
     = guarded_exec srv script (driver_params params) w1)
  \/ (exists w1,
        exec srv script params w
        = (after w1 [EvLog ERROR "Failed to connect to database"],
           Raise (ConnectionError "Failed to connect to database"))).
Proof.
  destruct (reconnect_if_needed srv w) as [w1 [[|]|x]] eqn:R.
  - left. exists w1. split; [ reflexivity | ]. now apply exec_guarded.
  - right. exists w1. unfold exec, bind. rewrite R. reflexivity.
  - exfalso. revert R. unfold reconnect_if_needed, bind.
    destruct (is_connected_returns w) as (w' & b & -> & _).
    destruct b; [ discriminate | ].
    destruct (connect_returns srv w') as (w2 & b2 & ->). discriminate.
Qed.

(** X4.  [exec] returns only with the transaction committed: whenever
    it returns a value, [commit()] succeeded and was the last thing the
    call did. *)
Theorem exec_returns_committed script params (w w' : world) (v : exec_value) :
  exec srv script params w = (w', Ret v) ->
  returns (srv_commit srv) = true /\
  exists t, events w' = (t ++ [EvCommit])%list.
Proof.
  destruct (exec_cases script params w) as [(w1 & _ & ->)|(w1 & ->)];
    [ | discriminate ].
  unfold guarded_exec, after.
  repeat (branch; simpl); intro H; inversion H; subst; simpl;
    (split; [ reflexivity | ]); ends (events w1) [EvCommit].
Qed.

(** X5.  [exec] raises in three ways only: [ConnectionError], right
    after logging that no session could be had; the error of the failed
    driver call, right after a [rollback()] that succeeded and the log
    line that reports the error; or the error of a [rollback()] that
    failed, right after that call. *)
Theorem exec_raises_rolled_back script params (w w' : world) (e : exn) :
  exec srv script params w = (w', Raise e) ->
  (e = ConnectionError "Failed to connect to database" /\
   exists t,
     events w' = (t ++ [EvLog ERROR "Failed to connect to database"])%list)
  \/ (returns (srv_rollback srv) = true /\
      exists t, events w' = (t ++ rollback_events e)%list)
  \/ (srv_rollback srv = Raise e /\
      exists t, events w' = (t ++ [EvRollback])%list).
Proof.
  destruct (exec_cases script params w) as [(w1 & _ & ->)|(w1 & ->)].
  - unfold guarded_exec, after.
    repeat (branch; simpl); intro H; inversion H; subst; simpl; right;
      first [ left; split; [ reflexivity | ends (events w1) (rollback_events e) ]
            | right; split; [ reflexivity | ends (events w1) [EvRollback] ] ].
  - intro H. inversion H; subst. left. split; [ reflexivity | ].
    simpl. eauto.
Qed.

(** *** Rows that do not fit, fetches and commits that fail *)

(** A row with more values than there are columns stops the
    materialisation with [IndexError]. *)
Lemma row_dict_long columns :
  forall (row : list value) (i : nat) (acc : pydict),
    (i <= List.length columns)%nat ->
    (List.length columns < i + List.length row)%nat ->
    row_dict columns i row acc = Raise IndexError.
Proof.
  induction row as [|v row IH]; intros i acc B L; simpl in *; [ lia | ].
  destruct (nth_error columns i) as [c|] eqn:E; [ | reflexivity ].
  assert (i < List.length columns)%nat
    by (apply nth_error_Some; congruence).
  apply IH; lia.
Qed.

Lemma build_results_long columns :
  forall (rows : list (list value)) (results : list pydict),
    Exists (fun row => (List.length columns < List.length row)%nat) rows ->
    exists e, build_results columns rows results = Raise e.
Proof.
  induction rows as [|row rows IH]; intros results X; inversion X; subst;
    simpl.
  - rewrite row_dict_long by (simpl; lia). eauto.
  - destruct (row_dict columns 0 row []); eauto.
Qed.

(** X6.  A failure between the column description and the commit is
    swallowed: when the statement has a description but [fetchall()]
    raises, or a fetched row has more values than there are columns,
    [exec] commits and returns the row count instead of rows. *)
Theorem exec_fetch_failure_counts script params (w w1 : world)
    (rs : result_set) (columns : list string) :
  reconnect_if_needed srv w = (w1, Ret true) ->
  srv_execute srv script (driver_params params) = Ret rs ->
  description rs = Some columns ->
  (returns (fetchall rs) = false \/
   exists rows,
     fetchall rs = Ret rows /\
     Exists (fun row => (List.length columns < List.length row)%nat) rows) ->
  returns (srv_commit srv) = true ->
  exec srv script params w
  = (after w1 [EvExecute script (driver_params params); EvFetchall; EvCommit],
     Ret (Count (rowcount rs))).
Proof.
  intros R X D F C. rewrite (exec_guarded srv script params w w1 R).
  unfold guarded_exec. rewrite X, D.
  destruct (srv_commit srv) as [[]|]; [ | discriminate ].
  destruct F as [F|(rows & F & L)].
  - destruct (fetchall rs); [ discriminate | reflexivity ].
  - rewrite F. simpl.
    destruct (build_results_long columns rows [] L) as [e ->]. reflexivity.
Qed.

(** Rows that fit are materialised. *)
Lemma row_dict_fold (post : list string) :
  forall (pre : list string) (row : list value) (acc : pydict),
    (List.length row <= List.length post)%nat ->
    row_dict (pre ++ post) (List.length pre) row acc
    = Ret (fold_left store (combine post row) acc).
Proof.
  induction post as [|c post IH]; intros pre row acc L.
  - destruct row; [ reflexivity | simpl in L; lia ].
  - destruct row as [|v row]; [ reflexivity | ]. simpl.
    rewrite nth_error_app2 by lia. rewrite Nat.sub_diag. simpl.
    specialize (IH (pre ++ [c])%list row (dict_set c v acc)).
    rewrite <- app_assoc in IH. simpl in IH.
    rewrite length_app in IH. simpl in IH. rewrite Nat.add_1_r in IH.
    apply IH. simpl in L. lia.
Qed.

Lemma build_results_fold (columns : list string) :
  forall (rows : list (list value)) (results : list pydict),
    Forall (fun row => (List.length row <= List.length columns)%nat) rows ->
    build_results columns rows results
    = Ret (results
           ++ map (fun row => fold_left store (combine columns row) []) rows)%list.
Proof.
  induction rows as [|row rows IH]; intros results F; simpl.
  - now rewrite app_nil_r.
  - inversion F; subst.
    pose proof (row_dict_fold columns [] row []) as E. simpl in E.
    rewrite E by assumption. rewrite IH by assumption.
    now rewrite <- app_assoc.
Qed.

(** X7.  When [commit()] raises the same error each time it is
    called, and [rollback()] succeeds, [exec] does not return: it raises
    the commit's error after the rollback and the log line.  On the rows
    path [commit()] is called twice before that: once after the rows are
    built, and once more by the handler that falls back to the row
    count. *)
Theorem exec_commit_failure script params (w w1 : world) (rs : result_set)
    (e : exn) :
  reconnect_if_needed srv w = (w1, Ret true) ->
  srv_execute srv script (driver_params params) = Ret rs ->
  srv_commit srv = Raise e ->
  returns (srv_rollback srv) = true ->
  (exists w',
     exec srv script params w = (w', Raise e) /\
     exists t, events w' = (t ++ EvCommit :: rollback_events e)%list)
  /\ forall columns rows,
       description rs = Some columns ->
       fetchall rs = Ret rows ->
       Forall (fun row => (List.length row <= List.length columns)%nat) rows ->
       exec srv script params w
       = (after w1 ([EvExecute script (driver_params params);
                     EvFetchall; EvCommit; EvCommit]
                    ++ rollback_events e), Raise e).
Proof.
  intros R X C B. rewrite (exec_guarded srv script params w w1 R).
  unfold guarded_exec. rewrite X, C.
  destruct (srv_rollback srv) as [[]|]; [ clear B | discriminate ]. split.
  - unfold after.
    repeat (branch; simpl); eexists; (split; [ reflexivity | ]); simpl;
      ends (events w1) (EvCommit :: rollback_events e).
  - intros columns rows D F L. rewrite D, F. simpl.
    rewrite (build_results_fold columns rows [] L). reflexivity.
Qed.

(** *** Mappings for any column names *)

Lemma keys_dict_set k v (d : pydict) (c : string) :
  In c (keys (dict_set k v d)) <-> c = k \/ In c (keys d).
Proof.
  induction d as [|[k' v'] d IH]; simpl; [ intuition | ].
  destruct (String.eqb_spec k' k) as [->|N]; simpl; [ intuition | ].
  rewrite IH. intuition.
Qed.

Lemma NoDup_dict_set k v (d : pydict) :
  NoDup (keys d) -> NoDup (keys (dict_set k v d)).
Proof.
  induction d as [|[k' v'] d IH]; simpl; intro ND.
  - constructor; [ intros [] | constructor ].
  - destruct (String.eqb_spec k' k) as [->|N]; simpl; [ exact ND | ].
    inversion ND; subst. constructor; [ | auto ].
    intro I. apply keys_dict_set in I. destruct I as [->|I]; auto.
Qed.

Lemma dict_get_dict_set k v (d : pydict) (c : string) :
  dict_get c (dict_set k v d)
  = if String.eqb k c then Some v else dict_get c d.
Proof.
  induction d as [|[k' v'] d IH]; simpl.
  - reflexivity.
  - destruct (String.eqb_spec k' k) as [->|N]; simpl.
    + destruct (String.eqb k c); reflexivity.
    + rewrite IH. destruct (String.eqb_spec k' c) as [->|N'];
        [ | reflexivity ].
      destruct (String.eqb_spec k c) as [->|]; congruence.
Qed.

Lemma dict_get_app (c : string) (l m : pydict) :
  dict_get c (l ++ m)%list
  = match dict_get c l with Some v => Some v | None => dict_get c m end.
Proof.
  induction l as [|[k v] l IH]; simpl; [ reflexivity | ].
  destruct (String.eqb k c); auto.
Qed.

(** What the comprehension builds from any list of (column, value)
    pairs: distinct keys, those of the pairs and of the start, and under
    each key the value of its last pair. *)
Lemma fold_store (ps : list (string * value)) :
  forall acc : pydict,
    NoDup (keys acc) ->
    let d := fold_left store ps acc in
    NoDup (keys d) /\
    (forall c, In c (keys d) <-> In c (keys acc) \/ In c (map fst ps)) /\
    (forall c, dict_get c d
               = match dict_get c (rev ps) with
                 | Some v => Some v
                 | None => dict_get c acc
                 end).
Proof.
  induction ps as [|[k v] ps IH]; intros acc ND; simpl.
  - repeat split; auto; intuition.
  - destruct (IH (store acc (k, v))) as (N & I & G).
    { now apply NoDup_dict_set. }
    split; [ exact N | ]. split.
    + intro c. rewrite I. unfold store. simpl. rewrite keys_dict_set.
      intuition.
    + intro c. rewrite G. unfold store. simpl.
      rewrite dict_get_app, dict_get_dict_set. simpl.
      destruct (dict_get c (rev ps)); [ reflexivity | ].
      destruct (String.eqb k c); reflexivity.
Qed.

(** X8.  Whatever the column names, distinct or not: on an ensured
    session, for a statement whose rows are fetched with one value per
    column and with [commit()] succeeding, [exec] returns one mapping per
    row, in order; the keys of each are distinct and are the column
    names, and under a name stands the row's value in the last column of
    that name. *)
Theorem exec_rows_by_name script params (w w1 : world) (rs : result_set)
    (columns : list string) (rows : list (list value)) :
  reconnect_if_needed srv w = (w1, Ret true) ->
  srv_execute srv script (driver_params params) = Ret rs ->
  description rs = Some columns ->
  fetchall rs = Ret rows ->
  Forall (fun row => List.length row = List.length columns) rows ->
  returns (srv_commit srv) = true ->
  exists results,
    exec srv script params w
    = (after w1 [EvExecute script (driver_params params); EvFetchall; EvCommit],
       Ret (Rows results)) /\
    Forall2 (fun row d =>
               NoDup (keys d) /\
               (forall c, In c (keys d) <-> In c columns) /\
               (forall c, dict_get c d = last_value c columns row))
      rows results.
Proof.
  intros R X D F L C.
  exists (map (fun row => fold_left store (combine columns row) []) rows).
  split.
  - rewrite (exec_guarded srv script params w w1 R).
    unfold guarded_exec. rewrite X, D, F. simpl.
    rewrite (build_results_fold columns rows []).
    + simpl. destruct (srv_commit srv) as [[]|]; [ reflexivity | discriminate ].
    + eapply Forall_impl; [ | exact L ]. simpl. intros. lia.
  - clear - L. induction L as [|row rows E L IH]; simpl; constructor; auto.
    destruct (fold_store (combine columns row) [] (NoDup_nil _))
      as (N & I & G).
    split; [ exact N | ]. split.
    + intro c. rewrite I. simpl.
      fold (keys (combine columns row)). rewrite (keys_combine columns row E).
      intuition.
    + intro c. rewrite G. unfold last_value. simpl.
      destruct (dict_get c (rev (combine columns row))); reflexivity.
Qed.

(** X9.  A closed instance can be used again: after [close()] on an
    instance that held a session, [reconnect_if_needed()] goes straight
    to the driver for a new connection and cursor, without a health
    check, and answers [True] when the driver grants them. *)
Theorem reconnect_after_close (w : world) (cs : string) :
  conn (self w) <> None -> cursor (self w) <> None ->
  connection_string (self w) = Ret cs ->
  returns (srv_connect srv cs) = true ->
  returns (srv_cursor srv) = true ->
  (close ;; reconnect_if_needed srv) w
  = ({| self := set_cursor (Some PyodbcCursor)
                  (set_conn (Some PyodbcConnection) (self w));
        events := (events w ++ [EvCursorClose; EvConnClose;
                                EvConnect cs; EvCursor])%list |},
     Ret true).
Proof.
  intros Hc Hk E A K. unfold bind at 1.
  rewrite (close_with_session w Hc Hk).
  unfold reconnect_if_needed, is_connected, connect, connect_body.
  unfold try_except, bind, get_self, lift, ret. simpl.
  change (connection_string (set_conn None (set_cursor None (self w))))
    with (connection_string (self w)).
  rewrite E. run.
  destruct (srv_connect srv cs) as [[]|]; [ | discriminate ]. simpl.
  destruct (srv_cursor srv) as [[]|]; [ | discriminate ]. simpl.
  now rewrite <- !app_assoc.
Qed.

End ConnectionLifecycle.

(** ** The connection manager on further concrete servers *)

Import Scenario Cases.

Lemma exec_connection_error_witness :
  exec unreachable get_ops_between_dates None closed
  = ({| self := instance None None;
        events :=
          [EvConnect connection_string_of_instance;
           EvLog ERROR "Failed to connect to database: 08001 server not found";
           EvLog ERROR "Failed to connect to database"] |},
     Raise (ConnectionError "Failed to connect to database")).
Proof.
  exact (proj1 (exec_connection_error unreachable get_ops_between_dates None
                  closed _ eq_refl eq_refl)).
Defined.

Lemma exec_returns_committed_witness :
  returns (srv_commit (answering (Ret update_result))) = true /\
  exists t,
    events (fst (exec (answering (Ret update_result))
                   "UPDATE ven_users SET emp_id = 0" None connected))
    = (t ++ [EvCommit])%list.
Proof.
  exact (exec_returns_committed (answering (Ret update_result))
           "UPDATE ven_users SET emp_id = 0" None connected _ (Count 3)
           eq_refl).
Defined.

Lemma exec_raises_rolled_back_witness :
  exists t,
    events (fst (exec (answering (Raise query_error))
                   get_ops_between_dates None connected))
    = (t ++ rollback_events query_error)%list.
Proof.
  destruct (exec_raises_rolled_back (answering (Raise query_error))
              get_ops_between_dates None connected _ query_error eq_refl)
    as [[H _]|[[_ H]|[H _]]]; [ discriminate H | exact H | discriminate H ].
Defined.

Lemma exec_fetch_failure_counts_witness :
  exec (answering (Ret broken_fetch)) get_ops_between_dates None connected
  = ({| self := self connected;
        events := [EvExecute "SELECT 1" None;
                   EvExecute get_ops_between_dates None;
                   EvFetchall; EvCommit] |},
     Ret (Count (-1))).
Proof.
  exact (exec_fetch_failure_counts (answering (Ret broken_fetch))
           get_ops_between_dates None connected _ broken_fetch ops_columns
           eq_refl eq_refl eq_refl (or_introl eq_refl) eq_refl).
Defined.

Lemma exec_commit_failure_witness :
  exec (failing_commit (Ret ops_result)) get_ops_between_dates None connected
  = ({| self := self connected;
        events :=
          [EvExecute "SELECT 1" None;
           EvExecute get_ops_between_dates None;
           EvFetchall; EvCommit; EvCommit; EvRollback;
           EvLog ERROR "Error executing SQL script: 40001 deadlock victim"] |},
     Raise (DriverError "40001 deadlock victim")).
Proof.
  refine (proj2 (exec_commit_failure (failing_commit (Ret ops_result))
                   get_ops_between_dates None connected _ ops_result
                   (DriverError "40001 deadlock victim")
                   eq_refl eq_refl eq_refl eq_refl)
            ops_columns ops_rows eq_refl eq_refl _).
  repeat constructor.
Defined.

Lemma exec_rows_by_name_witness :
  exists results,
    exec (answering (Ret duplicate_columns)) "SELECT 1 AS a, 2 AS a" None
      connected
    = ({| self := self connected;
          events := [EvExecute "SELECT 1" None;
                     EvExecute "SELECT 1 AS a, 2 AS a" None;
                     EvFetchall; EvCommit] |},
       Ret (Rows results)) /\
    Forall2 (fun row d =>
               NoDup (keys d) /\
               (forall c, In c (keys d) <-> In c ["a"; "a"]) /\
               (forall c, dict_get c d = last_value c ["a"; "a"] row))
      [[VInt 1; VInt 2]] results.
Proof.
  refine (exec_rows_by_name (answering (Ret duplicate_columns))
            "SELECT 1 AS a, 2 AS a" None connected _ duplicate_columns
            ["a"; "a"] [[VInt 1; VInt 2]] eq_refl eq_refl eq_refl eq_refl _
            eq_refl).
  repeat constructor.
Defined.

Lemma reconnect_after_close_witness :
  (close ;; reconnect_if_needed (answering (Ret ops_result))) connected
  = ({| self := instance (Some PyodbcConnection) (Some PyodbcCursor);
        events := [EvCursorClose; EvConnClose;
                   EvConnect connection_string_of_instance; EvCursor] |},
     Ret true).
Proof.
  refine (reconnect_after_close (answering (Ret ops_result)) connected
            connection_string_of_instance _ _ eq_refl eq_refl eq_refl);
    discriminate.
Defined.

(** * Further properties of the resolver *)

Section ResolverInvariant.

Variable strptime : string -> outcome Date.date.
Variable today : Date.date.

Lemma month_length_positive (y m : Z) : 1 <= month_length y m.
Proof.
  unfold month_length.
  destruct (m =? 2); [ destruct (leap_year y); lia | ].
  destruct ((m =? 4) || (m =? 6) || (m =? 9) || (m =? 11)); lia.
Qed.

(** X10.  Every range the resolver returns, in either mode, has its
    start on or before its end. *)
Theorem get_date_range_ordered (a : args) (s e : Date.date) :
  get_date_range strptime today a = Ret (s, e) -> Date.leb s e = true.
Proof.
  destruct (last_month a) eqn:Hl.
  - assert (R : get_date_range strptime today a
                = get_date_range strptime
                    (Date.mk (Date.year today) (Date.month today) 1)
                    last_month_args).
    { unfold get_date_range. rewrite Hl. reflexivity. }
    rewrite R. clear R.
    destruct (Date.valid (Date.mk (Date.year today) (Date.month today) 1))
      eqn:V.
    + unfold Date.valid, Date.MINYEAR, Date.MAXYEAR in V. simpl in V.
      repeat (apply andb_prop in V; destruct V as [V ?]).
      repeat match goal with
             | H : (_ <=? _) = true |- _ => apply Z.leb_le in H
             end.
      pose proof (previous_month_table strptime) as T.
      rewrite forallb_forall in T.
      assert (Iy : In (Date.year today) all_years).
      { apply in_range_of_nat. lia. }
      assert (Im : In (Date.month today) all_months).
      { apply in_range_of_nat. lia. }
      specialize (T (Date.year today) Iy).
      rewrite forallb_forall in T.
      specialize (T (Date.month today) Im).
      apply orb_prop in T. destruct T as [T|T].
      * apply andb_prop in T. destruct T as [Ty Tm].
        apply Z.eqb_eq in Ty, Tm. rewrite Ty, Tm. discriminate.
      * rewrite (previous_month_checked_sound strptime _ _ T).
        intro E. inversion E; subst. clear.
        unfold Date.leb, Date.gtb, Date.compare, first_day_of, last_day_of.
        simpl. rewrite !Z.compare_refl.
        pose proof (month_length_positive
                      (fst (previous_month (Date.year today) (Date.month today)))
                      (snd (previous_month (Date.year today) (Date.month today)))).
        set (len := month_length _ _) in *. clearbody len.
        destruct len as [|p|p]; [ lia | | lia ].
        destruct p; reflexivity.
    + unfold get_date_range, Date.make. simpl. rewrite V. discriminate.
  - unfold get_date_range. rewrite Hl. unfold Date.leb.
    destruct (strptime_arg strptime (between a)) as [ds|[]]; simpl;
      try discriminate.
    destruct (strptime_arg strptime (and_ a)) as [de|[]]; simpl;
      try discriminate.
    destruct (Date.gtb ds de) eqn:G; simpl; [ discriminate | ].
    intro E. inversion E; subst. now rewrite G.
Qed.

End ResolverInvariant.

Lemma get_date_range_ordered_witness :
  Date.leb (Date.mk 2024 12 1) (Date.mk 2024 12 31) = true.
Proof.
  exact (get_date_range_ordered Strptime.parse (Date.mk 2025 1 15)
           last_month_args (Date.mk 2024 12 1) (Date.mk 2024 12 31) eq_refl).
Defined.

(** * Further properties of the fetch *)

Section FetchLifecycle.

Variable srv : odbc.

(** What [exec] may add to the trace, for any property of events. *)
Lemma exec_appends_with (P : event -> Prop) script params :
  (forall cs, P (EvConnect cs)) -> P EvCursor ->
  P (EvExecute "SELECT 1" None) -> (forall l m, P (EvLog l m)) ->
  P (EvExecute script (driver_params params)) ->
  P EvFetchall -> P EvCommit -> P EvRollback ->
  appends events P (exec srv script params).
Proof.
  intros Pc Pk Pp Pl Px Pf Pm Pr. unfold exec. appends_step.
  - now apply reconnect_if_needed_appends.
  - unfold driver_params in Px.
    destruct a; simpl; [ | appends_all; auto ].
    unfold cursor_execute, cursor_columns, cursor_fetchall, conn_commit,
      conn_rollback.
    destruct (truthy_params params); appends_all; auto.
Qed.

(** X11.  When [fetch_data] returns, the transaction was committed and
    the session then closed, cursor first; the instance it leaves behind
    holds neither connection nor cursor. *)
Theorem fetch_data_returns_closed db s e (t : trace) (w : world)
    (v : exec_value) :
  fetch_data_world srv db s e t = (w, Ret v) ->
  conn (self w) = None /\ cursor (self w) = None /\
  exists t',
    events w = (t' ++ [EvCommit; EvCursorClose; EvConnClose])%list.
Proof.
  unfold fetch_data_world, fetch_data_on, try_except.
  unfold bind at 1.
  destruct (init srv _) as [w0 [[]|x]] eqn:I; simpl;
    [ | destruct (is_ConnectionError x); run; discriminate ].
  unfold bind at 1.
  destruct (exec srv _ _ w0) as [w1 [r|x]] eqn:X; simpl;
    [ | destruct (is_ConnectionError x); run; discriminate ].
  destruct (exec_returns_with_session _ _ _ _ _ _ X) as [Hc Hk].
  assert (C : exists t1, events w1 = (t1 ++ [EvCommit])%list).
  { revert X.
    destruct (exec_cases srv get_ops_between_dates
                (Some [VDate s; VDate e]) w0) as [(w2 & _ & ->)|(w2 & ->)];
      [ | discriminate ].
    unfold guarded_exec, after.
    repeat (branch; simpl); intro H; inversion H; subst; simpl;
      ends (events w2) [EvCommit]. }
  destruct C as [t1 C].
  unfold bind. rewrite (close_with_session w1 Hc Hk). simpl.
  intro H. inversion H; subst. simpl. repeat split.
  exists t1. rewrite C, <- app_assoc. reflexivity.
Qed.

(** X12.  The only statements [fetch_data] sends to the driver are the
    health check and the catalog query bound to the start and the end
    date, in that order. *)
Theorem fetch_data_statements db s e (t : trace) :
  exists added,
    fst (fetch_data srv db s e t) = (t ++ added)%list /\
    Forall (fetch_statement s e) added.
Proof.
  assert (A : appends events (fetch_statement s e) (fetch_data_on srv s e)).
  { unfold fetch_data_on, init. appends_step.
    - appends_step; [ appends_step | ].
      + apply connect_appends; intros; intros ? ? ?; discriminate.
      + auto with appends.
      + appends_step.
        * apply exec_appends_with; try (intros; intros ? ? ?; discriminate).
          -- intros sc p E. inversion E. auto.
          -- intros sc p E. inversion E. auto.
        * appends_step; [ | auto with appends ].
          unfold close. appends_all; intros ? ? ?; discriminate.
    - appends_all; intros ? ? ?; discriminate. }
  unfold fetch_data, fetch_data_world.
  destruct (A {| self := fetch_instance db; events := t |}) as [ad [E F]].
  destruct (fetch_data_on srv s e _) as [w r]. simpl in *. eauto.
Qed.

(** X13.  When the driver refuses the connection, [fetch_data] has asked
    for it twice, once in the constructor and once in [exec], and it
    propagates [ConnectionError] without having sent any statement.
    When the configuration lacks the user name or the password it ends
    the same way without having called the driver at all. *)
Theorem fetch_data_without_session db s e (t : trace) :
  (forall cs x,
     connection_string (fetch_instance db) = Ret cs ->
     srv_connect srv cs = Raise x ->
     fetch_data srv db s e t
     = ((t ++ [EvConnect cs; connect_failure x;
               EvConnect cs; connect_failure x] ++ no_session)%list,
        Raise (ConnectionError "Failed to connect to database")))
  /\ (truthy_str (cd_user db) && truthy_str (cd_password db) = false ->
      fetch_data srv db s e t
      = ((t ++ [connect_failure (ValueError missing_credentials);
                connect_failure (ValueError missing_credentials)]
            ++ no_session)%list,
         Raise (ConnectionError "Failed to connect to database"))).
Proof.
  split.
  - intros cs x E X.
    unfold fetch_data, fetch_data_world, fetch_data_on, exec,
      reconnect_if_needed, is_connected, init, connect, connect_body.
    unfold try_except, bind, get_self, lift, ret. simpl.
    rewrite E. run. rewrite X. simpl.
    rewrite E. simpl. rewrite X. simpl.
    now rewrite <- !app_assoc.
  - intro M.
    assert (E : connection_string (fetch_instance db)
                = Raise (ValueError missing_credentials)).
    { apply connection_string_missing. exact M. }
    unfold fetch_data, fetch_data_world, fetch_data_on, exec,
      reconnect_if_needed, is_connected, init, connect, connect_body.
    unfold try_except, bind, get_self, lift, ret. simpl.
    rewrite E. run. rewrite E. simpl.
    now rewrite <- !app_assoc.
Qed.

End FetchLifecycle.

(** * Further properties of the pipeline *)

Section Runs.

Variable srv : odbc.
Variable strptime : string -> outcome Date.date.
Variable today : Date.date.
Variable workbook_bytes : list string -> list (list value) -> list Byte.byte.
Variable http_post : mval -> mval -> payload -> outcome Z.
Variable file_write : string -> list Byte.byte -> outcome unit.



(** Unfolds [main] down to the calls it makes. *)
Ltac run_main :=
  unfold main, main_body, try_except;
  unfold bind, lift, logger_info, logger_warning, logger_error, print,
    write_file, emit_t, ret, raise, mail_item.

(** X15.  A run stopped before the fetch, by a configuration that does
    not load or by dates that do not resolve, ends with status 1 having
    only logged and printed the error: no driver call, no post, no
    file. *)
Theorem main_aborts_before_fetch a config_path (t : trace) (x : exn) :
  main srv strptime today workbook_bytes http_post file_write a config_path (Raise x) t
  = ((t ++ startup config_path ++ failure_report x)%list, Ret 1)
  /\ forall cfg,
       get_date_range strptime today a = Raise x ->
       main srv strptime today workbook_bytes http_post file_write a config_path
         (Ret cfg) t
       = ((t ++ startup config_path ++ failure_report x)%list, Ret 1).
Proof.
  split.
  - run_main. simpl. now rewrite <- !app_assoc.
  - intros cfg R. run_main. rewrite R. simpl. now rewrite <- !app_assoc.
Qed.

(** X16.  When the fetch propagates an exception, or hands back a row
    count instead of rows, the [try] block of [main] ends at that point
    with the exception (for a row count, the [TypeError] of taking its
    length): nothing is rendered, posted or written.  The handler
    reports it right after the fetch, and the run ends with status 1. *)
Theorem main_fetch_failure a config_path cfg db start_date end_date
    (t t_fetch : trace) :
  get_date_range strptime today a = Ret (start_date, end_date) ->
  cfg_db cfg = Some db ->
  (forall x,
     fetch_data srv db start_date end_date
       (t ++ prologue config_path start_date end_date)%list
     = (t_fetch, Raise x) ->
     main_body srv strptime today workbook_bytes http_post file_write a
       config_path (Ret cfg) t
     = (t_fetch, Raise x) /\
     snd (main srv strptime today workbook_bytes http_post file_write a
            config_path (Ret cfg) t)
     = Ret 1 /\
     exists rest,
       fst (main srv strptime today workbook_bytes http_post file_write a
              config_path (Ret cfg) t)
       = (t_fetch ++ failure_report x ++ rest)%list)
  /\ (forall n,
       fetch_data srv db start_date end_date
         (t ++ prologue config_path start_date end_date)%list
       = (t_fetch, Ret (Count n)) ->
       let x := TypeError "object of type 'int' has no len()" in
       main_body srv strptime today workbook_bytes http_post file_write a
         config_path (Ret cfg) t
       = (t_fetch, Raise x) /\
       snd (main srv strptime today workbook_bytes http_post file_write a
              config_path (Ret cfg) t)
       = Ret 1 /\
       exists rest,
         fst (main srv strptime today workbook_bytes http_post file_write a
                config_path (Ret cfg) t)
         = (t_fetch ++ failure_report x ++ rest)%list).
Proof.
  intros R D. split.
  - intros x F.
    assert (B : main_body srv strptime today workbook_bytes http_post
                  file_write a config_path (Ret cfg) t
                = (t_fetch, Raise x)).
    { unfold main_body.
      unfold bind, lift, logger_info, emit_t, ret, raise.
      rewrite R, D. simpl. rewrite <- !app_assoc. simpl.
      unfold prologue in F. simpl in F. rewrite F. reflexivity. }
    split; [ exact B | ].
    unfold main, try_except. rewrite B.
    unfold bind, logger_error, print, emit_t, ret. simpl.
    split; [ reflexivity | ]. exists []. now rewrite <- !app_assoc.
  - intros n F x.
    assert (B : main_body srv strptime today workbook_bytes http_post
                  file_write a config_path (Ret cfg) t
                = (t_fetch, Raise x)).
    { unfold main_body.
      unfold bind, lift, logger_info, emit_t, ret, raise.
      rewrite R, D. simpl. rewrite <- !app_assoc. simpl.
      unfold prologue in F. simpl in F. rewrite F. reflexivity. }
    split; [ exact B | ].
    unfold main, try_except. rewrite B.
    unfold bind, logger_error, print, emit_t, ret. simpl.
    split; [ reflexivity | ]. exists []. now rewrite <- !app_assoc.
Qed.

(** X17.  When the fetch returns no row, the run reports that there is
    no data and ends with status 0: nothing is rendered, posted or
    written. *)
Theorem main_no_rows a config_path cfg db start_date end_date
    (t t_fetch : trace) :
  get_date_range strptime today a = Ret (start_date, end_date) ->
  cfg_db cfg = Some db ->
  fetch_data srv db start_date end_date
    (t ++ prologue config_path start_date end_date)%list
  = (t_fetch, Ret (Rows [])) ->
  main srv strptime today workbook_bytes http_post file_write a config_path (Ret cfg) t
  = ((t_fetch ++ no_data_report)%list, Ret 0).
Proof.
  intros R D F. run_main. rewrite R, D. simpl. rewrite <- !app_assoc. simpl.
  unfold prologue in F. simpl in F. rewrite F. simpl.
  now rewrite <- !app_assoc.
Qed.

Lemma strftime_Ymd_four_digits (d : Date.date) :
  1000 <= Date.year d -> strftime_Ymd d = yyyymmdd d.
Proof.
  intro Y. unfold strftime_Ymd, yyyymmdd, pad4.
  destruct (Z.ltb_spec (Date.year d) 10); [ lia | ].
  destruct (Z.ltb_spec (Date.year d) 100); [ lia | ].
  destruct (Z.ltb_spec (Date.year d) 1000); [ lia | ].
  reflexivity.
Qed.

(** X18.  Without a complete mail configuration, a run that fetched rows
    for two dates with four-digit years writes the report to the file
    [Report_YYYYMMDD_to_YYYYMMDD.xlsx] named after them.  When the write
    succeeds the run says so and ends with status 0; when it raises, the
    run reports the error and ends with status 1.  The mail service is
    never called. *)
Theorem main_saves_locally a config_path cfg db start_date end_date
    (row : pydict) (rows : list pydict) (excel_data : list Byte.byte)
    (t t_fetch : trace) :
  get_date_range strptime today a = Ret (start_date, end_date) ->
  cfg_db cfg = Some db ->
  fetch_data srv db start_date end_date
    (t ++ prologue config_path start_date end_date)%list
  = (t_fetch, Ret (Rows (row :: rows))) ->
  generate_excel_report workbook_bytes (row :: rows) = Ret excel_data ->
  mail_complete cfg = false ->
  1000 <= Date.year start_date ->
  1000 <= Date.year end_date ->
  let name := report_filename start_date end_date in
  (returns (file_write name excel_data) = true ->
   main srv strptime today workbook_bytes http_post file_write a config_path
     (Ret cfg) t
   = ((t_fetch
       ++ saved_locally (List.length (row :: rows)) excel_data name)%list,
      Ret 0))
  /\ (forall x,
        file_write name excel_data = Raise x ->
        main srv strptime today workbook_bytes http_post file_write a
          config_path (Ret cfg) t
        = ((t_fetch
            ++ local_write (List.length (row :: rows)) excel_data name
            ++ failure_report x)%list,
           Ret 1))
  /\ exists added,
       fst (main srv strptime today workbook_bytes http_post file_write a
              config_path (Ret cfg) t)
       = (t ++ added)%list /\
       Forall (fun ev => is_post ev = false) added.
Proof.
  intros R D F X M Ys Ye name.
  assert (G : main srv strptime today workbook_bytes http_post file_write a
                config_path (Ret cfg) t
              = match file_write name excel_data with
                | Ret _ =>
                    ((t_fetch
                      ++ saved_locally (List.length (row :: rows)) excel_data
                           name)%list, Ret 0)
                | Raise x =>
                    ((t_fetch
                      ++ local_write (List.length (row :: rows)) excel_data
                           name
                      ++ failure_report x)%list, Ret 1)
                end).
  { subst name. unfold report_filename.
    rewrite <- (strftime_Ymd_four_digits start_date Ys).
    rewrite <- (strftime_Ymd_four_digits end_date Ye).
    run_main. rewrite R, D. simpl. rewrite <- !app_assoc. simpl.
    unfold prologue in F. simpl in F. rewrite F. simpl.
    simpl in X. injection X as X. rewrite X. rewrite M. simpl.
    destruct (file_write _ excel_data) as [[]|x]; simpl;
      now rewrite <- !app_assoc. }
  split; [ | split ].
  - intro W. rewrite G.
    destruct (file_write name excel_data) as [[]|];
      [ reflexivity | discriminate ].
  - intros x W. rewrite G, W. reflexivity.
  - rewrite G.
    destruct (fetch_data_appends srv db start_date end_date
                (t ++ prologue config_path start_date end_date)%list)
      as [ad [E A]].
    rewrite F in E. simpl in E.
    destruct (file_write name excel_data) as [[]|x]; simpl;
      rewrite E, <- !app_assoc;
      (eexists; split; [ reflexivity | ]);
      repeat (apply Forall_app; split); try (repeat constructor; fail);
      (eapply Forall_impl; [ | exact A ]);
      intros []; simpl; intro H; try contradiction; reflexivity.
Qed.

(** X19.  With a complete mail configuration, a run that fetched rows
    and whose delivery answers [True] reports the delivery and ends with
    status 0, without writing a file. *)
Theorem main_delivery_success a config_path cfg db m recipients
    start_date end_date (row : pydict) (rows : list pydict)
    (excel_data : list Byte.byte) (t t_fetch t_mail : trace) :
  get_date_range strptime today a = Ret (start_date, end_date) ->
  cfg_db cfg = Some db ->
  fetch_data srv db start_date end_date
    (t ++ prologue config_path start_date end_date)%list
  = (t_fetch, Ret (Rows (row :: rows))) ->
  generate_excel_report workbook_bytes (row :: rows) = Ret excel_data ->
  mail_complete cfg = true ->
  cfg_mail cfg = Some m ->
  mail_get "recipients" m = Some recipients ->
  send_email_with_attachment http_post today recipients excel_data m
    (t_fetch ++ rendering_log (List.length (row :: rows)) excel_data recipients)%list
  = (t_mail, Ret true) ->
  main srv strptime today workbook_bytes http_post file_write a config_path (Ret cfg) t
  = ((t_mail ++ delivered)%list, Ret 0)
  /\ exists added,
       (t_mail ++ delivered)%list = (t ++ added)%list /\
       Forall (fun ev => is_write_file ev = false) added.
Proof.
  intros Hrange Hdb Hfetch Hexcel Hcomplete Hmail Hrecipients Hsend.
  split.
  - run_main. rewrite Hrange, Hdb. simpl. rewrite <- !app_assoc. simpl.
    unfold prologue in Hfetch. simpl in Hfetch. rewrite Hfetch. simpl.
    simpl in Hexcel. injection Hexcel as Hexcel. rewrite Hexcel.
    rewrite Hcomplete, Hmail, Hrecipients. simpl.
    rewrite <- !app_assoc. simpl.
    unfold rendering_log in Hsend. simpl in Hsend. rewrite Hsend. simpl.
    rewrite <- !app_assoc. reflexivity.
  - destruct (fetch_data_appends srv db start_date end_date
                (t ++ prologue config_path start_date end_date)%list)
      as [ad1 [E1 F1]].
    rewrite Hfetch in E1. simpl in E1.
    destruct (send_email_appends http_post today recipients excel_data m
                (t_fetch ++ rendering_log (List.length (row :: rows))
                              excel_data recipients)%list)
      as [ad2 [E2 F2]].
    rewrite Hsend in E2. simpl in E2.
    rewrite E2, E1, <- !app_assoc.
    eexists. split; [ reflexivity | ].
    repeat (apply Forall_app; split);
      try (repeat constructor; fail).
    + eapply Forall_impl; [ | exact F1 ].
      intros []; simpl; intro H; try contradiction; reflexivity.
    + eapply Forall_impl; [ | exact F2 ].
      intros []; simpl; intro H; try contradiction; reflexivity.
Qed.

End Runs.

(** * Properties of the delivery *)

Section Delivery.

Variable http_post : mval -> mval -> payload -> outcome Z.
Variable now : Date.date.

Lemma check_required_run (cfg : mail_section) (ps : list string) (t : trace) :
  (forallb (mail_has cfg) ps = true /\ check_required ps cfg t = (t, Ret tt))
  \/ exists param,
       In param ps /\ mail_has cfg param = false /\
       check_required ps cfg t
       = (t, Raise (ValueError
                      ("Missing required configuration parameter: " ++ param))).
Proof.
  induction ps as [|p ps IH]; simpl; [ left; auto | ].
  destruct (mail_has cfg p) eqn:H; simpl.
  - destruct IH as [[F E]|(param & I & M & E)]; [ left; auto | ].
    right. exists param. auto.
  - right. exists p. auto.
Qed.

Lemma build_bcc_run (rs : list recipient) :
  forall (bcc_list : list bcc_entry) (t : trace),
    build_bcc rs bcc_list t
    = ((t ++ repeat skip_warning (List.length (without_email rs)))%list,
       Ret (bcc_list ++ bcc_entries rs)%list).
Proof.
  induction rs as [|r rs IH]; intros bcc_list t; simpl.
  - now rewrite !app_nil_r.
  - destruct (recipient_get "email" r) as [address|]; simpl.
    + rewrite IH. now rewrite <- app_assoc.
    + unfold bind, emit_t. simpl. rewrite IH. now rewrite <- app_assoc.
Qed.

Lemma bcc_entries_addresses (rs : list recipient) :
  map bcc_address (bcc_entries rs) = emails rs.
Proof.
  induction rs as [|r rs IH]; simpl; [ reflexivity | ].
  destruct (recipient_get "email" r); simpl; now rewrite ?IH.
Qed.

Lemma without_email_all (rs : list recipient) :
  emails rs = [] -> without_email rs = rs.
Proof.
  induction rs as [|r rs IH]; simpl; [ reflexivity | ].
  destruct (recipient_get "email" r); simpl; [ discriminate | ].
  intro E. now rewrite IH.
Qed.

(** The check of the required settings stops at the first that is
    missing. *)
Lemma check_required_first (cfg : mail_section) (ps : list string) (t : trace) :
  forallb (mail_has cfg) ps = false ->
  exists present param rest,
    ps = (present ++ param :: rest)%list /\
    forallb (mail_has cfg) present = true /\
    mail_has cfg param = false /\
    check_required ps cfg t
    = (t, Raise (ValueError
                   ("Missing required configuration parameter: " ++ param))).
Proof.
  induction ps as [|p ps IH]; simpl; [ discriminate | ].
  destruct (mail_has cfg p) eqn:H; simpl.
  - intro F. destruct (IH F) as (present & param & rest & -> & Fp & M & E).
    exists (p :: present), param, rest. simpl. rewrite H. auto.
  - intros _. exists [], p, ps. auto.
Qed.

(** X20.  When a required setting is missing, the delivery answers
    [False] after one log line that names the first of the required
    settings, in the order the code checks them, that is missing;
    nothing is posted, and the recipients are not even looked at. *)
Theorem send_email_missing_setting recipients excel_data
    (cfg : mail_section) (t : trace) :
  forallb (mail_has cfg) required_config = false ->
  exists present param rest,
    required_config = (present ++ param :: rest)%list /\
    forallb (mail_has cfg) present = true /\
    mail_has cfg param = false /\
    send_email_with_attachment http_post now recipients excel_data cfg t
    = ((t ++ [missing_setting param])%list, Ret false).
Proof.
  intro F.
  destruct (check_required_first cfg required_config t F)
    as (present & param & rest & S & P & M & E).
  exists present, param, rest. repeat split; auto.
  unfold send_email_with_attachment, try_except. unfold bind at 1.
  rewrite E. reflexivity.
Qed.

(** X21.  When no recipient has an [email] key (or there is no recipient
    at all), the delivery warns once per recipient, logs that there is
    no valid recipient and answers [False]; nothing is posted. *)
Theorem send_email_no_valid_recipient (rs : list recipient) excel_data
    (cfg : mail_section) (t : trace) :
  forallb (mail_has cfg) required_config = true ->
  emails rs = [] ->
  send_email_with_attachment http_post now (MRecipients rs) excel_data cfg t
  = ((t ++ repeat skip_warning (List.length rs)
        ++ [EvLog ERROR "No valid recipients provided"])%list,
     Ret false).
Proof.
  intros F E.
  destruct (check_required_run cfg required_config t)
    as [[_ C]|(param & I & M & _)].
  - unfold send_email_with_attachment, try_except. unfold bind at 1.
    rewrite C. unfold bind at 1. unfold bcc_of. rewrite build_bcc_run.
    assert (B : bcc_entries rs = []).
    { apply (f_equal (@List.length _)) in E.
      rewrite <- bcc_entries_addresses, length_map in E.
      now apply length_zero_iff_nil. }
    rewrite B, (without_email_all rs E). simpl.
    unfold bind, emit_t, ret. simpl. now rewrite <- app_assoc.
  - rewrite forallb_forall in F. rewrite (F param I) in M. discriminate.
Qed.

Lemma skip_all_run (n : nat) (t : trace) :
  skip_all n t = ((t ++ repeat skip_warning n)%list, Ret tt).
Proof.
  revert t. induction n as [|n IH]; intro t; simpl.
  - now rewrite app_nil_r.
  - unfold bind, emit_t. simpl. rewrite IH. now rewrite <- app_assoc.
Qed.

Lemma bcc_of_returns (recipients : mval) (t : trace) :
  exists t1 bcc_list, bcc_of recipients t = (t1, Ret bcc_list).
Proof.
  destruct recipients as [s|rs]; simpl.
  - unfold bind. rewrite skip_all_run. do 2 eexists. reflexivity.
  - rewrite build_bcc_run. do 2 eexists. reflexivity.
Qed.

(** X22.  The delivery never raises: it answers [True] or [False].  It
    answers [True] only when the last things it did were one post, which
    the mail service answered with status 200 or 202, and the log line
    that reports it. *)
Theorem send_email_answer recipients excel_data (cfg : mail_section)
    (t : trace) :
  exists t' b,
    send_email_with_attachment http_post now recipients excel_data cfg t
    = (t', Ret b) /\
    (b = true ->
     exists t1 api_url api_key body status_code line,
       t' = (t1 ++ [EvPost api_url api_key body; EvLog INFO line])%list /\
       http_post api_url api_key body = Ret status_code /\
       accepted status_code = true).
Proof.
  unfold send_email_with_attachment, try_except. unfold bind at 1.
  destruct (check_required_run cfg required_config t)
    as [[_ ->]|(param & _ & _ & ->)].
  - unfold bind at 1.
    destruct (bcc_of_returns recipients t) as (t1 & bcc_list & ->).
    destruct bcc_list as [|entry bcc_list].
    + unfold bind, emit_t, ret. simpl. do 2 eexists.
      split; [ reflexivity | discriminate ].
    + unfold bind, mail_item, emit_t, ret, raise, lift.
      repeat (branch; cbn beta iota zeta);
        do 2 eexists; (split; [ reflexivity | ]); try discriminate.
      all: intros _; do 6 eexists;
        (split; [ rewrite <- app_assoc; reflexivity | ]);
        (split; [ eassumption | unfold accepted; assumption ]).
  - unfold bind, emit_t, ret. simpl. do 2 eexists.
    split; [ reflexivity | discriminate ].
Qed.

Lemma required_settings (cfg : mail_section) :
  forallb (mail_has cfg) required_config = true ->
  exists api_url api_key from_email from_name subject,
    mail_get "api_url" cfg = Some api_url /\
    mail_get "api_key" cfg = Some api_key /\
    mail_get "from_email" cfg = Some from_email /\
    mail_get "from_name" cfg = Some from_name /\
    mail_get "subject" cfg = Some subject.
Proof.
  simpl. unfold mail_has. intro F.
  repeat (apply andb_prop in F; destruct F as [? F]).
  destruct (mail_get "api_url" cfg); [ | discriminate ].
  destruct (mail_get "api_key" cfg); [ | discriminate ].
  destruct (mail_get "from_email" cfg); [ | discriminate ].
  destruct (mail_get "from_name" cfg); [ | discriminate ].
  destruct (mail_get "subject" cfg); [ | discriminate ].
  do 5 eexists. repeat split.
Qed.

(** X23.  With the required settings present and at least one recipient
    that has an address, the delivery makes exactly one post, to the
    configured URL with the configured key: its BCC list holds the
    addresses of the recipients that have one, in their order, its
    attachment is the given report; each recipient without an address
    costs one warning before it.  After the post the delivery logs one
    line (the log lines are kept up to the value they end with) and
    stops: that the mail was sent, and the answer is [True], when the
    mail service answers 200 or 202; the status code, and the answer is
    [False], when it answers anything else; the error, and the answer is
    [False], when the post raises. *)
Theorem send_email_posts (rs : list recipient) excel_data
    (cfg : mail_section) (t : trace) :
  forallb (mail_has cfg) required_config = true ->
  emails rs <> [] ->
  exists api_url api_key body,
    mail_get "api_url" cfg = Some api_url /\
    mail_get "api_key" cfg = Some api_key /\
    map bcc_address (p_bcc body) = emails rs /\
    p_attachment body = excel_data /\
    send_email_with_attachment http_post now (MRecipients rs) excel_data cfg t
    = ((t ++ repeat skip_warning (List.length (without_email rs))
          ++ [EvPost api_url api_key body;
              post_report (List.length (emails rs))
                (http_post api_url api_key body)])%list,
       Ret (post_accepted (http_post api_url api_key body))).
Proof.
  intros F E.
  destruct (required_settings cfg F)
    as (api_url & api_key & from_email & from_name & subject
        & Gu & Gk & Ge & Gn & Gs).
  destruct (check_required_run cfg required_config t)
    as [[_ C]|(param & I & M & _)].
  2: { rewrite forallb_forall in F. rewrite (F param I) in M. discriminate. }
  assert (B : bcc_entries rs <> []).
  { intro B. apply E. rewrite <- bcc_entries_addresses, B. reflexivity. }
  exists api_url, api_key.
  exists {| p_bounce_address :=
              match mail_get "bounce_email" cfg with
              | Some b => b
              | None => from_email
              end;
            p_from_address := from_email;
            p_from_name := from_name; p_subject := subject;
            p_bcc := bcc_entries rs;
            p_attachment_name := "Report_" ++ strftime_Ymd now ++ ".xlsx";
            p_attachment := excel_data |}.
  rewrite <- (bcc_entries_addresses rs), length_map.
  unfold send_email_with_attachment, try_except. unfold bind at 1.
  rewrite C. unfold bind at 1. unfold bcc_of. rewrite build_bcc_run.
  cbn beta iota zeta. rewrite app_nil_l.
  destruct (bcc_entries rs) as [|entry bcc_list] eqn:EB; [ congruence | ].
  unfold bind, mail_item, emit_t, ret, raise, lift.
  rewrite Ge, Gn, Gs, Gk, Gu. cbn beta iota zeta.
  unfold post_report, post_accepted.
  destruct (http_post api_url api_key _) as [status_code|x] eqn:P;
    cbn beta iota zeta.
  - unfold accepted.
    destruct ((status_code =? 200) || (status_code =? 202));
      repeat split; try (rewrite <- EB; apply bcc_entries_addresses);
      rewrite <- !app_assoc; reflexivity.
  - repeat split; try (rewrite <- EB; apply bcc_entries_addresses);
      rewrite <- !app_assoc; reflexivity.
Qed.

End Delivery.

(** * Properties of the rendering *)

Section Rendering.

Variable workbook_bytes : list string -> list (list value) -> list Byte.byte.

Lemma dict_get_combine_fresh (c : string) (columns : list string)
    (row : list value) :
  ~ In c columns -> dict_get c (combine columns row) = None.
Proof.
  revert row. induction columns as [|k ks IH]; intros [|v row] N; simpl;
    try reflexivity.
  destruct (String.eqb_spec k c) as [->|_].
  - exfalso. apply N. now left.
  - apply IH. intro I. apply N. now right.
Qed.

(** Reading a mapping back by its distinct column names gives the row it
    was made from. *)
Lemma cells_of_combine (columns : list string) :
  forall row : list value,
    NoDup columns -> List.length row = List.length columns ->
    forall front : pydict,
      (forall c, In c columns -> dict_get c front = None) ->
      map (cell (front ++ combine columns row)%list) columns = row.
Proof.
  induction columns as [|k ks IH]; intros [|v row] ND L front F;
    try discriminate; simpl; [ reflexivity | ].
  inversion ND; subst. f_equal.
  - unfold cell. rewrite dict_get_app, F by now left.
    simpl. now rewrite String.eqb_refl.
  - specialize (IH row H2 ltac:(simpl in L; lia) (front ++ [(k, v)])%list).
    rewrite <- app_assoc in IH. apply IH.
    intros c I. rewrite dict_get_app, F by now right. simpl.
    destruct (String.eqb_spec k c) as [->|_]; [ contradiction | reflexivity ].
Qed.

(** X24.  Rendering what [exec] returns for distinct column names puts
    the fetched table on the sheet as it is: the header row is the
    column names and the data rows are the fetched rows, in order.  An
    empty list of records is refused with [ValueError]. *)
Theorem generate_excel_report_of_rows (columns : list string)
    (row : list value) (rows : list (list value)) :
  NoDup columns ->
  Forall (fun r => List.length r = List.length columns) (row :: rows) ->
  generate_excel_report workbook_bytes (map (combine columns) (row :: rows))
  = Ret (workbook_bytes columns (row :: rows))
  /\ generate_excel_report workbook_bytes []
     = Raise (ValueError "Data list is empty.").
Proof.
  intros ND L. split; [ | reflexivity ].
  unfold generate_excel_report. cbn [map].
  inversion L as [|? ? L0 Lr]; subst.
  rewrite (keys_combine columns row L0). do 2 f_equal.
  change (map (fun r => map (cell r) columns)
            (map (combine columns) (row :: rows)) = row :: rows).
  rewrite map_map.
  clear L0 Lr. induction L as [|r rs Hr Hrs IH]; simpl; [ reflexivity | ].
  f_equal; [ | exact IH ].
  exact (cells_of_combine columns r ND Hr [] (fun _ _ => eq_refl)).
Qed.

End Rendering.

Lemma max_length_from (col : list value) :
  forall start : nat,
    let m := fold_left (fun max_length v =>
                          if truthy_value v
                          then Nat.max max_length (String.length (py_str v))
                          else max_length) col start in
    (start <= m)%nat /\
    (forall v, In v col -> truthy_value v = true ->
               (String.length (py_str v) <= m)%nat) /\
    (m = start \/
     exists v, In v col /\ truthy_value v = true /\
               m = String.length (py_str v)).
Proof.
  induction col as [|v col IH]; intro start; simpl.
  - repeat split; auto. intros v [].
  - destruct (IH (if truthy_value v
                  then Nat.max start (String.length (py_str v))
                  else start)) as (B & F & A).
    destruct (truthy_value v) eqn:T.
    + split; [ lia | ]. split.
      * intros u [<-|I] Tu; [ lia | auto ].
      * destruct A as [A|(u & I & Tu & A)].
        -- destruct (Nat.max_spec start (String.length (py_str v)))
             as [[_ M]|[_ M]]; rewrite M in *.
           ++ right. exists v. repeat split; [ now left | exact T | exact A ].
           ++ left. exact A.
        -- right. exists u. repeat split; [ now right | exact Tu | exact A ].
    + split; [ exact B | ]. split.
      * intros u [<-|I] Tu; [ congruence | auto ].
      * destruct A as [A|(u & I & Tu & A)]; [ left; exact A | ].
        right. exists u. repeat split; [ now right | exact Tu | exact A ].
Qed.

(** One column: every truthy cell fits with two to spare, the bound is
    reached by one of them unless the width is 2, and it is 2 when all
    cells are falsy. *)
Lemma adjusted_width_spec (col : list value) :
  (forall v, In v col -> truthy_value v = true ->
             (String.length (py_str v) + 2 <= adjusted_width col)%nat) /\
  (adjusted_width col = 2%nat \/
   exists v, In v col /\ truthy_value v = true /\
             adjusted_width col = (String.length (py_str v) + 2)%nat) /\
  (Forall (fun v => truthy_value v = false) col -> adjusted_width col = 2%nat).
Proof.
  unfold adjusted_width, max_length.
  destruct (max_length_from col 0) as (_ & F & A). simpl in *.
  split; [ | split ].
  - intros v I T. specialize (F v I T). lia.
  - destruct A as [A|(v & I & T & A)]; [ left; lia | ].
    right. exists v. repeat split; auto; lia.
  - intro N. destruct A as [A|(v & I & T & _)]; [ lia | ].
    rewrite Forall_forall in N. rewrite (N v I) in T. discriminate.
Qed.

(** X25.  [_auto_adjust_width] sets one width per column, two more than
    the longest text among the column's truthy cells: every such cell
    fits with two to spare, the width is reached by one of them unless
    it is 2, and a column whose cells are all falsy ([None], [0], the
    empty string) gets width 2. *)
Theorem auto_adjust_width_fits (columns : list (list value)) :
  Forall2 (fun col width =>
             (forall v, In v col -> truthy_value v = true ->
                        (String.length (py_str v) + 2 <= width)%nat) /\
             (width = 2%nat \/
              exists v, In v col /\ truthy_value v = true /\
                        width = (String.length (py_str v) + 2)%nat) /\
             (Forall (fun v => truthy_value v = false) col -> width = 2%nat))
    columns (auto_adjust_width columns).
Proof.
  unfold auto_adjust_width.
  induction columns as [|col columns IH]; simpl; constructor;
    [ apply adjusted_width_spec | exact IH ].
Qed.

(** * Properties of the configuration loader *)

Lemma split_not_nil (s : string) : Config.split s <> [].
Proof.
  induction s as [|c s IH]; simpl; [ discriminate | ].
  destruct (Ascii.eqb c Config.newline); [ discriminate | ].
  destruct (Config.split s); discriminate.
Qed.

(** Joining the lines of a text gives the text back. *)
Lemma join_split (s : string) : Config.join (Config.split s) = s.
Proof.
  induction s as [|c s IH]; simpl; [ reflexivity | ].
  pose proof (split_not_nil s) as H.
  destruct (Ascii.eqb_spec c Config.newline) as [->|N];
    destruct (Config.split s) as [|l ls] eqn:E; try congruence;
    simpl in *; [ now rewrite IH | ].
  destruct ls; simpl in *; now rewrite <- IH.
Qed.

Lemma split_one_line (s : string) :
  Forall (fun line => one_line line = true) (Config.split s).
Proof.
  induction s as [|c s IH]; simpl; [ repeat constructor | ].
  destruct (Ascii.eqb c Config.newline) eqn:N.
  - constructor; [ reflexivity | exact IH ].
  - destruct (Config.split s) as [|l ls]; inversion IH; subst;
      constructor; simpl; rewrite ?N; auto.
Qed.

Lemma split_line (a : string) :
  one_line a = true -> Config.split a = [a].
Proof.
  induction a as [|c a IH]; simpl; [ reflexivity | ].
  intro H. apply andb_prop in H. destruct H as [N L].
  apply negb_true_iff in N. rewrite N, (IH L). reflexivity.
Qed.

Lemma split_line_then (a b : string) :
  one_line a = true ->
  Config.split (a ++ String Config.newline b) = a :: Config.split b.
Proof.
  induction a as [|c a IH]; simpl; intro H.
  - reflexivity.
  - apply andb_prop in H. destruct H as [N L].
    apply negb_true_iff in N. rewrite N, (IH L). reflexivity.
Qed.

(** Splitting what was joined gives the lines back, if there is one at
    least and none holds a line break. *)
Lemma split_join (lines : list string) :
  lines <> [] ->
  Forall (fun line => one_line line = true) lines ->
  Config.split (Config.join lines) = lines.
Proof.
  induction lines as [|l ls IH]; intros N F; [ congruence | ].
  inversion F; subst. destruct ls as [|l' ls].
  - simpl. now apply split_line.
  - change (Config.join (l :: l' :: ls))
      with (l ++ String Config.newline (Config.join (l' :: ls))).
    rewrite split_line_then by assumption.
    rewrite IH; [ reflexivity | discriminate | assumption ].
Qed.

Lemma kept_lines_spec (content : string) :
  Forall (fun line => one_line line = true) (kept_lines content) /\
  Forall (fun line => Config.is_comment line = false) (kept_lines content).
Proof.
  unfold kept_lines. split.
  - apply Forall_forall. intros l I. apply filter_In in I.
    destruct I as [I _].
    pose proof (split_one_line content) as F.
    rewrite Forall_forall in F. auto.
  - apply Forall_forall. intros l I. apply filter_In in I.
    destruct I as [_ I]. now apply negb_true_iff in I.
Qed.

(** X26.  The text handed to the JSON parser holds no comment line; what
    it holds are the other lines of the file, in order and unchanged.  A
    file without comment lines is handed over as it is, and cleaning a
    cleaned text changes nothing. *)
Theorem cleaned_drops_comment_lines (content : string) :
  Forall (fun line => Config.is_comment line = false)
    (Config.split (Config.cleaned content)) /\
  (kept_lines content <> [] ->
   Config.split (Config.cleaned content) = kept_lines content) /\
  (Forall (fun line => Config.is_comment line = false) (Config.split content) ->
   Config.cleaned content = content) /\
  Config.cleaned (Config.cleaned content) = Config.cleaned content.
Proof.
  destruct (kept_lines_spec content) as [L C].
  assert (S : kept_lines content <> [] ->
              Config.split (Config.cleaned content) = kept_lines content).
  { intro N. apply split_join; assumption. }
  assert (A : Forall (fun line => Config.is_comment line = false)
                (Config.split (Config.cleaned content))).
  { destruct (kept_lines content) as [|l ls] eqn:E.
    - unfold Config.cleaned. fold (kept_lines content). rewrite E. simpl.
      repeat constructor.
    - rewrite S by discriminate. exact C. }
  assert (K : forall s,
             Forall (fun line => Config.is_comment line = false)
               (Config.split s) ->
             Config.cleaned s = s).
  { intros s F. unfold Config.cleaned.
    rewrite forallb_filter_id; [ apply join_split | ].
    apply forallb_forall. rewrite Forall_forall in F.
    intros l I. now rewrite (F l I). }
  repeat split; auto.
Qed.

Lemma rstrip_head (c : ascii) (s : string) :
  Config.rstrip (String c s) = EmptyString \/
  Config.rstrip (String c s) = String c (Config.rstrip s).
Proof.
  simpl. destruct (Config.rstrip s); [ | now right ].
  destruct (Config.isspace c); [ now left | now right ].
Qed.

Lemma rstrip_keeps (c : ascii) (s : string) :
  Config.isspace c = false ->
  Config.rstrip (String c s) = String c (Config.rstrip s).
Proof.
  intro N. simpl. destruct (Config.rstrip s); [ | reflexivity ].
  now rewrite N.
Qed.

Lemma prefix_empty (s : string) : String.prefix EmptyString s = true.
Proof. destruct s; reflexivity. Qed.

(** Starting with two slashes, character by character. *)
Lemma startswith_slashes (s : string) :
  Config.startswith s "//"
  = match s with
    | String c1 (String c2 _) => Ascii.eqb c1 "/" && Ascii.eqb c2 "/"
    | _ => false
    end.
Proof.
  unfold Config.startswith.
  destruct s as [|c1 [|c2 s]]; cbn -[ascii_dec]; try reflexivity.
  - destruct (ascii_dec "/" c1) as [<-|N]; [ reflexivity | ].
    destruct (Ascii.eqb_spec c1 "/"); [ congruence | reflexivity ].
  - destruct (ascii_dec "/" c1) as [<-|N1].
    + destruct (ascii_dec "/" c2) as [<-|N2].
      * now rewrite prefix_empty.
      * destruct (Ascii.eqb_spec c2 "/"); [ congruence | reflexivity ].
    + destruct (Ascii.eqb_spec c1 "/"); [ congruence | reflexivity ].
Qed.

(** Stripping at the right does not change whether a text starts with
    two slashes. *)
Lemma startswith_rstrip (s : string) :
  Config.startswith (Config.rstrip s) "//" = Config.startswith s "//".
Proof.
  rewrite !startswith_slashes.
  destruct s as [|c1 s]; [ reflexivity | ].
  destruct (Ascii.eqb_spec c1 "/") as [->|N1].
  - rewrite rstrip_keeps by reflexivity.
    destruct s as [|c2 s]; [ reflexivity | ].
    destruct (Ascii.eqb_spec c2 "/") as [->|N2].
    + rewrite rstrip_keeps by reflexivity. reflexivity.
    + assert (E2 : Ascii.eqb c2 "/" = false) by now apply Ascii.eqb_neq.
      destruct (rstrip_head c2 s) as [-> | ->]; rewrite ?E2; reflexivity.
  - assert (E1 : Ascii.eqb c1 "/" = false) by now apply Ascii.eqb_neq.
    destruct (rstrip_head c1 s) as [-> | ->];
      destruct (Config.rstrip s); destruct s; rewrite ?E1; reflexivity.
Qed.

Lemma lstrip_spec (s : string) :
  exists ws, blank ws = true /\ s = ws ++ Config.lstrip s.
Proof.
  induction s as [|c s (ws & B & E)]; simpl.
  - exists EmptyString. auto.
  - destruct (Config.isspace c) eqn:W.
    + exists (String c ws). simpl. rewrite W, B. split; [ reflexivity | ].
      now rewrite <- E.
    + exists EmptyString. auto.
Qed.

Lemma lstrip_blank (ws rest : string) :
  blank ws = true ->
  Config.lstrip (ws ++ String "/" rest) = String "/" rest.
Proof.
  induction ws as [|c ws IH]; simpl; intro B; [ reflexivity | ].
  apply andb_prop in B. destruct B as [W B]. rewrite W. auto.
Qed.

(** X27.  A line is dropped as a comment exactly when its first
    characters after leading white space are two slashes: a comment that
    follows other text on its line stays in the text. *)
Theorem is_comment_iff (line : string) :
  Config.is_comment line = true <->
  exists ws rest, blank ws = true /\ line = ws ++ "//" ++ rest.
Proof.
  unfold Config.is_comment, Config.strip.
  rewrite startswith_rstrip, startswith_slashes.
  split.
  - intro P. destruct (lstrip_spec line) as (ws & B & E).
    destruct (Config.lstrip line) as [|c1 [|c2 rest]]; try discriminate.
    apply andb_prop in P. destruct P as [P1 P2].
    apply Ascii.eqb_eq in P1, P2. subst c1 c2.
    exists ws, rest. auto.
  - intros (ws & rest & B & ->). simpl.
    rewrite (lstrip_blank ws _ B). reflexivity.
Qed.

Section Loader.

Variable json : Type.
Variable is_dict : json -> bool.
Variable isfile : string -> bool.
Variable read : string -> Config.exc + string.
Variable loads : string -> Config.exc + json.

(** X28.  What [load_configs] returns is a JSON object, parsed from the
    cleaned text of an existing file, and nothing was logged on the
    way. *)
Theorem load_configs_returns (config_file : string) (log : list string)
    (config_data : json) :
  Config.load_configs json is_dict isfile read loads config_file
  = (log, inr config_data) ->
  log = [] /\ isfile config_file = true /\ is_dict config_data = true /\
  exists content,
    read config_file = inr content /\
    loads (Config.cleaned content) = inr config_data.
Proof.
  unfold Config.load_configs, Config.load_body.
  destruct (isfile config_file); simpl; [ | discriminate ].
  destruct (read config_file) as [e|content]; simpl.
  - destruct (Config.is_FileNotFoundError_or_ValueError e); discriminate.
  - destruct (loads (Config.cleaned content)) as [e|data] eqn:L; simpl.
    + destruct e; simpl; discriminate.
    + destruct (is_dict data) eqn:D; simpl; [ | discriminate ].
      intro H. inversion H; subst.
      split; [ reflexivity | ]. split; [ reflexivity | ].
      split; [ exact D | ].
      exists content. split; [ reflexivity | exact L ].
Qed.

(** X29.  The only exceptions [load_configs] lets out are
    [FileNotFoundError], [ValueError] (or one of its subclasses) and a
    plain [Exception] that wraps anything else; it logs at most one
    line.  A missing file is reported, and logged, as
    [FileNotFoundError] without reading or parsing anything; text that
    is not JSON, and JSON that is not an object, as [ValueError]. *)
Theorem load_configs_raises (config_file : string) :
  (forall log e,
     Config.load_configs json is_dict isfile read loads config_file
     = (log, inl e) ->
     (List.length log <= 1)%nat /\
     (Config.is_FileNotFoundError_or_ValueError e = true \/
      exists msg, e = Config.Exception msg /\ log = [msg]))
  /\ (isfile config_file = false ->
      Config.load_configs json is_dict isfile read loads config_file
      = (["Configuration file not found: " ++ config_file],
         inl (Config.FileNotFoundError
                ("Configuration file not found: " ++ config_file))))
  /\ (forall content,
       isfile config_file = true -> read config_file = inr content ->
       (forall m,
          loads (Config.cleaned content) = inl (Config.JSONDecodeError m) ->
          exists msg,
            Config.load_configs json is_dict isfile read loads config_file
            = ([msg], inl (Config.ValueError msg)))
       /\ (forall config_data,
            loads (Config.cleaned content) = inr config_data ->
            is_dict config_data = false ->
            exists msg,
              Config.load_configs json is_dict isfile read loads config_file
              = ([msg], inl (Config.ValueError msg)))).
Proof.
  unfold Config.load_configs, Config.load_body.
  split; [ | split ].
  - intros log e.
    destruct (isfile config_file); simpl.
    + destruct (read config_file) as [x|content]; simpl.
      * destruct x; simpl; intro H; inversion H; subst; simpl;
          (split; [ lia | ]); eauto.
      * destruct (loads (Config.cleaned content)) as [x|data]; simpl.
        -- destruct x; simpl; intro H; inversion H; subst; simpl;
             (split; [ lia | ]); eauto.
        -- destruct (is_dict data); simpl; intro H; inversion H; subst;
             simpl; (split; [ lia | ]); eauto.
    + intro H. inversion H; subst. simpl. split; [ lia | ]. eauto.
  - intros ->. reflexivity.
  - intros content -> ->. simpl. split.
    + intros m ->. simpl. eauto.
    + intros data -> ->. simpl. eauto.
Qed.

End Loader.

(** * The further properties on concrete runs *)

Lemma close_idempotent_witness :
  close connected
  = ({| self := instance None None;
        events := [EvCursorClose; EvConnClose] |}, Ret tt)
  /\ close {| self := instance None None;
              events := [EvCursorClose; EvConnClose] |}
     = ({| self := instance None None;
           events := [EvCursorClose; EvConnClose] |}, Ret tt).
Proof.
  split; [ reflexivity | ].
  exact (proj2 (proj2 (close_idempotent connected _ eq_refl))).
Defined.

Lemma is_connected_iff_live_witness :
  conn (self closed) = None /\
  exists w',
    is_connected unreachable closed = (w', Ret false) /\
    events w' = events closed.
Proof.
  split; [ reflexivity | ].
  destruct (is_connected_iff_live unreachable closed)
    as (w' & b & E & _ & _ & H).
  destruct (H eq_refl) as [-> T]. exists w'. auto.
Defined.

Lemma fetch_data_returns_closed_witness :
  exists t',
    events (fst (fetch_data_world (answering (Ret ops_result)) db_settings
                   (Date.mk 2025 3 1) (Date.mk 2025 3 31) []))
    = (t' ++ [EvCommit; EvCursorClose; EvConnClose])%list.
Proof.
  exact (proj2 (proj2
           (fetch_data_returns_closed (answering (Ret ops_result)) db_settings
              (Date.mk 2025 3 1) (Date.mk 2025 3 31) [] _
              (Rows (map (combine ops_columns) ops_rows)) eq_refl))).
Defined.

Lemma fetch_data_without_session_witness :
  fetch_data unreachable db_settings (Date.mk 2025 3 1) (Date.mk 2025 3 31) []
  = ([EvConnect connection_string_of_instance;
      connect_failure (DriverError "08001 server not found");
      EvConnect connection_string_of_instance;
      connect_failure (DriverError "08001 server not found");
      EvLog ERROR "Failed to connect to database";
      EvLog ERROR "Database connection error: Failed to connect to database"],
     Raise (ConnectionError "Failed to connect to database")).
Proof.
  exact (proj1 (fetch_data_without_session unreachable db_settings
                  (Date.mk 2025 3 1) (Date.mk 2025 3 31) [])
           connection_string_of_instance
           (DriverError "08001 server not found") eq_refl eq_refl).
Defined.

Lemma main_aborts_before_fetch_witness :
  main unreachable Strptime.parse (Date.mk 2025 4 2) one_byte_per_cell
    (mail_service 200) disk (between_args "2025-03-31" "2025-03-01") march_path
    (Ret settings) []
  = ((startup march_path
      ++ failure_report
           (ValueError
              "Invalid date format: Start date cannot be after end date"))%list,
     Ret 1).
Proof.
  exact (proj2 (main_aborts_before_fetch unreachable Strptime.parse
                  (Date.mk 2025 4 2) one_byte_per_cell (mail_service 200) disk
                  (between_args "2025-03-31" "2025-03-01") march_path []
                  (ValueError
                     "Invalid date format: Start date cannot be after end date"))
           settings eq_refl).
Defined.

Lemma main_fetch_failure_witness :
  (main_body (answering (Raise query_error)) Strptime.parse (Date.mk 2025 4 2)
     one_byte_per_cell (mail_service 200) disk march_2025 march_path
     (Ret settings) []
   = (march_fetched (Raise query_error), Raise query_error) /\
   snd (main (answering (Raise query_error)) Strptime.parse (Date.mk 2025 4 2)
          one_byte_per_cell (mail_service 200) disk march_2025 march_path
          (Ret settings) [])
   = Ret 1 /\
   exists rest,
     fst (main (answering (Raise query_error)) Strptime.parse
            (Date.mk 2025 4 2) one_byte_per_cell (mail_service 200) disk
            march_2025 march_path (Ret settings) [])
     = (march_fetched (Raise query_error) ++ failure_report query_error
        ++ rest)%list)
  /\ snd (main (answering (Ret broken_fetch)) Strptime.parse (Date.mk 2025 4 2)
            one_byte_per_cell (mail_service 200) disk march_2025 march_path
            (Ret settings) [])
     = Ret 1.
Proof.
  split.
  - exact (proj1 (main_fetch_failure (answering (Raise query_error))
                    Strptime.parse (Date.mk 2025 4 2) one_byte_per_cell
                    (mail_service 200) disk march_2025 march_path settings
                    db_settings (Date.mk 2025 3 1) (Date.mk 2025 3 31) []
                    (march_fetched (Raise query_error)) eq_refl eq_refl)
             query_error eq_refl).
  - exact (proj1 (proj2
             (proj2 (main_fetch_failure (answering (Ret broken_fetch))
                       Strptime.parse (Date.mk 2025 4 2) one_byte_per_cell
                       (mail_service 200) disk march_2025 march_path settings
                       db_settings (Date.mk 2025 3 1) (Date.mk 2025 3 31) []
                       (march_fetched (Ret broken_fetch)) eq_refl eq_refl)
                (-1) eq_refl))).
Defined.

Lemma main_no_rows_witness :
  main (answering (Ret no_rows)) Strptime.parse (Date.mk 2025 4 2)
    one_byte_per_cell (mail_service 200) disk march_2025 march_path (Ret settings) []
  = ((march_fetched (Ret no_rows) ++ no_data_report)%list, Ret 0).
Proof.
  exact (main_no_rows (answering (Ret no_rows)) Strptime.parse
           (Date.mk 2025 4 2) one_byte_per_cell (mail_service 200) disk march_2025
           march_path settings db_settings (Date.mk 2025 3 1)
           (Date.mk 2025 3 31) [] (march_fetched (Ret no_rows))
           eq_refl eq_refl eq_refl).
Defined.

Lemma main_saves_locally_witness :
  main (answering (Ret ops_result)) Strptime.parse (Date.mk 2025 4 2)
    one_byte_per_cell (mail_service 200) disk march_2025 march_path
    (Ret settings_without_mail) []
  = ((march_fetch
      ++ saved_locally 2 march_excel "Report_20250301_to_20250331.xlsx")%list,
     Ret 0)
  /\ main (answering (Ret ops_result)) Strptime.parse (Date.mk 2025 4 2)
       one_byte_per_cell (mail_service 200) read_only march_2025 march_path
       (Ret settings_without_mail) []
     = ((march_fetch
         ++ local_write 2 march_excel "Report_20250301_to_20250331.xlsx"
         ++ failure_report
              (OSError "[Errno 30] Read-only file system: 'Report_20250301_to_20250331.xlsx'"))%list,
        Ret 1).
Proof.
  split.
  - refine (proj1 (main_saves_locally (answering (Ret ops_result))
                     Strptime.parse (Date.mk 2025 4 2) one_byte_per_cell
                     (mail_service 200) disk
                     march_2025 march_path settings_without_mail db_settings
                     (Date.mk 2025 3 1) (Date.mk 2025 3 31)
                     (combine ops_columns (hd [] ops_rows))
                     (map (combine ops_columns) (tl ops_rows))
                     march_excel [] march_fetch
                     eq_refl eq_refl eq_refl eq_refl eq_refl _ _) eq_refl);
      simpl; lia.
  - refine (proj1 (proj2
              (main_saves_locally (answering (Ret ops_result))
                 Strptime.parse (Date.mk 2025 4 2) one_byte_per_cell
                 (mail_service 200) read_only
                 march_2025 march_path settings_without_mail db_settings
                 (Date.mk 2025 3 1) (Date.mk 2025 3 31)
                 (combine ops_columns (hd [] ops_rows))
                 (map (combine ops_columns) (tl ops_rows))
                 march_excel [] march_fetch
                 eq_refl eq_refl eq_refl eq_refl eq_refl _ _)) _ eq_refl);
      simpl; lia.
Defined.

Lemma main_delivery_success_witness :
  main (answering (Ret ops_result)) Strptime.parse (Date.mk 2025 4 2)
    one_byte_per_cell (mail_service 202) disk march_2025 march_path (Ret settings) []
  = ((march_mail_accepted ++ delivered)%list, Ret 0).
Proof.
  exact (proj1 (main_delivery_success (answering (Ret ops_result))
                  Strptime.parse (Date.mk 2025 4 2) one_byte_per_cell
                  (mail_service 202) disk march_2025 march_path settings
                  db_settings mail_settings mail_recipients
                  (Date.mk 2025 3 1) (Date.mk 2025 3 31)
                  (combine ops_columns (hd [] ops_rows))
                  (map (combine ops_columns) (tl ops_rows))
                  march_excel [] march_fetch march_mail_accepted
                  eq_refl eq_refl eq_refl eq_refl eq_refl eq_refl eq_refl
                  eq_refl)).
Defined.

Lemma send_email_missing_setting_witness :
  exists present param rest,
    required_config = (present ++ param :: rest)%list /\
    forallb (mail_has mail_settings_without_key) present = true /\
    mail_has mail_settings_without_key param = false /\
    send_email_with_attachment (mail_service 200) (Date.mk 2025 4 2)
      mail_recipients march_excel mail_settings_without_key []
    = ([missing_setting param], Ret false).
Proof.
  exact (send_email_missing_setting (mail_service 200) (Date.mk 2025 4 2)
           mail_recipients march_excel mail_settings_without_key [] eq_refl).
Defined.

Lemma send_email_no_valid_recipient_witness :
  send_email_with_attachment (mail_service 200) (Date.mk 2025 4 2)
    (MRecipients [[("name", "Ana")]]) march_excel mail_settings []
  = ([skip_warning; EvLog ERROR "No valid recipients provided"], Ret false).
Proof.
  exact (send_email_no_valid_recipient (mail_service 200) (Date.mk 2025 4 2)
           [[("name", "Ana")]] march_excel mail_settings [] eq_refl eq_refl).
Defined.

Lemma send_email_posts_witness :
  exists api_url api_key body,
    mail_get "api_url" mail_settings = Some api_url /\
    mail_get "api_key" mail_settings = Some api_key /\
    map bcc_address (p_bcc body) = ["luis@example.org"] /\
    p_attachment body = march_excel /\
    send_email_with_attachment (mail_service 500) (Date.mk 2025 4 2)
      (MRecipients mixed_recipients) march_excel mail_settings []
    = ([skip_warning; EvPost api_url api_key body;
        EvLog ERROR "Failed to send email. Status code: 500"], Ret false).
Proof.
  refine (send_email_posts (mail_service 500) (Date.mk 2025 4 2)
            mixed_recipients march_excel mail_settings [] eq_refl _).
  discriminate.
Defined.

Lemma generate_excel_report_of_rows_witness :
  generate_excel_report one_byte_per_cell (map (combine ops_columns) ops_rows)
  = Ret (one_byte_per_cell ops_columns ops_rows).
Proof.
  refine (proj1 (generate_excel_report_of_rows one_byte_per_cell ops_columns
                   (hd [] ops_rows) (tl ops_rows) NoDup_ops_columns _)).
  repeat constructor.
Defined.

Lemma cleaned_drops_comment_lines_witness :
  Config.split (Config.cleaned toy_content) = ["{}"].
Proof.
  refine (proj1 (proj2 (cleaned_drops_comment_lines toy_content)) _).
  discriminate.
Defined.

Lemma load_configs_returns_witness :
  toy_isfile "reporter.conf" = true /\ toy_is_dict Object = true /\
  exists content,
    toy_read "reporter.conf" = inr content /\
    toy_loads (Config.cleaned content) = inr Object.
Proof.
  exact (proj2 (load_configs_returns toy_json toy_is_dict toy_isfile toy_read
                  toy_loads "reporter.conf" [] Object eq_refl)).
Defined.

Lemma load_configs_raises_witness :
  Config.load_configs toy_json toy_is_dict toy_isfile toy_read toy_loads
    "missing.conf"
  = (["Configuration file not found: missing.conf"],
     inl (Config.FileNotFoundError
            "Configuration file not found: missing.conf")).
Proof.
  exact (proj1 (proj2 (load_configs_raises toy_json toy_is_dict toy_isfile
                         toy_read toy_loads "missing.conf")) eq_refl).
Defined.
